(** * Session credential management of the task-management service

    A shallow embedding of
      - [server/src/utils/jwt.ts]                 (credential signer),
      - the auth controller (register, login, refresh, logout),
      - the authentication middleware,
      - [server/src/controllers/taskController.ts] (the task routes),
      - [client/src/lib/apiClient.ts]              (refresh coordinator),
    followed by the properties of the specification that concern them.

    Conventions.  A [Date] is a [Z], milliseconds since the epoch.  A table
    is the list of its rows in insertion order.  An [async] handler is a
    tree of store calls ([Async.Prog]): every [await prisma....] is one
    node, the store executes a node atomically, and other requests may run
    between two nodes.  A request body is a JSON object; each of its
    fields is a JSON value or absent.  A string is held as its UTF-8
    bytes. *)

From Stdlib Require Import ZArith String Ascii List Bool Lia DecimalString.
From stdpp Require Import base option strings list gmap.
Import ListNotations.
Open Scope string_scope.
Open Scope Z_scope.

(* ===================================================================== *)
(** * JavaScript helpers *)
(* ===================================================================== *)

Module Js.

(** Truthiness of a value that is a string or [undefined]. *)
Definition truthy (v : option string) : bool :=
  match v with
  | Some s => negb (String.eqb s "")
  | None => false
  end.

(** [a || b] on such values, with a string literal as last resort. *)
Definition or (a b : option string) : option string :=
  if truthy a then a else b.

Definition or_lit (a : option string) (lit : string) : string :=
  match a with
  | Some s => if String.eqb s "" then lit else s
  | None => lit
  end.

Definition isSome {A} (o : option A) : bool :=
  match o with Some _ => true | None => false end.

(** A value read from a JSON body.  Of a number only whether it is
    zero is kept: no code here looks further into one. *)
#[warnings="-register-all"]
Inductive Json : Type :=
| JNull
| JBool (b : bool)
| JNumber (isZero : bool)
| JString (s : string)
| JArray (items : list Json)
| JObject (fields : list (string * Json)).

(** Truthiness of a property that holds such a value or is
    [undefined]. *)
Definition truthyJ (v : option Json) : bool :=
  match v with
  | None | Some JNull => false
  | Some (JBool b) => b
  | Some (JNumber isZero) => negb isZero
  | Some (JString s) => negb (String.eqb s "")
  | Some (JArray _) | Some (JObject _) => true
  end.

(** UTF-16 code units of the text whose UTF-8 bytes are [s]: a byte
    that starts a code point counts one, or two when the code point lies
    above U+FFFF; the [pending] continuation bytes of a code point count
    nothing; a continuation byte out of place counts one, as the
    replacement character a decoder puts there. *)
Fixpoint utf16 (pending : nat) (s : string) : nat :=
  match s with
  | "" => 0
  | String c s' =>
      let n := Ascii.nat_of_ascii c in
      if (n <? 128)%nat then S (utf16 0 s')
      else if (n <? 192)%nat
      then match pending with
           | S p => utf16 p s'
           | O => S (utf16 0 s')
           end
      else if (n <? 224)%nat then S (utf16 1 s')
      else if (n <? 240)%nat then S (utf16 2 s')
      else S (S (utf16 3 s'))
  end.

(** [s.length] *)
Definition length (s : string) : nat := utf16 0 s.

End Js.

(* ===================================================================== *)
(** * The zod schemas *)
(* ===================================================================== *)

Module Zod.

(** [z.string()] on a property of the body: the string, or an issue
    when the property is absent or holds anything else. *)
Definition string (v : option Js.Json) : option String.string :=
  match v with
  | Some (Js.JString s) => Some s
  | _ => None
  end.

(** [.min(n)] on a string *)
Definition min (n : nat) (s : String.string) : option String.string :=
  if (n <=? Js.length s)%nat then Some s else None.

(** [schema.optional()]: [undefined] passes as it is, anything else
    goes to the schema. *)
Definition optional {B} (parse : option Js.Json -> option B) (v : option Js.Json)
  : option (option B) :=
  match v with
  | None => Some None
  | Some _ => option_map Some (parse v)
  end.

End Zod.

(* ===================================================================== *)
(** * The jsonwebtoken library and [utils/jwt.ts] *)
(* ===================================================================== *)

Module Jwt.

(** Payload of a token: the claim put in by the caller and the two
    timestamps (seconds) the library adds. *)
Record Claims : Type := mkClaims
  { userId : string; iat : Z; exp : Z }.

Inductive VerifyError : Type :=
| JsonWebTokenError   (* malformed token or invalid signature *)
| TokenExpiredError.  (* clock is at or past [exp] *)

(** The wire format and the MAC are the library's business.  The model
    is parametric in them: how a payload and a secret make a token
    string, how a token string is read back, and whether the signature
    part of a token matches a secret. *)
Class Codec : Type :=
  { encode : Claims -> string -> string;
    decode : string -> option Claims;
    signature_ok : string -> string -> bool }.

Record ProcessEnv : Type := mkProcessEnv
  { JWT_SECRET : option string;
    ACCESS_TOKEN_SECRET_var : option string;
    JWT_REFRESH_SECRET : option string;
    REFRESH_TOKEN_SECRET_var : option string }.

Section Signer.
Context {codec : Codec} (env : ProcessEnv).

(** [jwt.sign(payload, secret, { expiresIn })] at clock [now] (ms). *)
Definition sign (uid secret : string) (expiresIn now : Z) : string :=
  let t := now / 1000 in
  encode (mkClaims uid t (t + expiresIn)) secret.

(** [jwt.verify(token, secret)] at clock [now] (ms): returns the
    payload or throws. *)
Definition verify (token secret : string) (now : Z)
  : VerifyError + Claims :=
  match decode token with
  | None => inl JsonWebTokenError
  | Some c =>
      if signature_ok token secret
      then if exp c <=? now / 1000 then inl TokenExpiredError else inr c
      else inl JsonWebTokenError
  end.

Definition ACCESS_TOKEN_SECRET : string :=
  Js.or_lit (Js.or (JWT_SECRET env) (ACCESS_TOKEN_SECRET_var env))
            "access-secret".

Definition REFRESH_TOKEN_SECRET : string :=
  Js.or_lit (Js.or (JWT_REFRESH_SECRET env) (REFRESH_TOKEN_SECRET_var env))
            "refresh-secret".

Definition minutes : Z := 60.
Definition days : Z := 24 * 60 * 60.

Definition generateAccessToken (now : Z) (uid : string) : string :=
  sign uid ACCESS_TOKEN_SECRET (15 * minutes) now.

Definition generateRefreshToken (now : Z) (uid : string) : string :=
  sign uid REFRESH_TOKEN_SECRET (7 * days) now.

Definition verifyAccessToken (now : Z) (token : string)
  : VerifyError + Claims :=
  verify token ACCESS_TOKEN_SECRET now.

Definition verifyRefreshToken (now : Z) (token : string)
  : VerifyError + Claims :=
  verify token REFRESH_TOKEN_SECRET now.

End Signer.

End Jwt.

(* ===================================================================== *)
(** * The relational store (Prisma client over the schema) *)
(* ===================================================================== *)

Module User.
Record t : Type := mk
  { id : string; email : string; password : string; name : string;
    createdAt : Z; updatedAt : Z }.

(** The projection [{ id, email, name }] sent to clients. *)
Record Public : Type := mkPublic
  { pid : string; pemail : string; pname : string }.

Definition public (u : t) : Public := mkPublic (id u) (email u) (name u).
End User.

Module RefreshToken.
Record t : Type := mk
  { id : string; token : string; userId : string;
    expiresAt : Z; createdAt : Z; revoked : bool }.

Definition revoke (r : t) : t :=
  mk (id r) (token r) (userId r) (expiresAt r) (createdAt r) true.

(** The [data] of a create, with the values the schema defaults supply
    for [id] ([uuid()]) and [createdAt] ([now()]) made explicit; the
    row is stored with [revoked] at its default, [false]. *)
Record Data : Type := mkData
  { d_id : string; d_token : string; d_userId : string;
    d_expiresAt : Z; d_createdAt : Z }.

Definition fresh (x : Data) : t :=
  mk (d_id x) (d_token x) (d_userId x) (d_expiresAt x) (d_createdAt x) false.
End RefreshToken.

Inductive TaskStatus : Type := PENDING | IN_PROGRESS | COMPLETED.

Module Task.
Record t : Type := mk
  { id : string; title : string; description : option string;
    status : TaskStatus; userId : string; createdAt : Z; updatedAt : Z }.

Definition with_status (s : TaskStatus) (at_ : Z) (k : t) : t :=
  mk (id k) (title k) (description k) s (userId k) (createdAt k) at_.
End Task.

Module Prisma.

Record Db : Type := mkDb
  { users : list User.t;
    refreshTokens : list RefreshToken.t;
    tasks : list Task.t }.

Definition empty : Db := mkDb [] [] [].

Definition with_refreshTokens (d : Db) (l : list RefreshToken.t) : Db :=
  mkDb (users d) l (tasks d).

Inductive Error : Type :=
| UniqueConstraintFailed      (* P2002 *)
| ForeignKeyConstraintFailed  (* P2003 *)
| RecordNotFound              (* P2025 *)
| StorageFault                (* connection lost, timeout, ... *)
| ValidationFailed.           (* PrismaClientValidationError: the client
                                 refuses the arguments of a call *)

(** ** Reads *)

Definition user_by_email (e : string) (d : Db) : option User.t :=
  List.find (fun u => String.eqb (User.email u) e) (users d).

Definition user_by_id (i : string) (d : Db) : option User.t :=
  List.find (fun u => String.eqb (User.id u) i) (users d).

Definition token_by_token (tok : string) (d : Db) : option RefreshToken.t :=
  List.find (fun r => String.eqb (RefreshToken.token r) tok) (refreshTokens d).

Definition token_by_id (i : string) (d : Db) : option RefreshToken.t :=
  List.find (fun r => String.eqb (RefreshToken.id r) i) (refreshTokens d).

(** [where: { id, userId }]: an [undefined] [userId] is no condition. *)
Definition task_matches (i : string) (uid : option string) (k : Task.t) : bool :=
  String.eqb (Task.id k) i &&
  match uid with
  | Some u => String.eqb (Task.userId k) u
  | None => true
  end.

Definition task_first (i : string) (uid : option string) (d : Db) : option Task.t :=
  List.find (task_matches i uid) (tasks d).

(** ** Writes.  Each returns the new store or the constraint it broke. *)

Definition user_create (u : User.t) (d : Db) : Error + Db :=
  if Js.isSome (user_by_id (User.id u) d) || Js.isSome (user_by_email (User.email u) d)
  then inl UniqueConstraintFailed
  else inr (mkDb (users d ++ [u]) (refreshTokens d) (tasks d)).

Definition refreshToken_create (x : RefreshToken.Data) (d : Db) : Error + Db :=
  if Js.isSome (token_by_id (RefreshToken.d_id x) d)
     || Js.isSome (token_by_token (RefreshToken.d_token x) d)
  then inl UniqueConstraintFailed
  else if Js.isSome (user_by_id (RefreshToken.d_userId x) d)
  then inr (with_refreshTokens d (refreshTokens d ++ [RefreshToken.fresh x]))
  else inl ForeignKeyConstraintFailed.

Definition revoke_where (p : RefreshToken.t -> bool) (l : list RefreshToken.t)
  : list RefreshToken.t :=
  List.map (fun r => if p r then RefreshToken.revoke r else r) l.

Definition count_where (p : RefreshToken.t -> bool) (l : list RefreshToken.t) : nat :=
  List.length (List.filter p l).

Definition has_id (i : string) (r : RefreshToken.t) : bool :=
  String.eqb (RefreshToken.id r) i.
Definition has_userId (u : string) (r : RefreshToken.t) : bool :=
  String.eqb (RefreshToken.userId r) u.
Definition has_token (tok : string) (r : RefreshToken.t) : bool :=
  String.eqb (RefreshToken.token r) tok.
Definition token_where (f : string -> bool) (r : RefreshToken.t) : bool :=
  f (RefreshToken.token r).

(** [refreshToken.update({ where: { id }, data: { revoked: true } })] *)
Definition refreshToken_update (i : string) (d : Db) : Error + Db :=
  if Js.isSome (token_by_id i d)
  then inr (with_refreshTokens d (revoke_where (has_id i) (refreshTokens d)))
  else inl RecordNotFound.

(** [refreshToken.updateMany({ where, data: { revoked: true } })] *)
Definition refreshToken_updateMany (p : RefreshToken.t -> bool) (d : Db) : Db :=
  with_refreshTokens d (revoke_where p (refreshTokens d)).

Definition task_update (i : string) (s : TaskStatus) (at_ : Z) (d : Db)
  : Error + (Task.t * Db) :=
  match task_first i None d with
  | None => inl RecordNotFound
  | Some k =>
      inr (Task.with_status s at_ k,
           mkDb (users d) (refreshTokens d)
             (List.map (fun k => if String.eqb (Task.id k) i
                                 then Task.with_status s at_ k else k)
                       (tasks d)))
  end.

(** ** Calls a handler can await *)

(** The writes a handler batches in [prisma.$transaction([...])]. *)
Inductive Write : Type :=
| W_refreshToken_update (id : string)
| W_refreshToken_create (data : RefreshToken.Data).

Definition apply_write (w : Write) (d : Db) : Error + Db :=
  match w with
  | W_refreshToken_update i => refreshToken_update i d
  | W_refreshToken_create r => refreshToken_create r d
  end.

Fixpoint apply_writes (ws : list Write) (d : Db) : Error + Db :=
  match ws with
  | [] => inr d
  | w :: ws' =>
      match apply_write w d with
      | inl e => inl e
      | inr d' => apply_writes ws' d'
      end
  end.

Inductive Query : Type :=
| User_findUnique_email (email : string)
| User_findUnique_id (id : string)              (* select id, email, name *)
| User_create (row : User.t)
| RefreshToken_findUnique (token : string)
| RefreshToken_create (data : RefreshToken.Data)
| RefreshToken_updateMany_userId (userId : string)
| RefreshToken_updateMany_token (token : string)
| RefreshToken_updateMany_where (token : string -> bool)  (* a filter on [token] *)
| Transaction (ws : list Write)
| Task_findFirst (id : string) (userId : option string)
| Task_update (id : string) (s : TaskStatus) (at_ : Z).

Definition Answer (q : Query) : Type :=
  match q with
  | User_findUnique_email _ => option User.t
  | User_findUnique_id _ => option User.Public
  | User_create _ => User.t
  | RefreshToken_findUnique _ => option RefreshToken.t
  | RefreshToken_create _ => RefreshToken.t
  | RefreshToken_updateMany_userId _ => nat
  | RefreshToken_updateMany_token _ => nat
  | RefreshToken_updateMany_where _ => nat
  | Transaction _ => unit
  | Task_findFirst _ _ => option Task.t
  | Task_update _ _ _ => Task.t
  end.

Definition lift_write {A} (a : A) (r : Error + Db) (d : Db) : (Error + A) * Db :=
  match r with
  | inl e => (inl e, d)
  | inr d' => (inr a, d')
  end.

(** One call, executed atomically by the store.  A failed call, and a
    failed transaction as a whole, leaves the store as it was. *)
Definition exec (q : Query) (d : Db) : (Error + Answer q) * Db :=
  match q return (Error + Answer q) * Db with
  | User_findUnique_email e => (inr (user_by_email e d), d)
  | User_findUnique_id i => (inr (option_map User.public (user_by_id i d)), d)
  | User_create u => lift_write u (user_create u d) d
  | RefreshToken_findUnique tok => (inr (token_by_token tok d), d)
  | RefreshToken_create x => lift_write (RefreshToken.fresh x) (refreshToken_create x d) d
  | RefreshToken_updateMany_userId u =>
      (inr (count_where (has_userId u) (refreshTokens d)),
       refreshToken_updateMany (has_userId u) d)
  | RefreshToken_updateMany_token tok =>
      (inr (count_where (has_token tok) (refreshTokens d)),
       refreshToken_updateMany (has_token tok) d)
  | RefreshToken_updateMany_where f =>
      (inr (count_where (token_where f) (refreshTokens d)),
       refreshToken_updateMany (token_where f) d)
  | Transaction ws => lift_write tt (apply_writes ws d) d
  | Task_findFirst i u => (inr (task_first i u d), d)
  | Task_update i s at_ =>
      match task_update i s at_ d with
      | inl e => (inl e, d)
      | inr (k, d') => (inr k, d')
      end
  end.

End Prisma.

(* ===================================================================== *)
(** * Asynchronous handlers *)
(* ===================================================================== *)

Module Async.
Import Prisma.

Inductive Exn : Type :=
| ZodError                       (* schema.parse rejected the body *)
| PrismaError (e : Prisma.Error).

(** A handler between two awaits is straight-line code; at an await it
    hands a call to the store and resumes with the answer or with the
    error the call threw. *)
Inductive Prog (A : Type) : Type :=
| Ret (a : A)
| Throw (e : Exn)
| Await (q : Query) (k : Prisma.Error + Answer q -> Prog A).

Arguments Ret {A} a.
Arguments Throw {A} e.
Arguments Await {A} q k.

Fixpoint bind {A B} (p : Prog A) (f : A -> Prog B) : Prog B :=
  match p with
  | Ret a => f a
  | Throw e => Throw e
  | Await q k => Await q (fun r => bind (k r) f)
  end.

(** [await prisma....]: an error of the call is thrown at the await. *)
Definition await (q : Query) : Prog (Answer q) :=
  Await q (fun r => match r with
                    | inl e => Throw (PrismaError e)
                    | inr a => Ret a
                    end).

(** [try { p } catch (error) { h error }] *)
Fixpoint tryCatch {A} (p : Prog A) (h : Exn -> Prog A) : Prog A :=
  match p with
  | Ret a => Ret a
  | Throw e => h e
  | Await q k => Await q (fun r => tryCatch (k r) h)
  end.

Record Outcome (A : Type) : Type := mkOutcome
  { result : Exn + A;     (* what the handler returned or threw *)
    store : Db;           (* the store when it finished *)
    trace : list Query }. (* the calls it issued, in order *)

Arguments mkOutcome {A} _ _ _.
Arguments result {A} _.
Arguments store {A} _.
Arguments trace {A} _.

(** Run a handler alone against the store.  [faults] says, call by
    call, whether the storage layer fails that call ([true]); past the
    end of the list no call fails. *)
Fixpoint run {A} (p : Prog A) (faults : list bool) (d : Db) : Outcome A :=
  match p with
  | Ret a => mkOutcome (inr a) d []
  | Throw e => mkOutcome (inl e) d []
  | Await q k =>
      let rd := match faults with
                | true :: _ => (inl StorageFault, d)
                | _ => exec q d
                end in
      let o := run (k (fst rd)) (List.tl faults) (snd rd) in
      mkOutcome (result o) (store o) (q :: trace o)
  end.

(** One step of a handler that runs among others: its pending call is
    executed on the store as it is now, or fails ([fault]). *)
Definition next {A} (p : Prog A) (d : Db) (fault : bool) : option (Prog A * Db) :=
  match p with
  | Await q k =>
      Some (if fault then (k (inl StorageFault), d)
            else (k (fst (exec q d)), snd (exec q d)))
  | _ => None
  end.

(** An execution of a handler interleaved with whatever other requests
    do to the store between its steps. *)
Inductive interleaved {A} (p0 : Prog A) (d0 : Db) : Prog A -> Db -> Prop :=
| il_start : interleaved p0 d0 p0 d0
| il_own p d fault p' d' :
    interleaved p0 d0 p d -> next p d fault = Some (p', d') ->
    interleaved p0 d0 p' d'
| il_others p d d' :
    interleaved p0 d0 p d -> interleaved p0 d0 p d'.

(** [Q] holds of every call the handler can ever issue. *)
Fixpoint all_calls {A} (Q : Query -> Prop) (p : Prog A) : Prop :=
  match p with
  | Await q k => Q q /\ forall r, all_calls Q (k r)
  | _ => True
  end.

End Async.

Declare Scope prog_scope.
Delimit Scope prog_scope with prog.
Notation "'let*' x ':=' p 'in' q" := (Async.bind p (fun x => q))
  (at level 10, x name, p at level 100, q at level 200) : prog_scope.

(* ===================================================================== *)
(** * HTTP plumbing shared by the controllers *)
(* ===================================================================== *)

Module Http.

(** [req.body] after [express.json()]: the properties the handlers
    read, each a JSON value or [undefined]. *)
Record Body : Type := mkBody
  { email : option Js.Json;
    password : option Js.Json;
    name : option Js.Json;
    refreshToken : option Js.Json }.

Inductive Payload : Type :=
| Message (message : string)
| Errors                                   (* { errors: error.issues } *)
| Credentials (accessToken refreshToken : string) (user : User.Public)
| TaskJson (task : Task.t).

Record Response : Type := mkResponse
  { status : nat; payload : Payload }.

(** What a handler invocation draws from outside: the clock, the row
    ids the store generates ([@default(uuid())]) and the bcrypt salt.  The
    clock is read once per invocation: [Date.now()], the clock inside
    [jwt.sign] and [jwt.verify], and the store's [now()] all see [now]. *)
Record Env : Type := mkEnv
  { now : Z; userUuid : string; tokenUuid : string; salt : string }.

End Http.

(* ===================================================================== *)
(** * The auth controller *)
(* ===================================================================== *)

Module AuthController.
Import Prisma Async Http.
Local Open Scope prog_scope.

(** Libraries the controller calls besides jsonwebtoken.  The last
    is the Prisma client's reading of an object given where the value of
    a [String] column is expected in a [where]: the filter it stands for
    ([{ not: ... }], [{ contains: ... }], ...), or nothing when the client
    refuses the object. *)
Class Libs : Type :=
  { bcrypt_hash : string -> Z -> string -> string;  (* password, rounds, salt *)
    bcrypt_compare : string -> string -> bool;      (* password, hash *)
    zod_email : string -> bool;                     (* z.string().email() *)
    prisma_StringFilter : list (string * Js.Json) -> option (string -> bool) }.

Section Handlers.
Context {codec : Jwt.Codec} {libs : Libs} (penv : Jwt.ProcessEnv).

Definition registerSchema (b : Body) : option (string * string * string) :=
  match Zod.string (email b), Zod.string (password b), Zod.string (name b) with
  | Some e, Some p, Some n =>
      if zod_email e && Js.isSome (Zod.min 6 p) && Js.isSome (Zod.min 1 n)
      then Some (e, p, n) else None
  | _, _, _ => None
  end.

Definition loginSchema (b : Body) : option (string * string) :=
  match Zod.string (email b), Zod.string (password b) with
  | Some e, Some p => if zod_email e then Some (e, p) else None
  | _, _ => None
  end.

Definition refreshSchema (b : Body) : option string := Zod.string (refreshToken b).

Definition json (code : nat) (p : Payload) : Prog Response :=
  Ret (mkResponse code p).

Definition sevenDaysMs : Z := 7 * 24 * 60 * 60 * 1000.

Definition newTokenRow (e : Env) (tok uid : string) : RefreshToken.Data :=
  RefreshToken.mkData (tokenUuid e) tok uid (now e + sevenDaysMs) (now e).

Definition onError (error : Exn) : Prog Response :=
  match error with
  | ZodError => json 400 Errors
  | _ => json 500 (Message "Internal server error")
  end.

Definition register (e : Env) (b : Body) : Prog Response :=
  tryCatch
    (match registerSchema b with
     | None => Throw ZodError
     | Some (email, password, name) =>
         let* existingUser := await (User_findUnique_email email) in
         if Js.isSome existingUser
         then json 400 (Message "User already exists")
         else
           let hashedPassword := bcrypt_hash password 10 (salt e) in
           let* user := await (User_create
               (User.mk (userUuid e) email hashedPassword name (now e) (now e))) in
           let accessToken := Jwt.generateAccessToken penv (now e) (User.id user) in
           let refreshToken := Jwt.generateRefreshToken penv (now e) (User.id user) in
           let* _ := await (RefreshToken_create
               (newTokenRow e refreshToken (User.id user))) in
           json 201 (Credentials accessToken refreshToken (User.public user))
     end)
    onError.

Definition login (e : Env) (b : Body) : Prog Response :=
  tryCatch
    (match loginSchema b with
     | None => Throw ZodError
     | Some (email, password) =>
         let* user := await (User_findUnique_email email) in
         match user with
         | None => json 401 (Message "Invalid credentials")
         | Some user =>
             if negb (bcrypt_compare password (User.password user))
             then json 401 (Message "Invalid credentials")
             else
               let accessToken := Jwt.generateAccessToken penv (now e) (User.id user) in
               let refreshToken := Jwt.generateRefreshToken penv (now e) (User.id user) in
               let* _ := await (RefreshToken_create
                   (newTokenRow e refreshToken (User.id user))) in
               json 200 (Credentials accessToken refreshToken (User.public user))
         end
     end)
    onError.

(** The condition of the first [if] of step 2. *)
Definition rejected (storedToken : option RefreshToken.t) (decoded : Jwt.Claims) : bool :=
  match storedToken with
  | None => true
  | Some st =>
      RefreshToken.revoked st
      || negb (String.eqb (RefreshToken.userId st) (Jwt.userId decoded))
  end.

(** The condition of the nested [if]: reuse detection. *)
Definition reuseDetected (storedToken : option RefreshToken.t) (decoded : Jwt.Claims) : bool :=
  match storedToken with
  | None => false
  | Some st => String.eqb (RefreshToken.userId st) (Jwt.userId decoded)
  end.

Definition rotation (e : Env) (st : RefreshToken.t) (newRefreshToken : string)
  : list Write :=
  [ W_refreshToken_update (RefreshToken.id st);
    W_refreshToken_create (newTokenRow e newRefreshToken (RefreshToken.userId st)) ].

Definition refresh (e : Env) (b : Body) : Prog Response :=
  tryCatch
    (match refreshSchema b with
     | None => Throw ZodError
     | Some refreshToken =>
         (* 1. Verify the token signature *)
         match Jwt.verifyRefreshToken penv (now e) refreshToken with
         | inl _ => json 401 (Message "Invalid refresh token")
         | inr decoded =>
             (* 2. Check if token exists in DB and is not revoked *)
             let* storedToken := await (RefreshToken_findUnique refreshToken) in
             if rejected storedToken decoded
             then
               (* reuse detection *)
               if reuseDetected storedToken decoded
               then
                 let* _ := await (RefreshToken_updateMany_userId (Jwt.userId decoded)) in
                 json 401 (Message "Invalid or revoked refresh token")
               else json 401 (Message "Invalid or revoked refresh token")
             else
               match storedToken with
               | None => (* excluded by the test above *)
                   json 401 (Message "Invalid or revoked refresh token")
               | Some st =>
                   (* 3. Generate new tokens *)
                   let newAccessToken :=
                     Jwt.generateAccessToken penv (now e) (RefreshToken.userId st) in
                   let newRefreshToken :=
                     Jwt.generateRefreshToken penv (now e) (RefreshToken.userId st) in
                   (* 4. Rotate tokens: revoke old one, create new one *)
                   let* _ := await (Transaction (rotation e st newRefreshToken)) in
                   (* Get user data *)
                   let* user := await (User_findUnique_id (RefreshToken.userId st)) in
                   match user with
                   | None => json 404 (Message "User not found")
                   | Some user =>
                       json 200 (Credentials newAccessToken newRefreshToken user)
                   end
               end
         end
     end)
    onError.

(** [updateMany({ where: { token: v }, data: { revoked: true } })] for
    a value [v] nothing has validated: a string is compared for equality,
    an object is read as a filter, and anything else, or an object that is
    no filter, is refused by the client before the store is called. *)
Definition updateMany_where_token (v : Js.Json) : option Query :=
  match v with
  | Js.JString tok => Some (RefreshToken_updateMany_token tok)
  | Js.JObject fields =>
      option_map RefreshToken_updateMany_where (prisma_StringFilter fields)
  | _ => None
  end.

Definition logout (b : Body) : Prog Response :=
  tryCatch
    (match refreshToken b with
     | Some v =>
         if Js.truthyJ (Some v)
         then
           match updateMany_where_token v with
           | Some call =>
               let* _ := await call in
               json 200 (Message "Logged out successfully")
           | None => Throw (PrismaError ValidationFailed)
           end
         else json 200 (Message "Logged out successfully")
     | None => json 200 (Message "Logged out successfully")
     end)
    (fun _ => json 500 (Message "Internal server error")).

End Handlers.

End AuthController.

(* ===================================================================== *)
(** * The task controller: status toggle *)
(* ===================================================================== *)

Module TaskController.
Import Prisma Async Http.
Local Open Scope prog_scope.

Definition TaskStatus_eqb (a b : TaskStatus) : bool :=
  match a, b with
  | PENDING, PENDING | IN_PROGRESS, IN_PROGRESS | COMPLETED, COMPLETED => true
  | _, _ => false
  end.

(** The object literal [statusCycle], keys in source order. *)
Definition statusCycle : list (TaskStatus * TaskStatus) :=
  [ (PENDING, IN_PROGRESS); (IN_PROGRESS, COMPLETED); (COMPLETED, PENDING) ].

Definition index (tbl : list (TaskStatus * TaskStatus)) (s : TaskStatus)
  : option TaskStatus :=
  option_map snd (List.find (fun kv => TaskStatus_eqb (fst kv) s) tbl).

(** [statusCycle[task.status] || TaskStatus.PENDING] *)
Definition newStatus (s : TaskStatus) : TaskStatus :=
  match index statusCycle s with
  | Some s' => s'
  | None => PENDING
  end.

(** [req.user?.userId] and [req.params.id]. *)
Record Request : Type := mkRequest
  { userId : option string; id : string }.

Definition toggleTask (e : Env) (req : Request) : Prog Response :=
  tryCatch
    (let* task := await (Task_findFirst (id req) (userId req)) in
     match task with
     | None => Ret (mkResponse 404 (Message "Task not found"))
     | Some task =>
         let* updatedTask :=
           await (Task_update (id req) (newStatus (Task.status task)) (now e)) in
         Ret (mkResponse 200 (TaskJson updatedTask))
     end)
    (fun _ => Ret (mkResponse 500 (Message "Internal server error"))).

End TaskController.

(* ===================================================================== *)
(** * The client: token holder and refresh coordinator (apiClient.ts) *)
(* ===================================================================== *)

Module ApiClient.

(** The config object of a request: the header the interceptors write
    and the flag the response interceptor keeps on it. *)
Record Config : Type := mkConfig
  { Authorization : option string; _retry : bool }.

Inductive Reason : Type :=
| HttpError (status : nat)   (* AxiosError with [error.response.status] *)
| NoResponse                 (* AxiosError without a response *)
| RefreshFailed.             (* the error of the refresh call *)

Inductive Settlement : Type :=
| Resolved (status : nat)
| Rejected (reason : Reason).

(** Module state of one client instance, the table of the request
    objects it has handed out, and what is on the wire. *)
Record Client : Type := mkClient
  { hasWindow : bool;                      (* typeof window !== 'undefined' *)
    accessToken : option string;
    refreshToken : option string;
    localStorage : option string;          (* item REFRESH_TOKEN_STORAGE_KEY *)
    isRefreshing : bool;
    failedQueue : list nat;                (* requests whose promise waits *)
    configs : gmap nat Config;
    inflight : list nat;                   (* api calls awaiting a response *)
    refreshCalls : list (nat * string);    (* POST /auth/refresh awaiting one:
                                              initiating request, token sent *)
    wire : list (nat * option string);     (* every api call sent, with header *)
    refreshesSent : nat;                   (* every refresh call sent *)
    settled : list (nat * Settlement);     (* what callers were told *)
    location : option string }.            (* window.location.href, once set *)

Definition init (window : bool) (stored : option string) : Client :=
  mkClient window None None stored false [] ∅ [] [] [] 0 [] None.

(** ** tokenManager *)

Definition getAccessToken (c : Client) : option string := accessToken c.

Definition setAccessToken (tok : option string) (c : Client) : Client :=
  mkClient (hasWindow c) tok (refreshToken c) (localStorage c) (isRefreshing c)
    (failedQueue c) (configs c) (inflight c) (refreshCalls c) (wire c)
    (refreshesSent c) (settled c) (location c).

Definition getRefreshToken (c : Client) : option string :=
  if hasWindow c then localStorage c else refreshToken c.

Definition setRefreshToken (tok : option string) (c : Client) : Client :=
  mkClient (hasWindow c) (accessToken c) tok
    (if hasWindow c then (if Js.truthy tok then tok else None) else localStorage c)
    (isRefreshing c) (failedQueue c) (configs c) (inflight c) (refreshCalls c)
    (wire c) (refreshesSent c) (settled c) (location c).

Definition clearTokens (c : Client) : Client :=
  mkClient (hasWindow c) None None
    (if hasWindow c then None else localStorage c)
    (isRefreshing c) (failedQueue c) (configs c) (inflight c) (refreshCalls c)
    (wire c) (refreshesSent c) (settled c) (location c).

(** ** Field updates *)

Definition set_isRefreshing (b : bool) (c : Client) : Client :=
  mkClient (hasWindow c) (accessToken c) (refreshToken c) (localStorage c) b
    (failedQueue c) (configs c) (inflight c) (refreshCalls c) (wire c)
    (refreshesSent c) (settled c) (location c).

Definition set_failedQueue (q : list nat) (c : Client) : Client :=
  mkClient (hasWindow c) (accessToken c) (refreshToken c) (localStorage c)
    (isRefreshing c) q (configs c) (inflight c) (refreshCalls c) (wire c)
    (refreshesSent c) (settled c) (location c).

Definition set_configs (m : gmap nat Config) (c : Client) : Client :=
  mkClient (hasWindow c) (accessToken c) (refreshToken c) (localStorage c)
    (isRefreshing c) (failedQueue c) m (inflight c) (refreshCalls c) (wire c)
    (refreshesSent c) (settled c) (location c).

Definition set_inflight (l : list nat) (c : Client) : Client :=
  mkClient (hasWindow c) (accessToken c) (refreshToken c) (localStorage c)
    (isRefreshing c) (failedQueue c) (configs c) l (refreshCalls c) (wire c)
    (refreshesSent c) (settled c) (location c).

Definition set_refreshCalls (l : list (nat * string)) (sent : nat) (c : Client) : Client :=
  mkClient (hasWindow c) (accessToken c) (refreshToken c) (localStorage c)
    (isRefreshing c) (failedQueue c) (configs c) (inflight c) l (wire c)
    sent (settled c) (location c).

Definition log_wire (r : nat) (h : option string) (c : Client) : Client :=
  mkClient (hasWindow c) (accessToken c) (refreshToken c) (localStorage c)
    (isRefreshing c) (failedQueue c) (configs c) (inflight c) (refreshCalls c)
    (wire c ++ [(r, h)]) (refreshesSent c) (settled c) (location c).

Definition settle (r : nat) (o : Settlement) (c : Client) : Client :=
  mkClient (hasWindow c) (accessToken c) (refreshToken c) (localStorage c)
    (isRefreshing c) (failedQueue c) (configs c) (inflight c) (refreshCalls c)
    (wire c) (refreshesSent c) (settled c ++ [(r, o)]) (location c).

(** [if (typeof window !== 'undefined') window.location.href = '/login'] *)
Definition redirectToLogin (c : Client) : Client :=
  mkClient (hasWindow c) (accessToken c) (refreshToken c) (localStorage c)
    (isRefreshing c) (failedQueue c) (configs c) (inflight c) (refreshCalls c)
    (wire c) (refreshesSent c) (settled c)
    (if hasWindow c then Some "/login" else location c).

Definition config_of (r : nat) (c : Client) : Config :=
  default (mkConfig None false) (configs c !! r).

Definition set_Authorization (r : nat) (h : string) (c : Client) : Client :=
  set_configs (<[ r := mkConfig (Some h) (_retry (config_of r c)) ]> (configs c)) c.

Definition set_retry (r : nat) (c : Client) : Client :=
  set_configs (<[ r := mkConfig (Authorization (config_of r c)) true ]> (configs c)) c.

Definition bearer (tok : string) : string := "Bearer " ++ tok.

(** ** Sending a request: [apiClient(config)] *)

(** Request interceptor: attach the access token when there is one. *)
Definition requestInterceptor (r : nat) (c : Client) : Client :=
  match getAccessToken c with
  | Some token => if Js.truthy (Some token)
                  then set_Authorization r (bearer token) c else c
  | None => c
  end.

Definition send (r : nat) (c : Client) : Client :=
  let c1 := requestInterceptor r c in
  log_wire r (Authorization (config_of r c1))
    (set_inflight (inflight c1 ++ [r]) c1).

(** ** The queue *)

(** The continuation attached to a queued promise: on [resolve(token)]
    the header is rewritten and the original request is sent again; on
    [reject(err)] the caller gets the error. *)
Definition resolveQueued (token : string) (r : nat) (c : Client) : Client :=
  send r (set_Authorization r (bearer token) c).

Definition rejectQueued (err : Reason) (r : nat) (c : Client) : Client :=
  settle r (Rejected err) c.

Definition processQueue (error : option Reason) (token : string) (c : Client)
  : Client :=
  let q := failedQueue c in
  let c1 := set_failedQueue [] c in
  List.fold_left
    (fun acc prom =>
       match error with
       | Some err => rejectQueued err prom acc
       | None => resolveQueued token prom acc
       end)
    q c1.

(** ** Response interceptor *)

Fixpoint remove_first (r : nat) (l : list nat) : list nat :=
  match l with
  | [] => []
  | x :: l' => if Nat.eqb x r then l' else x :: remove_first r l'
  end.

(** The error handler, run when request [r] fails with [error]; the
    part up to the first await. *)
Definition is401 (error : Reason) : bool :=
  match error with
  | HttpError s => Nat.eqb s 401
  | _ => false
  end.

Definition onRejected (r : nat) (error : Reason) (c : Client) : Client :=
  let originalRequest := config_of r c in
  (* If error is 401 and we haven't retried yet *)
  if is401 error && negb (_retry originalRequest)
  then
    if isRefreshing c
    then (* If already refreshing, queue this request *)
      set_failedQueue (failedQueue c ++ [r]) c
    else
      let c1 := set_isRefreshing true (set_retry r c) in
      if Js.truthy (getRefreshToken c1)
      then (* Attempt to refresh the token *)
        set_refreshCalls
          (refreshCalls c1 ++ [(r, default "" (getRefreshToken c1))])
          (S (refreshesSent c1)) c1
      else (* No refresh token available, redirect to login *)
        settle r (Rejected error) (redirectToLogin (clearTokens c1))
  else settle r (Rejected error) c.

Definition remove_call (r : nat) (l : list (nat * string)) : list (nat * string) :=
  List.filter (fun p => negb (Nat.eqb (fst p) r)) l.

(** The rest of the handler, run when the refresh call it awaits
    settles: [Some newAccessToken] on success, [None] on failure.  All of
    it, the continuations of the queued promises included, runs before the
    event loop takes the next completion; the order in which the requests
    of one such turn reach the wire is not modelled. *)
Definition onRefreshSettled (r : nat) (res : option string) (c : Client) : Client :=
  let c0 := set_refreshCalls (remove_call r (refreshCalls c)) (refreshesSent c) c in
  match res with
  | Some newAccessToken =>
      let c1 := setAccessToken (Some newAccessToken) c0 in
      (* Process queued requests *)
      let c2 := processQueue None newAccessToken c1 in
      (* Retry original request *)
      let c3 := send r (set_Authorization r (bearer newAccessToken) c2) in
      set_isRefreshing false c3
  | None =>
      let c1 := processQueue (Some RefreshFailed) "" c0 in
      let c2 := redirectToLogin (clearTokens c1) in
      set_isRefreshing false (settle r (Rejected RefreshFailed) c2)
  end.

(** ** Events of the event loop *)

Inductive Event : Type :=
| Call (r : nat)                              (* the application calls apiClient *)
| Response (r : nat) (status : option nat)    (* an api call gets its answer *)
| RefreshResponse (r : nat) (res : option string) (* a refresh call gets its:
                                                     the new access token, or an
                                                     error *)
| Stored (access refresh : string)            (* authService.login / register
                                                 store the pair they received *)
| Cleared.                                    (* authService.logout clears the
                                                 tokens and leaves for /login *)

Definition is2xx (s : nat) : bool := (200 <=? s)%nat && (s <? 300)%nat.

Definition handle (ev : Event) (c : Client) : Client :=
  match ev with
  | Call r =>
      match configs c !! r with
      | Some _ => c                             (* ids are not reused *)
      | None => send r (set_configs (<[ r := mkConfig None false ]> (configs c)) c)
      end
  | Response r status =>
      if List.existsb (Nat.eqb r) (inflight c)
      then
        let c1 := set_inflight (remove_first r (inflight c)) c in
        match status with
        | Some s => if is2xx s then settle r (Resolved s) c1
                    else onRejected r (HttpError s) c1
        | None => onRejected r NoResponse c1
        end
      else c
  | RefreshResponse r res =>
      if List.existsb (fun p => Nat.eqb (fst p) r) (refreshCalls c)
      then onRefreshSettled r res c
      else c
  | Stored access refresh =>
      setRefreshToken (Some refresh) (setAccessToken (Some access) c)
  | Cleared => redirectToLogin (clearTokens c)
  end.

Definition run (evs : list Event) (c : Client) : Client :=
  List.fold_left (fun acc ev => handle ev acc) evs c.

End ApiClient.

(* ===================================================================== *)
(** * A reference platform, for running the model on examples *)
(* ===================================================================== *)

Module Reference.

Definition dec (z : Z) : string := NilEmpty.string_of_uint (N.to_uint (Z.to_N z)).

Definition undec (s : string) : option Z :=
  match s with
  | "" => None
  | _ => option_map (fun u => Z.of_N (N.of_uint u)) (NilEmpty.uint_of_string s)
  end.

Definition dot : Ascii.ascii := "."%char.

(** Split at every dot. *)
Fixpoint fields (s : string) : list string :=
  match s with
  | "" => [""]
  | String c s' =>
      if Ascii.eqb c dot then "" :: fields s'
      else match fields s' with
           | f :: fs => String c f :: fs
           | [] => [String c ""]
           end
  end.

(** Tokens [userId.iat.exp.secret]: the token is a function of the
    payload and the secret, as a signed token is, and the last field
    stands for the MAC. *)
#[export] Instance codec : Jwt.Codec :=
  {| Jwt.encode c secret :=
       Jwt.userId c ++ "." ++ dec (Jwt.iat c) ++ "." ++ dec (Jwt.exp c) ++ "." ++ secret;
     Jwt.decode tok :=
       match fields tok with
       | [u; i; x; _] =>
           match undec i, undec x with
           | Some i, Some x => Some (Jwt.mkClaims u i x)
           | _, _ => None
           end
       | _ => None
       end;
     Jwt.signature_ok tok secret :=
       match fields tok with
       | [_; _; _; m] => String.eqb m secret
       | _ => false
       end |}.

(** The filter operators the examples use, each with a string
    argument. *)
Definition operator (key arg : string) : option (string -> bool) :=
  if String.eqb key "equals" then Some (fun s => String.eqb s arg)
  else if String.eqb key "not" then Some (fun s => negb (String.eqb s arg))
  else if String.eqb key "startsWith" then Some (String.prefix arg)
  else None.

(** A filter object is the conjunction of its operators. *)
Fixpoint stringFilter (fields : list (string * Js.Json)) : option (string -> bool) :=
  match fields with
  | [] => Some (fun _ => true)
  | (key, Js.JString arg) :: rest =>
      match operator key arg, stringFilter rest with
      | Some f, Some g => Some (fun s => f s && g s)
      | _, _ => None
      end
  | _ => None
  end.

(** Hashes [salt$password]. *)
#[export] Instance libs : AuthController.Libs :=
  {| AuthController.bcrypt_hash p _ salt := salt ++ "$" ++ p;
     AuthController.bcrypt_compare p h :=
       match index 0 "$" h with
       | Some n => String.eqb (substring (S n) (String.length h) h) p
       | None => false
       end;
     AuthController.zod_email e := Js.isSome (index 0 "@" e);
     AuthController.prisma_StringFilter := stringFilter |}.

Definition penv : Jwt.ProcessEnv := Jwt.mkProcessEnv None None None None.

End Reference.

(* ===================================================================== *)
(** * Example data *)
(* ===================================================================== *)

Module Examples.
Import Reference Prisma Async Http.

Definition refreshBody (tok : string) : Body :=
  mkBody None None None (Some (Js.JString tok)).

Definition alice : Body :=
  mkBody (Some (Js.JString "a@b.com")) (Some (Js.JString "secret1"))
         (Some (Js.JString "A")) None.

(** The password "äbcde": six bytes, five UTF-16 code units. *)
Definition umlauts : string :=
  String (Ascii.ascii_of_nat 195) (String (Ascii.ascii_of_nat 164) "bcde").
Definition shortPassword : Body :=
  mkBody (Some (Js.JString "a@b.com")) (Some (Js.JString umlauts))
         (Some (Js.JString "A")) None.

(** Bodies of [logout] whose [refreshToken] is no string: the number 5,
    and the object [{ "not": "" }]. *)
Definition numberBody : Body := mkBody None None None (Some (Js.JNumber false)).
Definition filterBody : Body :=
  mkBody None None None (Some (Js.JObject [("not", Js.JString "")])).

(** Second 1000: Alice registers and gets refresh token [tokA1]. *)
Definition atRegister : Env := mkEnv 1000000 "u1" "t1" "salt".
Definition afterRegister : Outcome Response :=
  run (AuthController.register penv atRegister alice) [] Prisma.empty.
Definition tokA1 : string := "u1.1000.605800.refresh-secret".

(** Second 600000: she refreshes; [tokA1] is rotated out for [tokA2]. *)
Definition atRotation : Env := mkEnv 600000000 "-" "t2" "-".
Definition afterRotation : Outcome Response :=
  run (AuthController.refresh penv atRotation (refreshBody tokA1)) [] (store afterRegister).
Definition tokA2 : string := "u1.600000.1204800.refresh-secret".

(** Second 600100: she also logs in on another device, getting [tokA3]. *)
Definition atLogin : Env := mkEnv 600100000 "-" "t3" "-".
Definition afterLogin : Outcome Response :=
  run (AuthController.login penv atLogin alice) [] (store afterRotation).
Definition tokA3 : string := "u1.600100.1204900.refresh-secret".

(** Second 600200, [tokA1] still within its seven days, and second
    700000, [tokA1] past them. *)
Definition atReplay : Env := mkEnv 600200000 "-" "t4" "-".
Definition atLateReplay : Env := mkEnv 700000000 "-" "t4" "-".
Definition afterwards : Env := mkEnv 700001000 "-" "t5" "-".

(** Half a second after registration, within second 1000. *)
Definition atSameSecond : Env := mkEnv 1000500 "-" "t2" "-".

(** Schedules in which the second, or the third, storage call of a
    handler fails. *)
Definition secondCallFails : list bool := [false; true].
Definition thirdCallFails : list bool := [false; false; true].

(** Alice has one task, in progress. *)
Definition aliceTask : Task.t :=
  Task.mk "k1" "write the report" None IN_PROGRESS "u1" 2000000 2000000.
Definition withTask : Db :=
  mkDb (users (store afterRegister)) (refreshTokens (store afterRegister)) [aliceTask].
Definition toggleReq : TaskController.Request :=
  TaskController.mkRequest (Some "u1") "k1".
Definition click1 : Env := mkEnv 3000000 "-" "-" "-".
Definition click2 : Env := mkEnv 3001000 "-" "-" "-".
Definition click3 : Env := mkEnv 3002000 "-" "-" "-".

(** ** Client sessions: a browser holding refresh token "rt". *)

Definition browser : ApiClient.Client := ApiClient.init true (Some "rt").

(** Requests 1 and 2 are answered 401; 1 starts the refresh, 2 waits in
    the queue; the refresh succeeds with access token "a2". *)
Definition twoExpired : list ApiClient.Event :=
  [ ApiClient.Call 1; ApiClient.Call 2;
    ApiClient.Response 1 (Some 401%nat); ApiClient.Response 2 (Some 401%nat) ].

Definition refreshedOnce : list ApiClient.Event :=
  (twoExpired ++ [ ApiClient.RefreshResponse 1 (Some "a2") ])%list.

(** The replay of request 2 is answered 401 again ... *)
Definition replayRefused : list ApiClient.Event :=
  (refreshedOnce ++ [ ApiClient.Response 2 (Some 401%nat) ])%list.

(** ... and the refresh this starts succeeds with "a3". *)
Definition refreshedTwice : list ApiClient.Event :=
  (replayRefused ++ [ ApiClient.RefreshResponse 2 (Some "a3") ])%list.

(** Instead: request 1 is answered 401, refreshes ("a2") and is sent
    again; then the late 401 of request 2 starts a second refresh. *)
Definition secondRefreshInFlight : list ApiClient.Event :=
  [ ApiClient.Call 1; ApiClient.Call 2;
    ApiClient.Response 1 (Some 401%nat);
    ApiClient.RefreshResponse 1 (Some "a2");
    ApiClient.Response 2 (Some 401%nat) ].

(** Three requests on the wire, the first answered 401. *)
Definition oneExpiredOfThree : list ApiClient.Event :=
  [ ApiClient.Call 1; ApiClient.Call 2; ApiClient.Call 3;
    ApiClient.Response 1 (Some 401%nat) ].

End Examples.

(* ===================================================================== *)
(** * Vocabulary of the statements *)
(* ===================================================================== *)

Module Statements.
Import Prisma Async Http.

Definition invalidOrRevoked : Response :=
  mkResponse 401 (Message "Invalid or revoked refresh token").

Definition internalError : Response :=
  mkResponse 500 (Message "Internal server error").

(** A row is as it was, or differs by [revoked] now being [true]. *)
Definition kept_or_revoked (r r' : RefreshToken.t) : Prop :=
  r' = r \/ r' = RefreshToken.revoke r.

(** The table keeps its rows in place, each kept or revoked, and may
    have gained rows at the end. *)
Definition evolves (l l' : list RefreshToken.t) : Prop :=
  exists kept rest, l' = (kept ++ rest)%list /\ Forall2 kept_or_revoked l kept.

(** The store after reuse-detection lockout of user [u]. *)
Definition lockout (u : string) (d : Db) : Db :=
  refreshToken_updateMany (has_userId u) d.

(** The store after the rotation of row [st] into a row for [newTok]. *)
Definition rotated (e : Env) (st : RefreshToken.t) (newTok : string) (d : Db) : Db :=
  with_refreshTokens d
    (revoke_where (has_id (RefreshToken.id st)) (refreshTokens d)
     ++ [RefreshToken.fresh
           (AuthController.newTokenRow e newTok (RefreshToken.userId st))]).

Definition loggedOut : Response := mkResponse 200 (Message "Logged out successfully").

(** ** Client coordinator *)

(** At most one refresh call awaits its answer, and the flag is up
    while one does. *)
Definition single_flight (c : ApiClient.Client) : Prop :=
  ApiClient.refreshCalls c = []
  \/ (ApiClient.isRefreshing c = true /\ exists x, ApiClient.refreshCalls c = [x]).

(** The part of the client state that concerns refresh calls. *)
Definition flight (c : ApiClient.Client) : list (nat * string) * bool * nat :=
  (ApiClient.refreshCalls c, ApiClient.isRefreshing c, ApiClient.refreshesSent c).

(** Request [r] is on the wire again carrying access token [tok]. *)
Definition replayed (tok : string) (r : nat) (c : ApiClient.Client) : Prop :=
  In r (ApiClient.inflight c)
  /\ ApiClient.Authorization (ApiClient.config_of r c) = Some (ApiClient.bearer tok)
  /\ In (r, Some (ApiClient.bearer tok)) (ApiClient.wire c).

Definition expired (rs : list nat) : list ApiClient.Event :=
  List.map (fun r => ApiClient.Response r (Some 401%nat)) rs.

(** How many times request [r] went on the wire. *)
Definition sends (r : nat) (c : ApiClient.Client) : nat :=
  List.length (List.filter (fun x => Nat.eqb (fst x) r) (ApiClient.wire c)).

(** Requests to the four session operations. *)
Inductive Op : Type :=
| Register (e : Env) (b : Body)
| Login (e : Env) (b : Body)
| Refresh (e : Env) (b : Body)
| Logout (b : Body).

Section Ops.
Context {codec : Jwt.Codec} {libs : AuthController.Libs} (penv : Jwt.ProcessEnv).

Definition handler (op : Op) : Prog Response :=
  match op with
  | Register e b => AuthController.register penv e b
  | Login e b => AuthController.login penv e b
  | Refresh e b => AuthController.refresh penv e b
  | Logout b => AuthController.logout b
  end.

(** Serve the requests one after the other, each under its own
    schedule of storage faults. *)
Definition serve (reqs : list (Op * list bool)) (d : Db) : Db :=
  List.fold_left (fun acc x => store (run (handler (fst x)) (snd x) acc)) reqs d.

Definition minted (e : Env) (st : RefreshToken.t) : string :=
  Jwt.generateRefreshToken penv (now e) (RefreshToken.userId st).

(** The calls [refresh] can issue for a request: the two lookups, the
    lockout of the signed user, and the rotation transaction. *)
Definition refresh_call (e : Env) (b : Body) (q : Query) : Prop :=
  match q with
  | RefreshToken_findUnique _ => True
  | User_findUnique_id _ => True
  | RefreshToken_updateMany_userId u =>
      exists tok c, AuthController.refreshSchema b = Some tok
                    /\ Jwt.verifyRefreshToken penv (now e) tok = inr c
                    /\ u = Jwt.userId c
  | Transaction ws =>
      exists st, ws = AuthController.rotation e st (minted e st)
  | _ => False
  end.

Definition badRequest : Response := mkResponse 400 Errors.
Definition invalidToken : Response := mkResponse 401 (Message "Invalid refresh token").
Definition userNotFound : Response := mkResponse 404 (Message "User not found").

Definition renewed (e : Env) (st : RefreshToken.t) (u : User.Public) : Response :=
  mkResponse 200
    (Credentials (Jwt.generateAccessToken penv (now e) (RefreshToken.userId st))
                 (minted e st) u).

Definition findCall (tok : string) : Query := RefreshToken_findUnique tok.
Definition lockoutCall (c : Jwt.Claims) : Query :=
  RefreshToken_updateMany_userId (Jwt.userId c).
Definition rotationCall (e : Env) (st : RefreshToken.t) : Query :=
  Transaction (AuthController.rotation e st (minted e st)).
Definition userCall (st : RefreshToken.t) : Query :=
  User_findUnique_id (RefreshToken.userId st).

Definition fault_at (i : nat) (faults : list bool) : bool := List.nth i faults false.

(** The ways a run of [refresh] can go, read off the handler: what is
    returned, the store left behind and the calls issued. *)
Inductive refresh_case (e : Env) (b : Body) (faults : list bool) (d : Db)
  : Outcome Response -> Prop :=
| rc_bad_body :
    AuthController.refreshSchema b = None ->
    refresh_case e b faults d (mkOutcome (inr badRequest) d [])
| rc_unverified tok err :
    AuthController.refreshSchema b = Some tok ->
    Jwt.verifyRefreshToken penv (now e) tok = inl err ->
    refresh_case e b faults d (mkOutcome (inr invalidToken) d [])
| rc_lookup_fault tok c :
    AuthController.refreshSchema b = Some tok ->
    Jwt.verifyRefreshToken penv (now e) tok = inr c ->
    fault_at 0 faults = true ->
    refresh_case e b faults d (mkOutcome (inr internalError) d [findCall tok])
| rc_unknown tok c :
    AuthController.refreshSchema b = Some tok ->
    Jwt.verifyRefreshToken penv (now e) tok = inr c ->
    fault_at 0 faults = false ->
    token_by_token tok d = None ->
    refresh_case e b faults d (mkOutcome (inr invalidOrRevoked) d [findCall tok])
| rc_foreign tok c st :
    AuthController.refreshSchema b = Some tok ->
    Jwt.verifyRefreshToken penv (now e) tok = inr c ->
    fault_at 0 faults = false ->
    token_by_token tok d = Some st ->
    String.eqb (RefreshToken.userId st) (Jwt.userId c) = false ->
    refresh_case e b faults d (mkOutcome (inr invalidOrRevoked) d [findCall tok])
| rc_lockout_fault tok c st :
    AuthController.refreshSchema b = Some tok ->
    Jwt.verifyRefreshToken penv (now e) tok = inr c ->
    fault_at 0 faults = false ->
    token_by_token tok d = Some st ->
    String.eqb (RefreshToken.userId st) (Jwt.userId c) = true ->
    RefreshToken.revoked st = true ->
    fault_at 1 faults = true ->
    refresh_case e b faults d
      (mkOutcome (inr internalError) d [findCall tok; lockoutCall c])
| rc_lockout tok c st :
    AuthController.refreshSchema b = Some tok ->
    Jwt.verifyRefreshToken penv (now e) tok = inr c ->
    fault_at 0 faults = false ->
    token_by_token tok d = Some st ->
    String.eqb (RefreshToken.userId st) (Jwt.userId c) = true ->
    RefreshToken.revoked st = true ->
    fault_at 1 faults = false ->
    refresh_case e b faults d
      (mkOutcome (inr invalidOrRevoked) (lockout (Jwt.userId c) d)
                 [findCall tok; lockoutCall c])
| rc_rotation_failed tok c st :
    AuthController.refreshSchema b = Some tok ->
    Jwt.verifyRefreshToken penv (now e) tok = inr c ->
    fault_at 0 faults = false ->
    token_by_token tok d = Some st ->
    String.eqb (RefreshToken.userId st) (Jwt.userId c) = true ->
    RefreshToken.revoked st = false ->
    (fault_at 1 faults = true
     \/ exists err, apply_writes (AuthController.rotation e st (minted e st)) d = inl err) ->
    refresh_case e b faults d
      (mkOutcome (inr internalError) d [findCall tok; rotationCall e st])
| rc_user_fault tok c st d' :
    AuthController.refreshSchema b = Some tok ->
    Jwt.verifyRefreshToken penv (now e) tok = inr c ->
    fault_at 0 faults = false ->
    token_by_token tok d = Some st ->
    String.eqb (RefreshToken.userId st) (Jwt.userId c) = true ->
    RefreshToken.revoked st = false ->
    fault_at 1 faults = false ->
    apply_writes (AuthController.rotation e st (minted e st)) d = inr d' ->
    fault_at 2 faults = true ->
    refresh_case e b faults d
      (mkOutcome (inr internalError) d'
                 [findCall tok; rotationCall e st; userCall st])
| rc_user_missing tok c st d' :
    AuthController.refreshSchema b = Some tok ->
    Jwt.verifyRefreshToken penv (now e) tok = inr c ->
    fault_at 0 faults = false ->
    token_by_token tok d = Some st ->
    String.eqb (RefreshToken.userId st) (Jwt.userId c) = true ->
    RefreshToken.revoked st = false ->
    fault_at 1 faults = false ->
    apply_writes (AuthController.rotation e st (minted e st)) d = inr d' ->
    fault_at 2 faults = false ->
    user_by_id (RefreshToken.userId st) d' = None ->
    refresh_case e b faults d
      (mkOutcome (inr userNotFound) d'
                 [findCall tok; rotationCall e st; userCall st])
| rc_renewed tok c st d' u :
    AuthController.refreshSchema b = Some tok ->
    Jwt.verifyRefreshToken penv (now e) tok = inr c ->
    fault_at 0 faults = false ->
    token_by_token tok d = Some st ->
    String.eqb (RefreshToken.userId st) (Jwt.userId c) = true ->
    RefreshToken.revoked st = false ->
    fault_at 1 faults = false ->
    apply_writes (AuthController.rotation e st (minted e st)) d = inr d' ->
    fault_at 2 faults = false ->
    user_by_id (RefreshToken.userId st) d' = Some u ->
    refresh_case e b faults d
      (mkOutcome (inr (renewed e st (User.public u))) d'
                 [findCall tok; rotationCall e st; userCall st]).

End Ops.

End Statements.

(* ===================================================================== *)
(** * The authentication middleware *)
(* ===================================================================== *)

Module AuthMiddleware.
Import Http.

Definition space : Ascii.ascii := " "%char.

(** [s.split(' ')] *)
Fixpoint split (s : string) : list string :=
  match s with
  | "" => [""]
  | String c s' =>
      if Ascii.eqb c space then "" :: split s'
      else match split s' with
           | f :: fs => String c f :: fs
           | [] => [String c ""]
           end
  end.

(** What the middleware does with a request: it hands it on with
    [req.user = { userId }], or answers itself. *)
Inductive Verdict : Type :=
| Next (userId : string)
| Reply (r : Response).

Definition noToken : Response :=
  mkResponse 401 (Message "Unauthorized: No token provided").
Definition badToken : Response :=
  mkResponse 401 (Message "Unauthorized: Invalid access token").

Section Middleware.
Context {codec : Jwt.Codec} (penv : Jwt.ProcessEnv).

(** [authorization] is [req.headers.authorization]. *)
Definition authenticate (clock : Z) (authorization : option string) : Verdict :=
  match authorization with
  | None => Reply noToken
  | Some authHeader =>
      if negb (Js.truthy authorization) || negb (String.prefix "Bearer " authHeader)
      then Reply noToken
      else
        let token := List.nth 1 (split authHeader) "" in
        match Jwt.verifyAccessToken penv clock token with
        | inr decoded => Next (Jwt.userId decoded)
        | inl _ => Reply badToken
        end
  end.

End Middleware.

End AuthMiddleware.

(* ===================================================================== *)
(** * The task controller: create, read, update, delete *)
(* ===================================================================== *)

Module TaskCrud.
Import Prisma Http.

(** [req.body] of the task routes: the properties the schemas read,
    each a JSON value or [undefined]. *)
Record Body : Type := mkBody
  { title : option Js.Json; description : option Js.Json; status : option Js.Json }.

(** [req.user?.userId], [req.params.id] and [req.body]. *)
Record Request : Type := mkRequest
  { userId : option string; id : string; body : Body }.

Inductive Reply : Type :=
| Json (status : nat) (p : Payload)
| NoContent (status : nat).             (* res.status(204).send() *)

(** The values of the enum [TaskStatus]. *)
Definition taskStatus (s : string) : option TaskStatus :=
  if String.eqb s "PENDING" then Some PENDING
  else if String.eqb s "IN_PROGRESS" then Some IN_PROGRESS
  else if String.eqb s "COMPLETED" then Some COMPLETED
  else None.

(** [z.nativeEnum(TaskStatus)] *)
Definition nativeEnum (v : option Js.Json) : option TaskStatus :=
  match Zod.string v with
  | Some s => taskStatus s
  | None => None
  end.

(** [z.string().min(1)] *)
Definition min1 (v : option Js.Json) : option string :=
  match Zod.string v with
  | Some s => Zod.min 1 s
  | None => None
  end.

(** Parsed [data] of create and update: the keys the body names. *)
Record Data : Type := mkData
  { d_title : option string; d_description : option string;
    d_status : option TaskStatus }.

Definition createTaskSchema (b : Body) : option Data :=
  match min1 (title b),
        Zod.optional Zod.string (description b),
        Zod.optional nativeEnum (status b) with
  | Some t, Some ds, Some st => Some (mkData (Some t) ds st)
  | _, _, _ => None
  end.

Definition updateTaskSchema (b : Body) : option Data :=
  match Zod.optional min1 (title b),
        Zod.optional Zod.string (description b),
        Zod.optional nativeEnum (status b) with
  | Some t, Some ds, Some st => Some (mkData t ds st)
  | _, _, _ => None
  end.

(** ** Store calls *)

Definition has_id (i : string) (k : Task.t) : bool := String.eqb (Task.id k) i.

(** [task.create({ data: { ...data, userId } })]: [id], [status] and
    the two dates take the schema defaults. *)
Definition task_create (uuid : string) (data : Data) (owner : string) (at_ : Z) (d : Db)
  : Error + (Task.t * Db) :=
  let row := Task.mk uuid (default "" (d_title data)) (d_description data)
               (default PENDING (d_status data)) owner at_ at_ in
  if List.existsb (has_id uuid) (tasks d)
  then inl UniqueConstraintFailed
  else if Js.isSome (user_by_id owner d)
  then inr (row, mkDb (users d) (refreshTokens d) (tasks d ++ [row]))
  else inl ForeignKeyConstraintFailed.

(** [data] names no column. *)
Definition nothing_to_write (data : Data) : bool :=
  negb (Js.isSome (d_title data)) && negb (Js.isSome (d_description data))
  && negb (Js.isSome (d_status data)).

(** The row after [update({ data })]: the columns [data] names take
    its values and [updatedAt] ([@updatedAt]) the clock; with nothing to
    write the row stays as it is, [updatedAt] included. *)
Definition patch (data : Data) (at_ : Z) (k : Task.t) : Task.t :=
  if nothing_to_write data then k
  else
    Task.mk (Task.id k)
      (default (Task.title k) (d_title data))
      (match d_description data with Some x => Some x | None => Task.description k end)
      (default (Task.status k) (d_status data))
      (Task.userId k) (Task.createdAt k) at_.

(** [task.update({ where: { id }, data })] *)
Definition task_update (i : string) (data : Data) (at_ : Z) (d : Db)
  : Error + (Task.t * Db) :=
  match task_first i None d with
  | None => inl RecordNotFound
  | Some k =>
      inr (patch data at_ k,
           mkDb (users d) (refreshTokens d)
             (List.map (fun k => if has_id i k then patch data at_ k else k) (tasks d)))
  end.

(** [task.delete({ where: { id } })] *)
Definition task_delete (i : string) (d : Db) : Error + Db :=
  match task_first i None d with
  | None => inl RecordNotFound
  | Some _ =>
      inr (mkDb (users d) (refreshTokens d)
             (List.filter (fun k => negb (has_id i k)) (tasks d)))
  end.

(** ** Handlers.  Each takes the store and returns its answer with the
    store it leaves; an error thrown by a store call leaves the store as
    it was and is caught at the end of the handler. *)

Definition unauthorized : Reply := Json 401 (Message "Unauthorized").
Definition notFound : Reply := Json 404 (Message "Task not found").
Definition invalid : Reply := Json 400 Errors.
Definition internal : Reply := Json 500 (Message "Internal server error").

Definition createTask (e : Env) (uuid : string) (req : Request) (d : Db) : Reply * Db :=
  match userId req with
  | None => (unauthorized, d)
  | Some uid =>
      if negb (Js.truthy (Some uid)) then (unauthorized, d)
      else
        match createTaskSchema (body req) with
        | None => (invalid, d)
        | Some data =>
            match task_create uuid data uid (now e) d with
            | inl _ => (internal, d)
            | inr (task, d') => (Json 201 (TaskJson task), d')
            end
        end
  end.

Definition getTask (req : Request) (d : Db) : Reply * Db :=
  match task_first (id req) (userId req) d with
  | None => (notFound, d)
  | Some task => (Json 200 (TaskJson task), d)
  end.

Definition updateTask (e : Env) (req : Request) (d : Db) : Reply * Db :=
  match updateTaskSchema (body req) with
  | None => (invalid, d)
  | Some data =>
      match task_first (id req) (userId req) d with
      | None => (notFound, d)
      | Some _ =>
          match task_update (id req) data (now e) d with
          | inl _ => (internal, d)
          | inr (updatedTask, d') => (Json 200 (TaskJson updatedTask), d')
          end
      end
  end.

Definition deleteTask (req : Request) (d : Db) : Reply * Db :=
  match task_first (id req) (userId req) d with
  | None => (notFound, d)
  | Some _ =>
      match task_delete (id req) d with
      | inl _ => (internal, d)
      | inr d' => (NoContent 204, d')
      end
  end.

End TaskCrud.

(* ===================================================================== *)
(** * Further vocabulary and example data *)
(* ===================================================================== *)

Module MoreStatements.
Import Prisma Async Http.

(** The codec reads back the token it wrote for payload [c] under
    [secret], and its signature matches that secret only. *)
Definition reads_back {codec : Jwt.Codec} (c : Jwt.Claims) (secret : string) : Prop :=
  Jwt.decode (Jwt.encode c secret) = Some c
  /\ forall s, Jwt.signature_ok (Jwt.encode c secret) s = String.eqb secret s.

(** The payload [jwt.sign] makes at clock [now] (ms). *)
Definition payload (uid : string) (expiresIn now : Z) : Jwt.Claims :=
  Jwt.mkClaims uid (now / 1000) (now / 1000 + expiresIn).

Fixpoint has_space (s : string) : bool :=
  match s with
  | "" => false
  | String c s' => Ascii.eqb c AuthMiddleware.space || has_space s'
  end.

(** ** Accounts and sessions *)

Definition alreadyExists : Response := mkResponse 400 (Message "User already exists").
Definition invalidCredentials : Response := mkResponse 401 (Message "Invalid credentials").

Section Accounts.
Context {codec : Jwt.Codec} {libs : AuthController.Libs} (penv : Jwt.ProcessEnv).

(** The user row [register] creates for a parsed body. *)
Definition newUser (e : Env) (em pw nm : string) : User.t :=
  User.mk (userUuid e) em (AuthController.bcrypt_hash pw 10 (salt e)) nm (now e) (now e).

(** The refresh token [register] and [login] mint for user [uid], and
    the row they store for it. *)
Definition issued (e : Env) (uid : string) : string :=
  Jwt.generateRefreshToken penv (now e) uid.

Definition session (e : Env) (uid : string) : RefreshToken.t :=
  RefreshToken.fresh (AuthController.newTokenRow e (issued e uid) uid).

(** The body of their answer. *)
Definition credentials (e : Env) (u : User.t) : Payload :=
  Credentials (Jwt.generateAccessToken penv (now e) (User.id u))
              (issued e (User.id u)) (User.public u).

(** The token of a row was minted, at some time, for the user the row
    belongs to. *)
Definition minted_for (uid tok : string) : Prop :=
  exists now, tok = Jwt.generateRefreshToken penv now uid.

Definition own_token (r : RefreshToken.t) : Prop :=
  minted_for (RefreshToken.userId r) (RefreshToken.token r).

(** Every row is of that kind. *)
Definition sessions_own (d : Db) : Prop :=
  forall r, In r (refreshTokens d) -> own_token r.

(** A call inserts only rows of that kind. *)
Definition inserts_own (q : Query) : Prop :=
  match q with
  | RefreshToken_create x =>
      minted_for (RefreshToken.d_userId x) (RefreshToken.d_token x)
  | Transaction ws =>
      forall x, In (W_refreshToken_create x) ws ->
                minted_for (RefreshToken.d_userId x) (RefreshToken.d_token x)
  | _ => True
  end.

End Accounts.

(** ** The constraints of the schema *)

(** [@id] and [@unique]: no two rows agree on the column. *)
Definition unique {A} (key : A -> string) (l : list A) : Prop :=
  List.NoDup (List.map key l).

(** [@relation(fields: [userId], references: [id])] *)
Definition owned (uid : string) (d : Db) : Prop :=
  Js.isSome (user_by_id uid d) = true.


(** ** Tasks *)

(** Task [k] is not [uid]'s. *)
Definition foreign (uid : string) (k : Task.t) : bool :=
  negb (String.eqb (Task.userId k) uid).

(** The tasks of everyone but [uid], in table order. *)
Definition others (uid : string) (d : Db) : list Task.t :=
  List.filter (foreign uid) (tasks d).

(** Only the task table may differ. *)
Definition same_but_tasks (d d' : Db) : Prop :=
  users d' = users d /\ refreshTokens d' = refreshTokens d.

(** No task with id [i] is [uid]'s: there is none, or it is another
    user's. *)
Definition not_mine (uid i : string) (d : Db) : Prop :=
  forall k, In k (tasks d) -> Task.id k = i -> Task.userId k <> uid.

Definition taskNotFound : Response := mkResponse 404 (Message "Task not found").

(** The body names none of the columns [updateTask] writes. *)
Definition names_nothing (b : TaskCrud.Body) : bool :=
  negb (Js.isSome (TaskCrud.title b)) && negb (Js.isSome (TaskCrud.description b))
  && negb (Js.isSome (TaskCrud.status b)).

(** ** The client's token holder *)

(** What [tokenManager.getRefreshToken] reads. *)
Definition held (c : ApiClient.Client) : bool * option string * option string :=
  (ApiClient.hasWindow c, ApiClient.refreshToken c, ApiClient.localStorage c).

Definition not_stored (ev : ApiClient.Event) : Prop :=
  match ev with
  | ApiClient.Stored _ _ => False
  | _ => True
  end.

(** The flag is up although no refresh call is in flight. *)
Definition stuck (c : ApiClient.Client) : Prop :=
  ApiClient.isRefreshing c = true /\ ApiClient.refreshCalls c = [].

(** Request [r] waits in the queue and is nowhere else. *)
Definition parked (r : nat) (c : ApiClient.Client) : Prop :=
  In r (ApiClient.failedQueue c)
  /\ ~ In r (ApiClient.inflight c)
  /\ ApiClient.configs c !! r <> None.

(** What callers of request [r] have been told so far. *)
Definition told (r : nat) (c : ApiClient.Client) : list ApiClient.Settlement :=
  List.map snd (List.filter (fun x => Nat.eqb (fst x) r) (ApiClient.settled c)).

End MoreStatements.

Module Scenarios.
Import Reference Prisma Async Http.

(** An environment that sets [JWT_SECRET] to the empty string. *)
Definition emptyJwtSecret : Jwt.ProcessEnv :=
  Jwt.mkProcessEnv (Some "") (Some "s3cret") None None.

(** One secret for both kinds of token. *)
Definition oneSecret : Jwt.ProcessEnv :=
  Jwt.mkProcessEnv (Some "k") None (Some "k") None.

(** A second user, Bob, with a task of his own beside Alice's. *)
Definition bob : User.t := User.mk "u2" "b@c.com" "salt$hunter22" "B" 1500000 1500000.
Definition bobTask : Task.t :=
  Task.mk "k2" "buy milk" (Some "2 litres") PENDING "u2" 2500000 2500000.
Definition twoUsers : Db :=
  mkDb (users (store Examples.afterRegister) ++ [bob])
       (refreshTokens (store Examples.afterRegister))
       [Examples.aliceTask; bobTask].

(** Alice renames her task and marks it done; she adds another. *)
Definition rename : TaskCrud.Body :=
  TaskCrud.mkBody (Some (Js.JString "file the report")) None
                  (Some (Js.JString "COMPLETED")).
Definition another : TaskCrud.Body :=
  TaskCrud.mkBody (Some (Js.JString "call Bob")) (Some (Js.JString "about the milk"))
                  None.

(** A body that names nothing, and one whose description is [null]. *)
Definition nothing : TaskCrud.Body := TaskCrud.mkBody None None None.
Definition nullDescription : TaskCrud.Body :=
  TaskCrud.mkBody (Some (Js.JString "call Bob")) (Some Js.JNull) None.

(** A client outside a browser, holding no refresh token, after two
    requests were answered 401. *)
Definition serverSide : ApiClient.Client :=
  ApiClient.run Examples.twoExpired (ApiClient.init false None).

(** What may come next: a refresh answer nobody waits for, a new
    request answered 401, a login and a logout. *)
Definition whatever : list ApiClient.Event :=
  [ ApiClient.RefreshResponse 1 (Some "a2"); ApiClient.Call 3;
    ApiClient.Response 3 (Some 401%nat); ApiClient.Stored "a9" "r9";
    ApiClient.Call 4; ApiClient.Response 4 (Some 401%nat); ApiClient.Cleared ].

End Scenarios.

(* ===================================================================== *)
(** * Properties *)
(* ===================================================================== *)

Import Prisma Async Http Statements.

#[local] Arguments token_by_token : simpl never.
#[local] Arguments token_by_id : simpl never.
#[local] Arguments user_by_id : simpl never.
#[local] Arguments user_by_email : simpl never.
#[local] Arguments refreshToken_updateMany : simpl never.
#[local] Arguments count_where : simpl never.
#[local] Arguments apply_writes : simpl never.
#[local] Arguments AuthController.rotation : simpl never.
#[local] Arguments lockout : simpl never.

Section RefreshGate.
Context {codec : Jwt.Codec} {libs : AuthController.Libs} (penv : Jwt.ProcessEnv).

Lemma verify_bad_signature token secret now :
  Jwt.signature_ok token secret = false ->
  exists err, Jwt.verify token secret now = inl err.
Proof.
  intros Hs. unfold Jwt.verify. destruct (Jwt.decode token); [rewrite Hs|]; eauto.
Qed.

Lemma verify_expired token secret now c :
  Jwt.decode token = Some c -> Jwt.exp c <= now / 1000 ->
  exists err, Jwt.verify token secret now = inl err.
Proof.
  intros Hd He. unfold Jwt.verify. rewrite Hd.
  destruct (Jwt.signature_ok token secret); eauto.
  apply Z.leb_le in He. rewrite He. eauto.
Qed.

(** C4.  A presented token whose signature does not verify against the
    refresh secret, or whose embedded expiry is not in the future, makes
    [refresh] answer 401 "Invalid refresh token" at once: the handler is
    a bare return, so it issues no store call under any schedule, and a
    run leaves the store as it was with an empty trace (no lookup, no
    lockout). *)
Theorem refresh_unverified_no_lookup_no_lockout :
  forall (e : Env) (b : Body) (tok : string),
    AuthController.refreshSchema b = Some tok ->
    (Jwt.signature_ok tok (Jwt.REFRESH_TOKEN_SECRET penv) = false
     \/ exists c, Jwt.decode tok = Some c /\ Jwt.exp c <= now e / 1000) ->
    AuthController.refresh penv e b
      = Ret (mkResponse 401 (Message "Invalid refresh token"))
    /\ forall (faults : list bool) (d : Db),
         run (AuthController.refresh penv e b) faults d
         = mkOutcome (inr (mkResponse 401 (Message "Invalid refresh token"))) d [].
Proof.
  intros e b tok Hb Hbad.
  assert (Hv : exists err, Jwt.verifyRefreshToken penv (now e) tok = inl err).
  { destruct Hbad as [Hs | (c & Hd & He)].
    - now apply verify_bad_signature.
    - now apply verify_expired with c. }
  destruct Hv as [err Hv].
  assert (Hp : AuthController.refresh penv e b
               = Ret (mkResponse 401 (Message "Invalid refresh token"))).
  { unfold AuthController.refresh.
    rewrite Hb, Hv. reflexivity. }
  split; [exact Hp|]. intros faults d. rewrite Hp. reflexivity.
Qed.

End RefreshGate.

Section ReuseDetection.
Context {codec : Jwt.Codec} {libs : AuthController.Libs} (penv : Jwt.ProcessEnv).

Lemma revoke_where_In p l r :
  In r (revoke_where p l) ->
  exists r0, In r0 l /\ r = (if p r0 then RefreshToken.revoke r0 else r0).
Proof.
  unfold revoke_where. rewrite in_map_iff. intros (r0 & <- & Hin). eauto.
Qed.

Lemma lockout_revokes_owner u d r :
  In r (refreshTokens (refreshToken_updateMany (has_userId u) d)) ->
  RefreshToken.userId r = u -> RefreshToken.revoked r = true.
Proof.
  intros Hin Hu. apply revoke_where_In in Hin as (r0 & _ & ->).
  unfold has_userId in *. destruct (String.eqb_spec (RefreshToken.userId r0) u) as [|Hne].
  - reflexivity.
  - now destruct Hne.
Qed.

Lemma token_by_token_In tok d r :
  token_by_token tok d = Some r ->
  In r (refreshTokens d) /\ RefreshToken.token r = tok.
Proof.
  unfold token_by_token. intros H. apply find_some in H as [Hin Heq].
  split; [exact Hin|]. now apply String.eqb_eq.
Qed.

Ltac enter_refresh Hb :=
  unfold AuthController.refresh; rewrite Hb.

(** Any token whose stored record is revoked is refused with 401 when
    no storage call fails, verified or not. *)
Lemma refresh_revoked_401 e b tok d st :
  AuthController.refreshSchema b = Some tok ->
  token_by_token tok d = Some st ->
  RefreshToken.revoked st = true ->
  exists m, result (run (AuthController.refresh penv e b) [] d)
            = inr (mkResponse 401 (Message m)).
Proof.
  intros Hb Hl Hr. enter_refresh Hb.
  destruct (Jwt.verifyRefreshToken penv (now e) tok) as [err|c]; cbn; [eauto|].
  rewrite Hl. unfold AuthController.rejected, AuthController.reuseDetected.
  rewrite Hr. cbn.
  destruct (String.eqb (RefreshToken.userId st) (Jwt.userId c)); cbn; eauto.
Qed.

(** C1, as amended.  When the presented token still verifies, its stored
    record is revoked and is owned by the signed user, [refresh] (no
    storage fault) answers 401 after revoking every record of that user;
    every record of the user is then revoked, and a later [refresh] with
    any token of that user is answered 401 as well. *)
Theorem replay_of_verified_revoked_token_locks_out :
  forall (e : Env) (b : Body) (tok : string) (c : Jwt.Claims) (d : Db)
         (st : RefreshToken.t),
    AuthController.refreshSchema b = Some tok ->
    Jwt.verifyRefreshToken penv (now e) tok = inr c ->
    token_by_token tok d = Some st ->
    RefreshToken.revoked st = true ->
    RefreshToken.userId st = Jwt.userId c ->
    let o := run (AuthController.refresh penv e b) [] d in
    result o = inr invalidOrRevoked
    /\ trace o = [RefreshToken_findUnique tok;
                  RefreshToken_updateMany_userId (RefreshToken.userId st)]
    /\ store o = refreshToken_updateMany (has_userId (RefreshToken.userId st)) d
    /\ (forall r, In r (refreshTokens (store o)) ->
                  RefreshToken.userId r = RefreshToken.userId st ->
                  RefreshToken.revoked r = true)
    /\ (forall (e' : Env) (b' : Body) (tok' : string) (r' : RefreshToken.t),
          AuthController.refreshSchema b' = Some tok' ->
          token_by_token tok' (store o) = Some r' ->
          RefreshToken.userId r' = RefreshToken.userId st ->
          exists m, result (run (AuthController.refresh penv e' b') [] (store o))
                    = inr (mkResponse 401 (Message m))).
Proof.
  intros e b tok c d st Hb Hv Hl Hr Hu o.
  assert (Ho : o = mkOutcome (inr invalidOrRevoked)
                 (refreshToken_updateMany (has_userId (RefreshToken.userId st)) d)
                 [RefreshToken_findUnique tok;
                  RefreshToken_updateMany_userId (RefreshToken.userId st)]).
  { subst o. enter_refresh Hb. rewrite Hv. cbn. rewrite Hl.
    unfold AuthController.rejected, AuthController.reuseDetected.
    rewrite Hr, Hu, String.eqb_refl. cbn. reflexivity. }
  rewrite Ho. cbn [result trace store].
  repeat split.
  - intros r Hin Hown. eapply lockout_revokes_owner; eauto.
  - intros e' b' tok' r' Hb' Hl' Hown.
    apply refresh_revoked_401 with tok' r'; auto.
    apply token_by_token_In in Hl' as [Hin _].
    eapply lockout_revokes_owner; eauto.
Qed.

End ReuseDetection.

Section ReuseDetectionExamples.
Import Reference Examples.

(** Witness: Alice replays [tokA1] while it still verifies. *)
Lemma replay_of_verified_revoked_token_locks_out_witness :
  let o := run (AuthController.refresh penv atReplay (refreshBody tokA1)) []
               (store afterLogin) in
  result o = inr invalidOrRevoked
  /\ forall r, In r (refreshTokens (store o)) ->
               RefreshToken.userId r = "u1" -> RefreshToken.revoked r = true.
Proof.
  assert (Hv : Jwt.verifyRefreshToken penv (now atReplay) tokA1
               = inr (Jwt.mkClaims "u1" 1000 605800))
    by (vm_compute; reflexivity).
  assert (Hl : token_by_token tokA1 (store afterLogin)
               = Some (RefreshToken.mk "t1" tokA1 "u1" 605800000 1000000 true))
    by (vm_compute; reflexivity).
  pose proof (replay_of_verified_revoked_token_locks_out penv atReplay
                (refreshBody tokA1) tokA1 (Jwt.mkClaims "u1" 1000 605800)
                (store afterLogin)
                (RefreshToken.mk "t1" tokA1 "u1" 605800000 1000000 true)
                eq_refl Hv Hl eq_refl eq_refl) as (H1 & _ & _ & H4 & _).
  split; [exact H1 | exact H4].
Defined.

(** C1, counterexample to the claim as stated.  Alice's record for
    [tokA1] is revoked (rotated out).  Replayed after its seven days,
    [tokA1] is answered 401 at the signature/expiry gate; the store is
    not touched, her records for [tokA2] and [tokA3] stay unrevoked, and
    [tokA3] is accepted afterwards. *)
Lemma replay_of_expired_revoked_token_no_lockout :
  let d := store afterLogin in
  let o := run (AuthController.refresh penv atLateReplay (refreshBody tokA1)) [] d in
  (exists st, token_by_token tokA1 d = Some st
              /\ RefreshToken.userId st = "u1"
              /\ RefreshToken.revoked st = true)
  /\ result o = inr (mkResponse 401 (Message "Invalid refresh token"))
  /\ store o = d
  /\ ~ (forall r, In r (refreshTokens (store o)) ->
                  RefreshToken.userId r = "u1" -> RefreshToken.revoked r = true)
  /\ (exists r3, token_by_token tokA3 (store o) = Some r3
                 /\ RefreshToken.userId r3 = "u1")
  /\ (exists p, result (run (AuthController.refresh penv afterwards
                              (refreshBody tokA3)) [] (store o))
                = inr (mkResponse 200 p)).
Proof.
  cbv zeta. split; [|split; [|split; [|split; [|split]]]].
  - eexists. split; [|split]; vm_compute; reflexivity.
  - vm_compute. reflexivity.
  - vm_compute. reflexivity.
  - intros H.
    specialize (H (RefreshToken.mk "t3" tokA3 "u1" 1204900000 600100000 false)).
    assert (Hf : false = true); [|discriminate Hf].
    apply H; [|reflexivity]. vm_compute. right. right. left. reflexivity.
  - eexists. split; vm_compute; reflexivity.
  - eexists. vm_compute. reflexivity.
Qed.

End ReuseDetectionExamples.

Section Monotone.
Context {codec : Jwt.Codec} {libs : AuthController.Libs} (penv : Jwt.ProcessEnv).

Lemma kept_or_revoked_refl r : kept_or_revoked r r.
Proof. now left. Qed.

Lemma revoke_revoke r : RefreshToken.revoke (RefreshToken.revoke r) = RefreshToken.revoke r.
Proof. reflexivity. Qed.

Lemma kept_or_revoked_trans r1 r2 r3 :
  kept_or_revoked r1 r2 -> kept_or_revoked r2 r3 -> kept_or_revoked r1 r3.
Proof.
  unfold kept_or_revoked. intros [->| ->] [->| ->]; auto.
Qed.

Lemma kept_or_revoked_sticky r r' :
  kept_or_revoked r r' -> RefreshToken.revoked r = true -> r' = r.
Proof.
  intros [->| ->] Hr; [reflexivity|]. destruct r; cbn in *. now subst.
Qed.

Lemma Forall2_kept_refl l : Forall2 kept_or_revoked l l.
Proof. induction l; constructor; auto using kept_or_revoked_refl. Qed.

Lemma Forall2_kept_trans l1 l2 l3 :
  Forall2 kept_or_revoked l1 l2 -> Forall2 kept_or_revoked l2 l3 ->
  Forall2 kept_or_revoked l1 l3.
Proof.
  intros H. revert l3. induction H; intros l3 H3; inversion H3; subst; constructor.
  - eapply kept_or_revoked_trans; eauto.
  - auto.
Qed.

Lemma revoke_where_kept p l : Forall2 kept_or_revoked l (revoke_where p l).
Proof.
  induction l as [|r l IH]; cbn; constructor; auto.
  destruct (p r); [now right | now left].
Qed.

Lemma evolves_refl l : evolves l l.
Proof. exists l, []. rewrite app_nil_r. auto using Forall2_kept_refl. Qed.

Lemma evolves_trans l1 l2 l3 : evolves l1 l2 -> evolves l2 l3 -> evolves l1 l3.
Proof.
  intros (k1 & r1 & -> & H1) (k2 & r2 & -> & H2).
  apply Forall2_app_inv_l in H2 as (k2a & k2b & Ha & Hb & ->).
  exists k2a, (k2b ++ r2)%list. split; [now rewrite app_assoc|].
  eapply Forall2_kept_trans; eauto.
Qed.

Lemma evolves_revoke_where p l : evolves l (revoke_where p l).
Proof. exists (revoke_where p l), []. rewrite app_nil_r. auto using revoke_where_kept. Qed.

Lemma evolves_app l news : evolves l (l ++ news)%list.
Proof. exists l, news. auto using Forall2_kept_refl. Qed.

Lemma refreshToken_update_evolves i d d' :
  refreshToken_update i d = inr d' -> evolves (refreshTokens d) (refreshTokens d').
Proof.
  unfold refreshToken_update. destruct (Js.isSome _); intros H; inversion H; subst.
  apply evolves_revoke_where.
Qed.

Lemma refreshToken_create_evolves x d d' :
  refreshToken_create x d = inr d' -> evolves (refreshTokens d) (refreshTokens d').
Proof.
  unfold refreshToken_create.
  destruct (_ || _); [discriminate|]. destruct (Js.isSome _); [|discriminate].
  intros H; inversion H; subst. apply evolves_app.
Qed.

Lemma apply_writes_evolves ws : forall d d',
  apply_writes ws d = inr d' -> evolves (refreshTokens d) (refreshTokens d').
Proof.
  induction ws as [|w ws IH]; intros d d'.
  - intros H; inversion H; subst. apply evolves_refl.
  - change (apply_writes (w :: ws) d)
      with (match apply_write w d with
            | inl e => inl e
            | inr d1 => apply_writes ws d1
            end).
    destruct (apply_write w d) as [err|d1] eqn:Hw; [discriminate|]. intros H.
    eapply evolves_trans; [|eapply IH; eauto].
    destruct w; cbn in Hw;
      eauto using refreshToken_update_evolves, refreshToken_create_evolves.
Qed.

Lemma lift_write_evolves {A} (a : A) r d :
  (forall d', r = inr d' -> evolves (refreshTokens d) (refreshTokens d')) ->
  evolves (refreshTokens d) (refreshTokens (snd (lift_write a r d))).
Proof.
  intros H. destruct r as [err|d']; cbn; [apply evolves_refl | now apply H].
Qed.

(** No call of the store's vocabulary un-revokes or removes a row. *)
Lemma exec_evolves q d : evolves (refreshTokens d) (refreshTokens (snd (exec q d))).
Proof.
  destruct q; cbn [exec snd]; try apply evolves_refl.
  - apply lift_write_evolves. unfold user_create.
    destruct (_ || _); intros d' H; inversion H; subst. apply evolves_refl.
  - apply lift_write_evolves. apply refreshToken_create_evolves.
  - apply evolves_revoke_where.
  - apply evolves_revoke_where.
  - apply evolves_revoke_where.
  - apply lift_write_evolves. apply apply_writes_evolves.
  - unfold task_update. destruct (task_first id None d); cbn; apply evolves_refl.
Qed.

(** Hence no handler does, whatever it is and whatever fails. *)
Lemma run_evolves {A} (p : Prog A) : forall faults d,
  evolves (refreshTokens d) (refreshTokens (store (run p faults d))).
Proof.
  induction p as [a|err|q k IH]; intros faults d; cbn [run store];
    try apply evolves_refl.
  destruct faults as [|[|] faults]; cbn [fst snd List.tl].
  - eapply evolves_trans; [apply exec_evolves | apply IH].
  - apply IH.
  - eapply evolves_trans; [apply exec_evolves | apply IH].
Qed.

Lemma serve_evolves reqs : forall d,
  evolves (refreshTokens d) (refreshTokens (serve penv reqs d)).
Proof.
  induction reqs as [|x reqs IH]; intros d; cbn [serve List.fold_left].
  - apply evolves_refl.
  - eapply evolves_trans; [|apply IH]. apply (run_evolves (handler penv (fst x))).
Qed.

Lemma evolves_lookup l l' (i : nat) r :
  evolves l l' -> l !! i = Some r ->
  exists r', l' !! i = Some r' /\ kept_or_revoked r r'.
Proof.
  intros (kept & rest & -> & H) Hi.
  destruct (Forall2_lookup_l _ _ _ _ _ H Hi) as (r' & Hi' & Hk).
  exists r'. split; [|exact Hk]. apply lookup_app_l_Some. exact Hi'.
Qed.

(** C5.  Revocation is monotone.  (1) The two updates of the store only
    turn [revoked] to [true], row by row, and add no row; (2) a create
    leaves the existing rows alone and appends one row with
    [revoked = false]; (3) through any sequence of register, login,
    refresh and logout requests, under any storage faults, a row stays
    at its position with at most [revoked] turned to [true]; (4) so a
    row that is revoked is never changed again. *)
Theorem revocation_is_monotone :
  (forall p d, Forall2 kept_or_revoked (refreshTokens d)
                 (refreshTokens (refreshToken_updateMany p d)))
  /\ (forall i d d', refreshToken_update i d = inr d' ->
         Forall2 kept_or_revoked (refreshTokens d) (refreshTokens d'))
  /\ (forall x d d', refreshToken_create x d = inr d' ->
         refreshTokens d' = (refreshTokens d ++ [RefreshToken.fresh x])%list
         /\ RefreshToken.revoked (RefreshToken.fresh x) = false)
  /\ (forall (reqs : list (Op * list bool)) (d : Db) (i : nat) (r : RefreshToken.t),
         refreshTokens d !! i = Some r ->
         exists r', refreshTokens (serve penv reqs d) !! i = Some r'
                    /\ kept_or_revoked r r')
  /\ (forall (reqs : list (Op * list bool)) (d : Db) (i : nat) (r : RefreshToken.t),
         refreshTokens d !! i = Some r ->
         RefreshToken.revoked r = true ->
         refreshTokens (serve penv reqs d) !! i = Some r).
Proof.
  split; [|split; [|split; [|split]]].
  - intros p d. apply revoke_where_kept.
  - intros i d d'. unfold refreshToken_update.
    destruct (Js.isSome _); intros H; inversion H; subst. apply revoke_where_kept.
  - intros x d d'. unfold refreshToken_create.
    destruct (_ || _); [discriminate|]. destruct (Js.isSome _); [|discriminate].
    intros H; inversion H; subst. split; reflexivity.
  - intros reqs d i r Hi. eapply evolves_lookup; eauto using serve_evolves.
  - intros reqs d i r Hi Hr.
    destruct (evolves_lookup _ _ i r (serve_evolves reqs d) Hi) as (r' & Hi' & Hk).
    rewrite Hi'. f_equal. eapply kept_or_revoked_sticky; eauto.
Qed.

End Monotone.

Section RefreshCases.
Context {codec : Jwt.Codec} {libs : AuthController.Libs} (penv : Jwt.ProcessEnv).

(** Every run of [refresh] is one of the cases of [refresh_case]. *)
Lemma refresh_cases (e : Env) (b : Body) (faults : list bool) (d : Db) :
  refresh_case penv e b faults d (run (AuthController.refresh penv e b) faults d).
Proof.
  unfold AuthController.refresh.
  destruct (AuthController.refreshSchema b) as [tok|] eqn:Hb; cbn; [|now apply rc_bad_body].
  destruct (Jwt.verifyRefreshToken penv (now e) tok) as [err|c] eqn:Hv; cbn;
    [solve [eapply rc_unverified; eauto]|].
  destruct faults as [|f0 faults];
    [|destruct f0; [cbn; solve [eapply rc_lookup_fault; eauto]|]]; cbn.
  all: destruct (token_by_token tok d) as [st|] eqn:Hl; cbn;
    [|solve [eapply rc_unknown; eauto]].
  all: destruct (String.eqb (RefreshToken.userId st) (Jwt.userId c)) eqn:Hu;
    [|rewrite orb_true_r; cbn; solve [eapply rc_foreign; eauto]].
  all: rewrite orb_false_r.
  all: destruct (RefreshToken.revoked st) eqn:Hr; cbn.
  - solve [eapply rc_lockout; eauto].
  - destruct (apply_writes _ d) as [err|d'] eqn:Hw; cbn.
    + solve [eapply rc_rotation_failed; eauto].
    + destruct (user_by_id (RefreshToken.userId st) d') as [u|] eqn:Hu'; cbn.
      * solve [eapply rc_renewed; eauto].
      * solve [eapply rc_user_missing; eauto].
  - destruct faults as [|[|] faults]; cbn.
    + solve [eapply rc_lockout; eauto].
    + solve [eapply rc_lockout_fault; eauto].
    + solve [eapply rc_lockout; eauto].
  - destruct faults as [|[|] faults]; cbn.
    + destruct (apply_writes _ d) as [err|d'] eqn:Hw; cbn.
      * solve [eapply rc_rotation_failed; eauto].
      * destruct (user_by_id (RefreshToken.userId st) d') as [u|] eqn:Hu'; cbn.
        -- solve [eapply rc_renewed; eauto].
        -- solve [eapply rc_user_missing; eauto].
    + solve [eapply rc_rotation_failed; eauto].
    + destruct (apply_writes _ d) as [err|d'] eqn:Hw; cbn.
      * solve [eapply rc_rotation_failed; eauto].
      * destruct faults as [|[|] faults]; cbn.
        2: solve [eapply rc_user_fault; eauto].
        all: destruct (user_by_id (RefreshToken.userId st) d') as [u|] eqn:Hu'; cbn.
        all: solve [eapply rc_renewed; eauto | eapply rc_user_missing; eauto].
Qed.

End RefreshCases.

Section Frame.
Context {codec : Jwt.Codec} {libs : AuthController.Libs} (penv : Jwt.ProcessEnv).

Lemma lockout_frame_rows u l :
  Forall2 (fun r r' => (RefreshToken.userId r <> u -> r' = r)
                       /\ kept_or_revoked r r')
          l (revoke_where (has_userId u) l).
Proof.
  induction l as [|r l IH]; cbn; constructor; auto.
  unfold has_userId. destruct (String.eqb_spec (RefreshToken.userId r) u).
  - split; [intros; contradiction | now right].
  - split; [reflexivity | now left].
Qed.

Lemma frame_rows_refl u l :
  Forall2 (fun r r' => (RefreshToken.userId r <> u -> r' = r)
                       /\ kept_or_revoked r r') l l.
Proof. induction l; constructor; auto. split; [reflexivity | now left]. Qed.

(** C10.  Lockout is frame-confined.  Whenever a run of [refresh] (any
    body, store and storage faults) issues the lockout call for a user
    [u], then [u] is the user of the verified claim of the presented
    token, the [User] and [Task] tables are unchanged, no row is added or
    removed, rows of other users are unchanged, and a row of [u] differs
    at most by [revoked] having become [true]. *)
Theorem lockout_is_frame_confined :
  forall (e : Env) (b : Body) (faults : list bool) (d : Db) (u : string),
    let o := run (AuthController.refresh penv e b) faults d in
    In (RefreshToken_updateMany_userId u) (trace o) ->
    (exists tok c, AuthController.refreshSchema b = Some tok
                   /\ Jwt.verifyRefreshToken penv (now e) tok = inr c
                   /\ Jwt.userId c = u)
    /\ users (store o) = users d
    /\ tasks (store o) = tasks d
    /\ Forall2 (fun r r' => (RefreshToken.userId r <> u -> r' = r)
                            /\ kept_or_revoked r r')
               (refreshTokens d) (refreshTokens (store o)).
Proof.
  intros e b faults d u o Hin. subst o.
  destruct (refresh_cases penv e b faults d); cbn [trace store] in *;
    unfold findCall, lockoutCall, rotationCall, userCall in Hin;
    cbn in Hin;
    repeat (destruct Hin as [Hin|Hin]; try discriminate Hin); try contradiction;
    injection Hin as <-.
  - split; [eauto|]. split; [reflexivity|]. split; [reflexivity|].
    apply frame_rows_refl.
  - split; [eauto|]. split; [reflexivity|]. split; [reflexivity|].
    apply lockout_frame_rows.
Qed.

End Frame.

Section Rotation.
Context {codec : Jwt.Codec} {libs : AuthController.Libs} (penv : Jwt.ProcessEnv).

Lemma find_revoke_where (key : RefreshToken.t -> string) p k l :
  (forall r, key (RefreshToken.revoke r) = key r) ->
  Js.isSome (List.find (fun r => String.eqb (key r) k) (revoke_where p l))
  = Js.isSome (List.find (fun r => String.eqb (key r) k) l).
Proof.
  intros Hkey. induction l as [|r l IH]; [reflexivity|]. cbn.
  destruct (p r); [rewrite Hkey|]; destruct (String.eqb (key r) k); auto.
Qed.

Lemma In_token_by_id r d :
  In r (refreshTokens d) -> Js.isSome (token_by_id (RefreshToken.id r) d) = true.
Proof.
  unfold token_by_id. intros Hin.
  destruct (List.find _ _) eqn:Hf; [reflexivity|].
  eapply find_none in Hf; eauto. cbn in Hf. now rewrite String.eqb_refl in Hf.
Qed.

(** A committed rotation is [rotated]: both changes or none. *)
Lemma rotation_commit e st tok d d' :
  apply_writes (AuthController.rotation e st tok) d = inr d' ->
  d' = rotated e st tok d
  /\ Js.isSome (token_by_id (RefreshToken.id st) d) = true
  /\ Js.isSome (user_by_id (RefreshToken.userId st) d') = true.
Proof.
  unfold AuthController.rotation, apply_writes, apply_write.
  unfold refreshToken_update.
  destruct (Js.isSome (token_by_id (RefreshToken.id st) d)) eqn:Hid; [|discriminate].
  unfold refreshToken_create. destruct (_ || _); [discriminate|].
  destruct (Js.isSome (user_by_id _ _)) eqn:Hfk; [|discriminate].
  intros H. injection H as <-. repeat split. exact Hfk.
Qed.

(** It commits when the generated id and the minted token are new to
    the table and the owner's row exists. *)
Lemma rotation_commits e st tok d :
  In st (refreshTokens d) ->
  token_by_id (tokenUuid e) d = None ->
  token_by_token tok d = None ->
  Js.isSome (user_by_id (RefreshToken.userId st) d) = true ->
  apply_writes (AuthController.rotation e st tok) d = inr (rotated e st tok d).
Proof.
  intros Hin Hid Htok Hfk.
  unfold AuthController.rotation, apply_writes, apply_write, refreshToken_update.
  rewrite (In_token_by_id _ _ Hin).
  unfold refreshToken_create, token_by_id, token_by_token, user_by_id. cbn.
  rewrite (find_revoke_where RefreshToken.id), (find_revoke_where RefreshToken.token)
    by reflexivity.
  fold (token_by_id (tokenUuid e) d). fold (token_by_token tok d).
  rewrite Hid, Htok. cbn.
  fold (user_by_id (RefreshToken.userId st) d). rewrite Hfk. reflexivity.
Qed.

Lemma rotated_has_both e st tok d :
  In st (refreshTokens d) ->
  In (RefreshToken.revoke st) (refreshTokens (rotated e st tok d))
  /\ In (RefreshToken.fresh (AuthController.newTokenRow e tok (RefreshToken.userId st)))
        (refreshTokens (rotated e st tok d)).
Proof.
  intros Hin. cbn. split; apply in_or_app; [left | right; now left].
  unfold revoke_where. apply in_map_iff. exists st. split; [|exact Hin].
  unfold has_id. now rewrite String.eqb_refl.
Qed.

(** ** [refresh] among other requests *)

Lemma all_calls_interleaved {A} (Q : Query -> Prop) (p0 : Prog A) d0 p d :
  all_calls Q p0 -> interleaved p0 d0 p d -> all_calls Q p.
Proof.
  intros H0 Hi. induction Hi as [|p d fault p' d' _ IH Hn|]; auto.
  destruct p as [a|err|q k]; cbn in Hn; try discriminate.
  destruct IH as [_ Hk]. destruct fault; injection Hn as <- <-; apply Hk.
Qed.

Lemma refresh_all_calls e b :
  all_calls (refresh_call penv e b) (AuthController.refresh penv e b).
Proof.
  unfold AuthController.refresh.
  destruct (AuthController.refreshSchema b) as [tok|] eqn:Hb; cbn; [|exact I].
  destruct (Jwt.verifyRefreshToken penv (now e) tok) as [err|c] eqn:Hv; cbn; [exact I|].
  split; [exact I|]. intros [err|[st|]]; cbn; try exact I.
  destruct (RefreshToken.revoked st || _); cbn.
  - destruct (String.eqb _ _); cbn; [|exact I].
    split; [now exists tok, c|]. intros [err|n]; cbn; exact I.
  - split; [now exists st|]. intros [err|[]]; cbn; [exact I|].
    split; [exact I|]. intros [err|[u|]]; cbn; exact I.
Qed.

(** What one step of [refresh] does to the store, whatever the store
    has become by then. *)
Lemma refresh_step_effect e b d0 p d fault p' d' :
  interleaved (AuthController.refresh penv e b) d0 p d ->
  next p d fault = Some (p', d') ->
  d' = d
  \/ (exists tok c, AuthController.refreshSchema b = Some tok
                    /\ Jwt.verifyRefreshToken penv (now e) tok = inr c
                    /\ d' = lockout (Jwt.userId c) d)
  \/ (exists st, d' = rotated e st (minted penv e st) d
                 /\ Js.isSome (token_by_id (RefreshToken.id st) d) = true).
Proof.
  intros Hi Hn.
  pose proof (all_calls_interleaved _ _ _ _ _ (refresh_all_calls e b) Hi) as Hq.
  destruct p as [a|err|q k]; cbn in Hn; try discriminate.
  destruct Hq as [Hq _].
  destruct fault; injection Hn as _ <-; [now left|].
  destruct q; cbn in Hq; try contradiction; cbn [exec snd]; auto.
  - destruct Hq as (tok & c & Hb & Hv & ->). right; left. now exists tok, c.
  - destruct Hq as (st & ->).
    destruct (apply_writes _ d) as [err|d1] eqn:Hw; cbn; [now left|].
    apply rotation_commit in Hw as (-> & Hid & _). right; right. now exists st.
Qed.

End Rotation.

Section RotationClaims.
Context {codec : Jwt.Codec} {libs : AuthController.Libs} (penv : Jwt.ProcessEnv).

(** Identify what two readings of the same request say. *)
Ltac same_request :=
  repeat match goal with
  | H1 : ?x = Some ?a, H2 : ?x = Some ?b |- _ =>
      assert (b = a) by congruence; subst b; clear H2
  | H1 : ?x = inr ?a, H2 : ?x = inr ?b |- _ =>
      assert (b = a) by congruence; subst b; clear H2
  | H1 : ?x = Some _, H2 : ?x = None |- _ => exfalso; congruence
  | H1 : ?x = inr _, H2 : ?x = inl _ |- _ => exfalso; congruence
  | H1 : ?x = true, H2 : ?x = false |- _ => exfalso; congruence
  end.

(** C2, as amended.  A [refresh] whose token verifies and matches an
    unrevoked stored row [st] owned by the signed user issues one
    transaction made of the update that revokes [st] and the create of a
    row for the minted token, with [expiresAt] seven days after the clock
    and [revoked = false].  A run ends with both changes in the store, or
    with the store untouched and 500 returned; it has both whenever no
    call faults up to the transaction, the generated id and the minted
    token are new to the table and the owner's row exists.  Run among
    other requests, every step of [refresh] leaves the store as it finds
    it, or is the lockout, or applies both changes of a rotation at
    once. *)
Theorem rotation_is_all_or_nothing :
  forall (e : Env) (b : Body) (tok : string) (c : Jwt.Claims) (d : Db)
         (st : RefreshToken.t) (faults : list bool),
    AuthController.refreshSchema b = Some tok ->
    Jwt.verifyRefreshToken penv (now e) tok = inr c ->
    token_by_token tok d = Some st ->
    RefreshToken.revoked st = false ->
    RefreshToken.userId st = Jwt.userId c ->
    let o := run (AuthController.refresh penv e b) faults d in
    let new := RefreshToken.fresh
                 (AuthController.newTokenRow e (minted penv e st) (RefreshToken.userId st)) in
    (RefreshToken.expiresAt new = now e + 7 * 24 * 60 * 60 * 1000
     /\ RefreshToken.revoked new = false
     /\ RefreshToken.token new = minted penv e st
     /\ RefreshToken.userId new = RefreshToken.userId st)
    /\ (fault_at 0 faults = false ->
        exists rest, trace o = findCall tok
                               :: Transaction [W_refreshToken_update (RefreshToken.id st);
                                               W_refreshToken_create
                                                 (AuthController.newTokenRow e
                                                    (minted penv e st)
                                                    (RefreshToken.userId st))]
                               :: rest)
    /\ ((store o = rotated e st (minted penv e st) d
         /\ In (RefreshToken.revoke st) (refreshTokens (store o))
         /\ In new (refreshTokens (store o)))
        \/ (store o = d /\ result o = inr internalError))
    /\ (fault_at 0 faults = false -> fault_at 1 faults = false ->
        token_by_id (tokenUuid e) d = None ->
        token_by_token (minted penv e st) d = None ->
        Js.isSome (user_by_id (RefreshToken.userId st) d) = true ->
        store o = rotated e st (minted penv e st) d)
    /\ (forall d0 p d1 fault p' d2,
          interleaved (AuthController.refresh penv e b) d0 p d1 ->
          next p d1 fault = Some (p', d2) ->
          d2 = d1
          \/ d2 = lockout (Jwt.userId c) d1
          \/ exists st', d2 = rotated e st' (minted penv e st') d1
                         /\ Js.isSome (token_by_id (RefreshToken.id st') d1) = true).
Proof.
  intros e b tok c d st faults Hb Hv Hl Hr Hu o new.
  apply String.eqb_eq in Hu.
  destruct (token_by_token_In _ _ _ Hl) as [Hin _].
  split; [repeat split|].
  assert (Hcases := refresh_cases penv e b faults d). fold o in Hcases.
  split; [|split; [|split]].
  - intros Hf0. destruct Hcases; cbn [trace]; same_request; eauto.
  - destruct Hcases; cbn [store result]; same_request;
      try (right; split; reflexivity).
    all: match goal with H : apply_writes _ _ = inr _ |- _ =>
           apply rotation_commit in H as (-> & _ & _) end.
    all: left; split; [reflexivity|]; now apply rotated_has_both.
  - intros Hf0 Hf1 Hid Htok Hfk.
    pose proof (rotation_commits e st (minted penv e st) d Hin Hid Htok Hfk) as Hc.
    destruct Hcases; cbn [store]; same_request; try congruence.
    match goal with H : _ \/ _ |- _ => destruct H as [Hf|[err Herr]]; congruence end.
  - intros d0 p d1 fault p' d2 Hi Hn.
    destruct (refresh_step_effect penv e b d0 p d1 fault p' d2 Hi Hn)
      as [->|[(tok' & c' & Hb' & Hv' & ->)|(st' & -> & Hid)]].
    + now left.
    + right; left. congruence.
    + right; right. now exists st'.
Qed.

(** In a run the rotation is committed only if the owner's row exists,
    so the branch that answers 404 is never taken. *)
Lemma refresh_never_404 e b faults d :
  result (run (AuthController.refresh penv e b) faults d) <> inr userNotFound.
Proof.
  destruct (refresh_cases penv e b faults d); cbn [result]; try discriminate.
  exfalso. apply rotation_commit in H6 as (-> & _ & Hfk).
  rewrite H8 in Hfk. discriminate.
Qed.

(** C3, as amended.  A [refresh] whose body passes validation answers
    200, 401 or 500.  With 401 no rotation has been committed: the store
    is as it was or differs by the lockout.  With 500 the store is as it
    was, unless the failure is a storage fault in the user lookup, which
    runs after the transaction: then the rotation stays committed though
    no credentials are returned.  So a failure leaves no rotation
    committed whenever the user lookup does not fault. *)
Theorem refresh_failures :
  forall (e : Env) (b : Body) (tok : string) (faults : list bool) (d : Db),
    AuthController.refreshSchema b = Some tok ->
    let o := run (AuthController.refresh penv e b) faults d in
    exists resp, result o = inr resp
      /\ (status resp = 200%nat \/ status resp = 401%nat \/ resp = internalError)
      /\ (status resp = 200%nat ->
          exists st, store o = rotated e st (minted penv e st) d)
      /\ (status resp = 401%nat ->
          store o = d \/ exists u, store o = lockout u d)
      /\ (resp = internalError ->
          store o = d
          \/ (fault_at 2 faults = true
              /\ exists st, token_by_token tok d = Some st
                            /\ store o = rotated e st (minted penv e st) d))
      /\ (status resp <> 200%nat -> fault_at 2 faults = false ->
          store o = d \/ exists u, store o = lockout u d).
Proof.
  intros e b tok faults d Hb o.
  pose proof (refresh_never_404 e b faults d) as H404. fold o in H404.
  assert (Hcases := refresh_cases penv e b faults d). fold o in Hcases.
  destruct Hcases; cbn [result store] in *; same_request; try congruence;
    try match goal with H : apply_writes _ _ = inr _ |- _ =>
          apply rotation_commit in H as (-> & _ & _) end;
    eexists; (split; [reflexivity|]); cbn;
    repeat split; intros; try discriminate; try congruence; eauto.
Qed.

End RotationClaims.

Section RotationExamples.
Import Reference Examples.

(** Witness: Alice's first refresh, at second 600000. *)
Lemma rotation_is_all_or_nothing_witness :
  let st := RefreshToken.mk "t1" tokA1 "u1" 605800000 1000000 false in
  store afterRotation
  = rotated atRotation st (minted penv atRotation st) (store afterRegister)
  /\ store afterRotation <> store afterRegister.
Proof.
  cbv zeta. split.
  - assert (Hv : Jwt.verifyRefreshToken penv (now atRotation) tokA1
                 = inr (Jwt.mkClaims "u1" 1000 605800))
      by (vm_compute; reflexivity).
    assert (Hl : token_by_token tokA1 (store afterRegister)
                 = Some (RefreshToken.mk "t1" tokA1 "u1" 605800000 1000000 false))
      by (vm_compute; reflexivity).
    pose proof (rotation_is_all_or_nothing penv atRotation (refreshBody tokA1) tokA1
             (Jwt.mkClaims "u1" 1000 605800) (store afterRegister)
             (RefreshToken.mk "t1" tokA1 "u1" 605800000 1000000 false) []
             eq_refl Hv Hl eq_refl eq_refl) as (_ & _ & _ & H & _).
    apply H; vm_compute; reflexivity.
  - vm_compute. discriminate.
Defined.

(** C2, counterexample to the claim as stated.  Half a second after
    registering, Alice presents [tokA1]: it verifies and matches her
    unrevoked row.  The token minted in the same clock second is [tokA1]
    again, the create breaks the unique constraint on [token], the
    transaction is rolled back: 500 is returned, the row is not revoked
    and no row is inserted.  The same happens at second 600000 when the
    storage layer fails the transaction. *)
Lemma same_second_refresh_changes_nothing :
  (let d := store afterRegister in
   let o := run (AuthController.refresh penv atSameSecond (refreshBody tokA1)) [] d in
   (exists c st,
       Jwt.verifyRefreshToken penv (now atSameSecond) tokA1 = inr c
       /\ token_by_token tokA1 d = Some st
       /\ RefreshToken.revoked st = false
       /\ RefreshToken.userId st = Jwt.userId c
       /\ minted penv atSameSecond st = tokA1)
   /\ result o = inr internalError
   /\ store o = d
   /\ (forall r, In r (refreshTokens (store o)) -> RefreshToken.revoked r = false)
   /\ List.length (refreshTokens (store o)) = 1%nat)
  /\ (let d := store afterRegister in
      let o := run (AuthController.refresh penv atRotation (refreshBody tokA1))
                   secondCallFails d in
      (exists c st,
          Jwt.verifyRefreshToken penv (now atRotation) tokA1 = inr c
          /\ token_by_token tokA1 d = Some st
          /\ RefreshToken.revoked st = false
          /\ RefreshToken.userId st = Jwt.userId c)
      /\ result o = inr internalError
      /\ store o = d).
Proof.
  cbv zeta. split.
  - split; [|split; [|split; [|split]]].
    + do 2 eexists. repeat split; vm_compute; reflexivity.
    + vm_compute. reflexivity.
    + vm_compute. reflexivity.
    + intros r Hin. vm_compute in Hin. destruct Hin as [<-|[]]. reflexivity.
    + vm_compute. reflexivity.
  - split; [|split].
    + do 2 eexists. repeat split; vm_compute; reflexivity.
    + vm_compute. reflexivity.
    + vm_compute. reflexivity.
Qed.

(** Witness: the replay of [tokA1] at second 600200 is refused and the
    store differs by the lockout. *)
Lemma refresh_failures_witness :
  exists resp,
    result (run (AuthController.refresh penv atReplay (refreshBody tokA1)) []
                (store afterLogin)) = inr resp
    /\ status resp = 401%nat.
Proof.
  destruct (refresh_failures penv atReplay (refreshBody tokA1) tokA1 []
              (store afterLogin) eq_refl) as (resp & Hres & Hst & _).
  exists resp. split; [exact Hres|].
  vm_compute in Hres. injection Hres as <-. reflexivity.
Defined.

(** C3, counterexample to the claim as stated.  Alice's first refresh,
    with the storage layer failing the third call, the user lookup: the
    answer is 500, yet her row for [tokA1] is revoked and the row for
    the replacement token [tokA2], which she never receives, is in the
    store. *)
Lemma refresh_fails_after_commit :
  let d := store afterRegister in
  let o := run (AuthController.refresh penv atRotation (refreshBody tokA1))
               thirdCallFails d in
  result o = inr internalError
  /\ (exists st, token_by_token tokA1 (store o) = Some st
                 /\ RefreshToken.revoked st = true)
  /\ token_by_token tokA2 d = None
  /\ (exists r, token_by_token tokA2 (store o) = Some r
                /\ RefreshToken.revoked r = false)
  /\ store o = store afterRotation.
Proof.
  cbv zeta. split; [|split; [|split; [|split]]].
  - vm_compute. reflexivity.
  - eexists. split; vm_compute; reflexivity.
  - vm_compute. reflexivity.
  - eexists. split; vm_compute; reflexivity.
  - vm_compute. reflexivity.
Qed.

(** Witness: the replay of [tokA1] at second 600200 issues the lockout
    for Alice. *)
Lemma lockout_is_frame_confined_witness :
  users (store (run (AuthController.refresh penv atReplay (refreshBody tokA1)) []
                    (store afterLogin)))
  = users (store afterLogin).
Proof.
  apply (lockout_is_frame_confined penv atReplay (refreshBody tokA1) []
           (store afterLogin) "u1").
  vm_compute. right. left. reflexivity.
Defined.

End RotationExamples.

Section Logout.
Context {libs : AuthController.Libs}.

Lemma revoke_revoked r : RefreshToken.revoked r = true -> RefreshToken.revoke r = r.
Proof. destruct r; cbn; now intros ->. Qed.

Lemma revoke_where_id p l :
  (forall r, In r l -> p r = true -> RefreshToken.revoked r = true) ->
  revoke_where p l = l.
Proof.
  unfold revoke_where.
  induction l as [|r l IH]; intros H; [reflexivity|]. cbn [List.map].
  rewrite IH by (intros; apply H; [now right | assumption]).
  destruct (p r) eqn:Hp; [|reflexivity].
  rewrite revoke_revoked; [reflexivity|]. apply H; [now left | assumption].
Qed.

Lemma revoke_where_idem p l :
  (forall r, p (RefreshToken.revoke r) = p r) ->
  revoke_where p (revoke_where p l) = revoke_where p l.
Proof.
  unfold revoke_where.
  intros Hp. induction l as [|r l IH]; [reflexivity|]. cbn [List.map]. rewrite IH.
  destruct (p r) eqn:E; [rewrite Hp, E | rewrite E]; reflexivity.
Qed.

Lemma with_refreshTokens_id d : with_refreshTokens d (refreshTokens d) = d.
Proof. now destruct d. Qed.

Lemma logout_rows tok l :
  Forall2 (fun r r' => r' = if String.eqb (RefreshToken.token r) tok
                            then RefreshToken.revoke r else r)
          l (revoke_where (has_token tok) l).
Proof. induction l; cbn; constructor; auto. Qed.

Lemma logout_skips b fs d :
  Js.truthyJ (refreshToken b) = false ->
  run (AuthController.logout b) fs d = mkOutcome (inr loggedOut) d [].
Proof.
  unfold AuthController.logout. destruct (refreshToken b) as [v|]; [|reflexivity].
  intros Ht. rewrite Ht. reflexivity.
Qed.

Lemma logout_revokes b tok fs d :
  refreshToken b = Some (Js.JString tok) -> tok <> "" -> fault_at 0 fs = false ->
  run (AuthController.logout b) fs d
  = mkOutcome (inr loggedOut) (refreshToken_updateMany (has_token tok) d)
              [RefreshToken_updateMany_token tok].
Proof.
  intros Hb Hne Hf. unfold AuthController.logout. rewrite Hb. cbn [Js.truthyJ].
  destruct (String.eqb_spec tok "") as [->|_]; [now destruct Hne|]. cbn [negb].
  destruct fs as [|[|] fs]; cbn in *; try discriminate; reflexivity.
Qed.

(** The client refuses the value: nothing reaches the store. *)
Lemma logout_refused b v fs d :
  refreshToken b = Some v -> Js.truthyJ (Some v) = true ->
  AuthController.updateMany_where_token v = None ->
  run (AuthController.logout b) fs d = mkOutcome (inr internalError) d [].
Proof.
  intros Hb Ht Hw. unfold AuthController.logout. now rewrite Hb, Ht, Hw.
Qed.

(** The client takes the object for a filter. *)
Lemma logout_filters b fields f fs d :
  refreshToken b = Some (Js.JObject fields) ->
  AuthController.prisma_StringFilter fields = Some f ->
  fault_at 0 fs = false ->
  run (AuthController.logout b) fs d
  = mkOutcome (inr loggedOut) (refreshToken_updateMany (token_where f) d)
              [RefreshToken_updateMany_where f].
Proof.
  intros Hb Hflt Hf. unfold AuthController.logout. rewrite Hb. cbn [Js.truthyJ].
  unfold AuthController.updateMany_where_token. rewrite Hflt. cbn [option_map].
  destruct fs as [|[|] fs]; cbn in *; try discriminate; reflexivity.
Qed.

(** Whatever the body and the faults, [logout] answers 200 or 500 and
    at most revokes rows. *)
Lemma logout_any b fs d :
  let o := run (AuthController.logout b) fs d in
  (result o = inr loggedOut \/ result o = inr internalError)
  /\ users (store o) = users d /\ tasks (store o) = tasks d
  /\ Forall2 kept_or_revoked (refreshTokens d) (refreshTokens (store o)).
Proof.
  unfold AuthController.logout.
  destruct (refreshToken b) as [v|];
    [|cbn; repeat split; auto using Forall2_kept_refl].
  destruct (Js.truthyJ (Some v));
    [|cbn; repeat split; auto using Forall2_kept_refl].
  destruct (AuthController.updateMany_where_token v) as [call|] eqn:Hw;
    [|cbn; repeat split; auto using Forall2_kept_refl].
  assert (Hcall : (exists tok, call = RefreshToken_updateMany_token tok)
                  \/ (exists f, call = RefreshToken_updateMany_where f)).
  { unfold AuthController.updateMany_where_token in Hw.
    destruct v; try discriminate.
    - injection Hw as <-. eauto.
    - destruct (AuthController.prisma_StringFilter fields); [|discriminate].
      injection Hw as <-. eauto. }
  destruct Hcall as [[tok ->]|[f ->]];
    (destruct fs as [|[|] fs]; cbn;
     repeat split; auto using Forall2_kept_refl;
     unfold refreshToken_updateMany; cbn; auto using revoke_where_kept).
Qed.


End Logout.

Section Toggle.
Import TaskController.

Lemma task_matches_with_status i u s at_ k :
  task_matches i u (Task.with_status s at_ k) = task_matches i u k.
Proof. reflexivity. Qed.

Lemma task_first_id_known i u d k :
  task_first i u d = Some k -> exists k0, task_first i None d = Some k0.
Proof.
  unfold task_first. intros H. apply find_some in H as [Hin Hm].
  destruct (List.find (task_matches i None) (tasks d)) as [k0|] eqn:Hf; [eauto|].
  eapply find_none in Hf; eauto. unfold task_matches in *.
  apply andb_true_iff in Hm as [Hm _]. rewrite Hm in Hf. discriminate.
Qed.

Lemma find_after_update i u s at_ l :
  List.find (task_matches i u)
    (List.map (fun k => if String.eqb (Task.id k) i
                        then Task.with_status s at_ k else k) l)
  = option_map (Task.with_status s at_) (List.find (task_matches i u) l).
Proof.
  induction l as [|k l IH]; [reflexivity|]. cbn [List.map List.find].
  destruct (String.eqb (Task.id k) i) eqn:Hid.
  - rewrite task_matches_with_status.
    destruct (task_matches i u k); [reflexivity | exact IH].
  - unfold task_matches at 1 3. rewrite Hid. cbn. exact IH.
Qed.

(** One toggle of a task the requester can see. *)
Lemma toggle_once e req d k :
  task_first (id req) (userId req) d = Some k ->
  let o := run (toggleTask e req) [] d in
  (exists k', result o = inr (mkResponse 200 (TaskJson k'))
              /\ Task.status k' = newStatus (Task.status k))
  /\ task_first (id req) (userId req) (store o)
     = Some (Task.with_status (newStatus (Task.status k)) (now e) k).
Proof.
  intros Hk. destruct (task_first_id_known _ _ _ _ Hk) as [k0 Hk0].
  unfold toggleTask. cbn. rewrite Hk. cbn. unfold task_update. rewrite Hk0. cbn.
  split; [eexists; split; reflexivity|].
  unfold task_first in *. cbn. rewrite find_after_update, Hk. reflexivity.
Qed.

(** The run of one toggle, in full. *)
Lemma toggle_one_click e req d k k0 :
  task_first (id req) (userId req) d = Some k ->
  task_first (id req) None d = Some k0 ->
  let s := newStatus (Task.status k) in
  let o := run (toggleTask e req) [] d in
  result o = inr (mkResponse 200 (TaskJson (Task.with_status s (now e) k0)))
  /\ trace o = [Task_findFirst (id req) (userId req); Task_update (id req) s (now e)].
Proof.
  intros Hk Hk0. unfold toggleTask. cbn. rewrite Hk. cbn. unfold task_update.
  rewrite Hk0. cbn. split; reflexivity.
Qed.


End Toggle.


Section SingleFlight.
Import ApiClient.

(** ** What the helpers leave alone *)

Lemma flight_send r c : flight (send r c) = flight c.
Proof.
  unfold send, requestInterceptor.
  destruct (getAccessToken c) as [t|]; [destruct (Js.truthy (Some t))|]; reflexivity.
Qed.

Lemma flight_resolveQueued tok r c : flight (resolveQueued tok r c) = flight c.
Proof. unfold resolveQueued. now rewrite flight_send. Qed.

Lemma flight_fold (f : Client -> nat -> Client) q :
  (forall a r, flight (f a r) = flight a) ->
  forall c, flight (List.fold_left f q c) = flight c.
Proof.
  intros Hf. induction q as [|r q IH]; intros c; cbn; [reflexivity|].
  now rewrite IH, Hf.
Qed.

Lemma flight_processQueue err tok c : flight (processQueue err tok c) = flight c.
Proof.
  unfold processQueue. rewrite flight_fold; [reflexivity|].
  intros a r. destruct err; [reflexivity | apply flight_resolveQueued].
Qed.

Lemma flight_eq c c' :
  flight c' = flight c ->
  refreshCalls c' = refreshCalls c /\ isRefreshing c' = isRefreshing c
  /\ refreshesSent c' = refreshesSent c.
Proof. unfold flight. intros [= -> -> ->]. auto. Qed.

Lemma single_flight_flight c c' : flight c' = flight c -> single_flight c -> single_flight c'.
Proof.
  intros H. apply flight_eq in H as (H1 & H2 & _). unfold single_flight.
  now rewrite H1, H2.
Qed.

Lemma remove_call_singleton r (x : nat * string) :
  fst x = r -> remove_call r [x] = [].
Proof. intros <-. unfold remove_call. cbn. now rewrite Nat.eqb_refl. Qed.

Lemma existsb_singleton r (x : nat * string) :
  List.existsb (fun p => Nat.eqb (fst p) r) [x] = true -> fst x = r.
Proof. cbn. rewrite orb_false_r. apply Nat.eqb_eq. Qed.

Lemma single_flight_onRejected r err c :
  single_flight c -> single_flight (onRejected r err c).
Proof.
  intros Hc. unfold onRejected.
  destruct (is401 err && negb (_retry (config_of r c))); [|exact Hc].
  destruct (isRefreshing c) eqn:Hr; [exact Hc|].
  destruct Hc as [Hnil|[Htrue _]]; [|cbn in Htrue; congruence].
  destruct (Js.truthy _).
  - right. cbn. rewrite Hnil. eauto.
  - left. exact Hnil.
Qed.

Lemma single_flight_handle ev c : single_flight c -> single_flight (handle ev c).
Proof.
  intros Hc. destruct ev as [r|r status|r res|access refresh|]; cbn [handle];
    [| | |exact Hc|exact Hc].
  - destruct (configs c !! r); [exact Hc|].
    eapply single_flight_flight; [apply flight_send | exact Hc].
  - destruct (List.existsb _ _); [|exact Hc].
    destruct status as [s|]; [destruct (is2xx s)|];
      try apply single_flight_onRejected; exact Hc.
  - destruct (List.existsb _ (refreshCalls c)) eqn:Hin; [|exact Hc].
    destruct Hc as [Hnil|[_ [x Hx]]]; [rewrite Hnil in Hin; discriminate|].
    rewrite Hx in Hin. apply existsb_singleton in Hin.
    left. unfold onRefreshSettled. destruct res as [tok|]; cbn [refreshCalls set_isRefreshing].
    + transitivity (refreshCalls (processQueue None tok
          (setAccessToken (Some tok)
             (set_refreshCalls (remove_call r (refreshCalls c)) (refreshesSent c) c)))).
      * pose proof (flight_send r (set_Authorization r (bearer tok)
          (processQueue None tok (setAccessToken (Some tok)
             (set_refreshCalls (remove_call r (refreshCalls c)) (refreshesSent c) c)))))
          as Hs.
        apply flight_eq in Hs as (Hs & _). exact Hs.
      * pose proof (flight_processQueue None tok (setAccessToken (Some tok)
             (set_refreshCalls (remove_call r (refreshCalls c)) (refreshesSent c) c)))
          as Hs.
        apply flight_eq in Hs as (Hs & _). rewrite Hs. cbn.
        rewrite Hx. now apply remove_call_singleton.
    + pose proof (flight_processQueue (Some RefreshFailed) ""
             (set_refreshCalls (remove_call r (refreshCalls c)) (refreshesSent c) c))
          as Hs.
      apply flight_eq in Hs as (Hs & _). cbn. cbn in Hs. rewrite Hs.
      rewrite Hx. now apply remove_call_singleton.
Qed.

Lemma single_flight_run evs : forall c, single_flight c -> single_flight (run evs c).
Proof.
  induction evs as [|ev evs IH]; intros c Hc; [exact Hc|].
  apply IH. now apply single_flight_handle.
Qed.

(** ** Requests that fail while a refresh is in flight *)

Lemma existsb_In r l : List.existsb (Nat.eqb r) l = true <-> In r l.
Proof.
  rewrite existsb_exists. split.
  - intros (x & Hin & Heq). apply Nat.eqb_eq in Heq. now subst.
  - intros Hin. exists r. split; [exact Hin | apply Nat.eqb_refl].
Qed.

Lemma In_remove_first r r' l : r' <> r -> In r' l -> In r' (remove_first r l).
Proof.
  intros Hne. induction l as [|x l IH]; cbn; [auto|].
  destruct (Nat.eqb_spec x r) as [->|Hx]; intros [->|Hin]; cbn; auto.
  contradiction.
Qed.

(** A request not yet retried that is answered 401 while the flag is up
    goes to the queue, and nothing else changes but the wire. *)
Lemma queue_one r c :
  isRefreshing c = true -> In r (inflight c) -> _retry (config_of r c) = false ->
  handle (Response r (Some 401%nat)) c
  = set_failedQueue (failedQueue c ++ [r]) (set_inflight (remove_first r (inflight c)) c).
Proof.
  intros Hr Hin Hretry. cbn [handle].
  apply existsb_In in Hin. rewrite Hin.
  change (is2xx 401) with false. cbv iota.
  unfold onRejected.
  change (config_of r (set_inflight (remove_first r (inflight c)) c)) with (config_of r c).
  rewrite Hretry.
  change (is401 (HttpError 401)) with true. cbn [andb negb].
  change (isRefreshing (set_inflight (remove_first r (inflight c)) c)) with (isRefreshing c).
  rewrite Hr. reflexivity.
Qed.

Lemma queue_all rs : forall c,
  isRefreshing c = true -> NoDup rs ->
  (forall r, In r rs -> In r (inflight c) /\ _retry (config_of r c) = false) ->
  let c' := run (expired rs) c in
  failedQueue c' = (failedQueue c ++ rs)%list
  /\ flight c' = flight c
  /\ configs c' = configs c
  /\ wire c' = wire c
  /\ settled c' = settled c
  /\ accessToken c' = accessToken c.
Proof.
  induction rs as [|r rs IH]; intros c Hr Hnd Hrs; cbn [expired List.map run List.fold_left].
  - rewrite app_nil_r. repeat split.
  - destruct (Hrs r (or_introl eq_refl)) as [Hin Hretry].
    rewrite (queue_one r c Hr Hin Hretry).
    inversion Hnd as [|? ? Hnotin Hnd']; subst.
    set (c1 := set_failedQueue _ _).
    destruct (IH c1) as (Hq & Hfl & Hcf & Hw & Hs & Ha).
    + exact Hr.
    + exact Hnd'.
    + intros r' Hin'. destruct (Hrs r' (or_intror Hin')) as [Hi' Hr'].
      split; [|exact Hr']. cbn. apply In_remove_first; [|exact Hi'].
      intros ->. apply Hnotin. now apply list_elem_of_In.
    + unfold run, expired in *. rewrite Hq, Hfl, Hcf, Hw, Hs, Ha. cbn.
      rewrite <- app_assoc. repeat split.
Qed.

(** ** The refresh succeeds: the queue is drained *)

Lemma config_of_insert r r' x c :
  config_of r (set_configs (<[ r' := x ]> (configs c)) c)
  = if decide (r' = r) then x else config_of r c.
Proof.
  unfold config_of. cbn. destruct (decide (r' = r)) as [->|Hne].
  - now rewrite lookup_insert_eq.
  - now rewrite lookup_insert_ne.
Qed.

Lemma Authorization_requestInterceptor tok r r' c :
  accessToken c = Some tok ->
  Authorization (config_of r c) = Some (bearer tok) ->
  Authorization (config_of r (requestInterceptor r' c)) = Some (bearer tok).
Proof.
  intros Ha Hr. unfold requestInterceptor, getAccessToken. rewrite Ha.
  destruct (Js.truthy (Some tok)); [|exact Hr].
  unfold set_Authorization. rewrite config_of_insert.
  destruct (decide (r' = r)); [reflexivity | exact Hr].
Qed.

Lemma requestInterceptor_fields r c :
  inflight (requestInterceptor r c) = inflight c
  /\ wire (requestInterceptor r c) = wire c
  /\ accessToken (requestInterceptor r c) = accessToken c
  /\ failedQueue (requestInterceptor r c) = failedQueue c
  /\ settled (requestInterceptor r c) = settled c
  /\ (forall r', _retry (config_of r' (requestInterceptor r c)) = _retry (config_of r' c)).
Proof.
  unfold requestInterceptor.
  destruct (getAccessToken c) as [t|]; [destruct (Js.truthy (Some t))|];
    repeat split; try reflexivity.
  intros r'. unfold set_Authorization. rewrite config_of_insert.
  destruct (decide (r = r')) as [->|]; reflexivity.
Qed.

(** Re-sending a request whose header was just set to the new token. *)
Lemma replayed_resolveQueued tok r c :
  accessToken c = Some tok -> replayed tok r (resolveQueued tok r c).
Proof.
  intros Ha. unfold resolveQueued, send.
  set (c1 := set_Authorization r (bearer tok) c).
  assert (Ha1 : accessToken c1 = Some tok) by exact Ha.
  assert (Hh1 : Authorization (config_of r c1) = Some (bearer tok)).
  { unfold c1, set_Authorization. rewrite config_of_insert.
    destruct (decide (r = r)); [reflexivity | contradiction]. }
  pose proof (Authorization_requestInterceptor tok r r c1 Ha1 Hh1) as Hh2.
  destruct (requestInterceptor_fields r c1) as (Hi & Hw & _).
  unfold replayed. cbn [inflight wire log_wire set_inflight].
  split; [apply in_or_app; right; now left|].
  split; [exact Hh2|].
  apply in_or_app. right. left. f_equal. exact Hh2.
Qed.

Lemma replayed_kept tok r r' c :
  accessToken c = Some tok -> replayed tok r c -> replayed tok r (resolveQueued tok r' c).
Proof.
  intros Ha (Hin & Hh & Hw). unfold resolveQueued, send.
  set (c1 := set_Authorization r' (bearer tok) c).
  assert (Ha1 : accessToken c1 = Some tok) by exact Ha.
  assert (Hh1 : Authorization (config_of r c1) = Some (bearer tok)).
  { unfold c1, set_Authorization. rewrite config_of_insert.
    destruct (decide (r' = r)); [reflexivity | exact Hh]. }
  pose proof (Authorization_requestInterceptor tok r r' c1 Ha1 Hh1) as Hh2.
  destruct (requestInterceptor_fields r' c1) as (Hi & Hw' & _).
  unfold replayed. cbn [inflight wire log_wire set_inflight].
  rewrite Hi, Hw'. cbn [inflight wire c1 set_Authorization set_configs].
  split; [apply in_or_app; now left|].
  split; [exact Hh2|].
  apply in_or_app. now left.
Qed.

Lemma accessToken_resolveQueued tok r c :
  accessToken (resolveQueued tok r c) = accessToken c.
Proof.
  unfold resolveQueued, send. cbn [accessToken log_wire set_inflight].
  now destruct (requestInterceptor_fields r (set_Authorization r (bearer tok) c))
    as (_ & _ & -> & _).
Qed.

Lemma retry_resolveQueued tok r r' c :
  _retry (config_of r' (resolveQueued tok r c)) = _retry (config_of r' c).
Proof.
  unfold resolveQueued, send.
  change (config_of r' (log_wire ?a ?b (set_inflight ?l ?x))) with (config_of r' x).
  destruct (requestInterceptor_fields r (set_Authorization r (bearer tok) c))
    as (_ & _ & _ & _ & _ & ->).
  unfold set_Authorization. rewrite config_of_insert.
  destruct (decide (r = r')) as [->|]; reflexivity.
Qed.

Lemma drain tok q : forall c,
  accessToken c = Some tok ->
  let c' := List.fold_left (fun acc prom => resolveQueued tok prom acc) q c in
  accessToken c' = Some tok
  /\ (forall r, In r q -> replayed tok r c')
  /\ (forall r, replayed tok r c -> replayed tok r c')
  /\ (forall r, _retry (config_of r c') = _retry (config_of r c)).
Proof.
  induction q as [|p q IH]; intros c Ha; cbn [List.fold_left].
  - split; [exact Ha|]. split; [intros r []|]. split; auto.
  - destruct (IH (resolveQueued tok p c)) as (Ha' & Hq & Hk & Hr).
    { now rewrite accessToken_resolveQueued. }
    split; [exact Ha'|]. split; [|split].
    + intros r [<-|Hin]; [|now apply Hq].
      apply Hk. now apply replayed_resolveQueued.
    + intros r Hrep. apply Hk. now apply replayed_kept.
    + intros r. rewrite Hr. apply retry_resolveQueued.
Qed.

Lemma failedQueue_resolveQueued tok r c :
  failedQueue (resolveQueued tok r c) = failedQueue c.
Proof.
  unfold resolveQueued, send. cbn [failedQueue log_wire set_inflight].
  now destruct (requestInterceptor_fields r (set_Authorization r (bearer tok) c))
    as (_ & _ & _ & -> & _).
Qed.

Lemma failedQueue_drain tok q : forall c,
  failedQueue (List.fold_left (fun acc prom => resolveQueued tok prom acc) q c)
  = failedQueue c.
Proof.
  induction q as [|p q IH]; intros c; cbn [List.fold_left]; [reflexivity|].
  now rewrite IH, failedQueue_resolveQueued.
Qed.

Lemma refreshCalls_mem r0 t :
  List.existsb (fun p : nat * string => Nat.eqb (fst p) r0) [(r0, t)] = true.
Proof. cbn. now rewrite Nat.eqb_refl. Qed.

(** The refresh call started by [r0] succeeds with [tok]. *)
Lemma refresh_settles_ok c r0 t tok :
  refreshCalls c = [(r0, t)] ->
  let c2 := handle (RefreshResponse r0 (Some tok)) c in
  refreshCalls c2 = []
  /\ refreshesSent c2 = refreshesSent c
  /\ isRefreshing c2 = false
  /\ failedQueue c2 = []
  /\ accessToken c2 = Some tok
  /\ (forall r, In r (failedQueue c) \/ r = r0 -> replayed tok r c2)
  /\ (forall r, _retry (config_of r c2) = _retry (config_of r c)).
Proof.
  intros Hc. cbn [handle]. rewrite Hc, refreshCalls_mem.
  unfold onRefreshSettled, processQueue.
  rewrite Hc, (remove_call_singleton r0 (r0, t) eq_refl).
  set (c1 := set_failedQueue [] _).
  change (failedQueue (setAccessToken (Some tok) (set_refreshCalls [] (refreshesSent c) c)))
    with (failedQueue c).
  assert (Ha1 : accessToken c1 = Some tok) by reflexivity.
  destruct (drain tok (failedQueue c) c1 Ha1) as (Ha2 & Hq & _ & Hr).
  set (c2 := List.fold_left _ (failedQueue c) c1) in *.
  change (send r0 (set_Authorization r0 (bearer tok) c2)) with (resolveQueued tok r0 c2).
  pose proof (flight_resolveQueued tok r0 c2) as Hf3.
  pose proof (flight_fold (fun acc prom => resolveQueued tok prom acc) (failedQueue c)
                (fun a r => flight_resolveQueued tok r a) c1) as Hf2.
  fold c2 in Hf2. rewrite Hf2 in Hf3. apply flight_eq in Hf3 as (Hrc & _ & Hsent).
  cbn [refreshCalls refreshesSent isRefreshing failedQueue accessToken set_isRefreshing].
  split; [exact Hrc|]. split; [exact Hsent|]. split; [reflexivity|].
  split; [now rewrite failedQueue_resolveQueued; unfold c2; rewrite failedQueue_drain|].
  split; [now rewrite accessToken_resolveQueued|].
  split.
  - intros r [Hin| ->].
    + apply (replayed_kept tok r r0 c2 Ha2). now apply Hq.
    + now apply replayed_resolveQueued.
  - intros r.
    change (config_of r (set_isRefreshing false (resolveQueued tok r0 c2)))
      with (config_of r (resolveQueued tok r0 c2)).
    rewrite retry_resolveQueued, Hr. reflexivity.
Qed.

Lemma reject_all err q : forall c,
  let c' := List.fold_left (fun acc prom => rejectQueued err prom acc) q c in
  settled c' = (settled c ++ List.map (fun r => (r, Rejected err)) q)%list
  /\ wire c' = wire c /\ inflight c' = inflight c /\ flight c' = flight c
  /\ failedQueue c' = failedQueue c /\ configs c' = configs c.
Proof.
  induction q as [|p q IH]; intros c; cbn [List.fold_left List.map].
  - rewrite app_nil_r. repeat split.
  - destruct (IH (rejectQueued err p c)) as (Hs & Hw & Hi & Hf & Hq & Hc).
    rewrite Hs, Hw, Hi, Hf, Hq, Hc. cbn. rewrite <- app_assoc. repeat split.
Qed.

(** The refresh call started by [r0] fails. *)
Lemma refresh_settles_failed c r0 t :
  refreshCalls c = [(r0, t)] ->
  let c2 := handle (RefreshResponse r0 None) c in
  refreshCalls c2 = []
  /\ isRefreshing c2 = false
  /\ failedQueue c2 = []
  /\ accessToken c2 = None
  /\ wire c2 = wire c
  /\ inflight c2 = inflight c
  /\ settled c2 = (settled c ++ List.map (fun r => (r, Rejected RefreshFailed)) (failedQueue c)
                             ++ [(r0, Rejected RefreshFailed)])%list.
Proof.
  intros Hc. cbn [handle]. rewrite Hc, refreshCalls_mem.
  unfold onRefreshSettled, processQueue.
  rewrite Hc, (remove_call_singleton r0 (r0, t) eq_refl).
  change (failedQueue (set_refreshCalls [] (refreshesSent c) c)) with (failedQueue c).
  destruct (reject_all RefreshFailed (failedQueue c)
              (set_failedQueue [] (set_refreshCalls [] (refreshesSent c) c)))
    as (Hs & Hw & Hi & Hf & Hq & _).
  apply flight_eq in Hf as (Hrc & _).
  cbn [refreshCalls isRefreshing failedQueue accessToken wire inflight settled
       set_isRefreshing settle redirectToLogin clearTokens].
  rewrite Hrc, Hq, Hw, Hi, Hs. cbn. rewrite <- app_assoc. repeat split.
Qed.

(** C6, as amended.  (1) Whatever events a client instance handles,
    starting with any stored refresh token, at most one refresh call
    awaits its answer at any time, and [isRefreshing] is up while one
    does.  (2) While one is in flight, any number of distinct requests
    that have not been retried before and are answered 401 start no
    further refresh call: they are appended to the queue.  (3) If the
    refresh then succeeds, the queue is emptied and every queued request,
    and the one that started the refresh, is sent again with the new
    access token, one refresh call having been sent in all; (4) if it
    fails, none is sent again: the queued requests and the initiator are
    rejected with the refresh error. *)
Theorem at_most_one_refresh_in_flight :
  (forall (window : bool) (stored : option string) (evs : list Event),
      let c := run evs (init window stored) in
      (List.length (refreshCalls c) <= 1)%nat
      /\ (refreshCalls c <> [] -> isRefreshing c = true))
  /\ (forall (c : Client) (r0 : nat) (t : string) (rs : list nat),
        refreshCalls c = [(r0, t)] -> isRefreshing c = true ->
        NoDup rs ->
        (forall r, In r rs -> In r (inflight c) /\ _retry (config_of r c) = false) ->
        let c1 := run (expired rs) c in
        (refreshCalls c1 = [(r0, t)]
         /\ refreshesSent c1 = refreshesSent c
         /\ wire c1 = wire c
         /\ failedQueue c1 = (failedQueue c ++ rs)%list)
        /\ (forall tok,
              let c2 := handle (RefreshResponse r0 (Some tok)) c1 in
              refreshCalls c2 = []
              /\ refreshesSent c2 = refreshesSent c
              /\ failedQueue c2 = []
              /\ forall r, In r (failedQueue c) \/ In r rs \/ r = r0 ->
                           replayed tok r c2)
        /\ (let c2 := handle (RefreshResponse r0 None) c1 in
            refreshCalls c2 = []
            /\ wire c2 = wire c
            /\ forall r, In r (failedQueue c) \/ In r rs \/ r = r0 ->
                         In (r, Rejected RefreshFailed) (settled c2))).
Proof.
  split.
  - intros window stored evs c.
    assert (Hs : single_flight c).
    { apply single_flight_run. now left. }
    destruct Hs as [Hnil|[Htrue [x Hx]]].
    + rewrite Hnil. split; [cbn; lia | congruence].
    + rewrite Hx. split; [cbn; lia | auto].
  - intros c r0 t rs Hc Hr Hnd Hrs c1.
    destruct (queue_all rs c Hr Hnd Hrs) as (Hq & Hfl & _ & Hw & _).
    fold c1 in Hq, Hfl, Hw. apply flight_eq in Hfl as (Hrc & _ & Hsent).
    rewrite Hc in Hrc.
    split; [auto|]. split.
    + intros tok c2.
      destruct (refresh_settles_ok c1 r0 t tok Hrc) as (H1 & H2 & _ & H4 & _ & H6 & _).
      fold c2 in H1, H2, H4, H6.
      split; [exact H1|]. split; [congruence|]. split; [exact H4|].
      intros r Hin. apply H6. rewrite Hq, in_app_iff. tauto.
    + intros c2.
      destruct (refresh_settles_failed c1 r0 t Hrc) as (H1 & _ & _ & _ & H5 & _ & H7).
      fold c2 in H1, H5, H7.
      split; [exact H1|]. split; [congruence|].
      intros r Hin. rewrite H7, Hq. rewrite !in_app_iff, in_map_iff.
      destruct Hin as [Hin|[Hin| ->]].
      * right; left. exists r. rewrite in_app_iff. auto.
      * right; left. exists r. rewrite in_app_iff. auto.
      * right; right. now left.
Qed.

End SingleFlight.

Section CoordinatorExamples.
Import ApiClient Examples.

(** Witness: with the refresh of request 1 in flight, requests 2 and 3
    are answered 401; the refresh succeeds with "a2". *)
Lemma at_most_one_refresh_in_flight_witness :
  let c := run oneExpiredOfThree browser in
  let c1 := run (expired [2; 3]%nat) c in
  let c2 := handle (RefreshResponse 1 (Some "a2")) c1 in
  failedQueue c1 = [2; 3]%nat
  /\ refreshesSent c2 = 1%nat
  /\ replayed "a2" 2 c2 /\ replayed "a2" 3 c2 /\ replayed "a2" 1 c2.
Proof.
  cbv zeta.
  assert (Hc : refreshCalls (run oneExpiredOfThree browser) = [(1%nat, "rt")])
    by (vm_compute; reflexivity).
  assert (Hr : isRefreshing (run oneExpiredOfThree browser) = true)
    by (vm_compute; reflexivity).
  assert (Hnd : NoDup [2; 3]%nat).
  { apply NoDup_cons. split; [|apply NoDup_singleton].
    intros H. apply list_elem_of_In in H. destruct H as [H|[]]. discriminate H. }
  assert (Hrs : forall r, In r [2; 3]%nat ->
            In r (inflight (run oneExpiredOfThree browser))
            /\ _retry (config_of r (run oneExpiredOfThree browser)) = false).
  { intros r [<-|[<-|[]]]; split; vm_compute; auto. }
  destruct (proj2 at_most_one_refresh_in_flight
              (run oneExpiredOfThree browser) 1%nat "rt" [2; 3]%nat Hc Hr Hnd Hrs)
    as ((_ & _ & _ & Hq) & Hok & _).
  destruct (Hok "a2") as (_ & Hsent & _ & Hrep).
  split; [rewrite Hq; vm_compute; reflexivity|].
  split; [rewrite Hsent; vm_compute; reflexivity|].
  split; [|split]; apply Hrep; cbn; auto.
Defined.

(** C6, counterexample to the claim as stated.  A refresh is in flight
    (started by request 2) when the replay of request 1, which started
    the previous refresh, is answered 401: request 1 is not queued but
    rejected, and is not sent again when the refresh succeeds with "a3".
    And when a refresh fails, a queued request is rejected without
    having been sent again. *)
Lemma retried_or_failed_refresh_not_replayed :
  (let c := run secondRefreshInFlight browser in
   let c1 := handle (Response 1 (Some 401%nat)) c in
   let c2 := handle (RefreshResponse 2 (Some "a3")) c1 in
   refreshCalls c = [(2%nat, "rt")]
   /\ In 1%nat (inflight c)
   /\ failedQueue c1 = []
   /\ In (1%nat, Rejected (HttpError 401)) (settled c1)
   /\ ~ replayed "a3" 1 c2
   /\ sends 1 c2 = sends 1 c)
  /\ (let c := run twoExpired browser in
      let c2 := handle (RefreshResponse 1 None) c in
      refreshCalls c = [(1%nat, "rt")]
      /\ failedQueue c = [2%nat]
      /\ In (2%nat, Rejected RefreshFailed) (settled c2)
      /\ sends 2 c2 = 1%nat).
Proof.
  cbv zeta. split.
  - split; [vm_compute; reflexivity|].
    split; [vm_compute; auto|].
    split; [vm_compute; reflexivity|].
    split; [vm_compute; auto|].
    split; [|vm_compute; reflexivity].
    intros (Hin & _). vm_compute in Hin. destruct Hin as [H|[]]. discriminate H.
  - split; [vm_compute; reflexivity|].
    split; [vm_compute; reflexivity|].
    split; [vm_compute; auto|].
    vm_compute; reflexivity.
Qed.

(** C7, the code at the failing input.  Sending a queued request again
    leaves its [_retry] flag as it was, whatever the state.  So in the
    session where request 2 waited in the queue while request 1
    refreshed: after its replay request 2 is still unflagged, though it
    has been sent twice; when the replay is answered 401 it starts a
    second refresh call; and when that succeeds request 2 goes on the
    wire a third time. *)
Theorem queued_replay_leaves_retry_unset :
  (forall (tok : string) (r : nat) (c : Client),
      _retry (config_of r (resolveQueued tok r c)) = _retry (config_of r c))
  /\ (let c := run refreshedOnce browser in
      _retry (config_of 2 c) = false /\ _retry (config_of 1 c) = true
      /\ sends 2 c = 2%nat /\ refreshesSent c = 1%nat /\ refreshCalls c = [])
  /\ (let c := run replayRefused browser in
      refreshCalls c = [(2%nat, "rt")] /\ refreshesSent c = 2%nat)
  /\ (let c := run refreshedTwice browser in
      sends 2 c = 3%nat /\ replayed "a3" 2 c).
Proof.
  split; [intros; apply retry_resolveQueued|].
  cbv zeta. repeat split; vm_compute; auto 10.
Qed.

End CoordinatorExamples.

Section MoreExamples.
Import Reference Examples.

(** Witness: [tokA1] presented after its expiry. *)
Lemma refresh_unverified_no_lookup_no_lockout_witness :
  run (AuthController.refresh penv atLateReplay (refreshBody tokA1)) []
      (store afterLogin)
  = mkOutcome (inr (mkResponse 401 (Message "Invalid refresh token")))
              (store afterLogin) [].
Proof.
  assert (Hexp : exists c, Jwt.decode tokA1 = Some c
                           /\ Jwt.exp c <= now atLateReplay / 1000).
  { exists (Jwt.mkClaims "u1" 1000 605800). split; [vm_compute; reflexivity|].
    vm_compute. discriminate. }
  exact (proj2 (refresh_unverified_no_lookup_no_lockout penv atLateReplay
                  (refreshBody tokA1) tokA1 eq_refl (or_intror Hexp))
               [] (store afterLogin)).
Defined.

(** Witness: Alice's revoked row for [tokA1] through a logout and a
    replay. *)
Lemma revocation_is_monotone_witness :
  refreshTokens
    (serve penv [ (Logout (refreshBody tokA3), []);
                  (Refresh atReplay (refreshBody tokA1), []) ]
           (store afterLogin)) !! 0%nat
  = Some (RefreshToken.mk "t1" tokA1 "u1" 605800000 1000000 true).
Proof.
  assert (H0 : refreshTokens (store afterLogin) !! 0%nat
               = Some (RefreshToken.mk "t1" tokA1 "u1" 605800000 1000000 true))
    by (vm_compute; reflexivity).
  exact (proj2 (proj2 (proj2 (proj2 (revocation_is_monotone penv))))
           [ (Logout (refreshBody tokA3), []);
             (Refresh atReplay (refreshBody tokA1), []) ]
           (store afterLogin) 0%nat _ H0 eq_refl).
Defined.




End MoreExamples.


(* ===================================================================== *)
(** * Further properties of the signer *)
(* ===================================================================== *)

Import MoreStatements.

Section Signer.
Context {codec : Jwt.Codec} (penv : Jwt.ProcessEnv).

Lemma or_lit_nonempty a lit : lit <> "" -> Js.or_lit a lit <> "".
Proof.
  intros Hl. unfold Js.or_lit. destruct a as [s|]; [|exact Hl].
  destruct (String.eqb_spec s ""); [exact Hl | assumption].
Qed.

Lemma or_lit_truthy s lit : s <> "" -> Js.or_lit (Some s) lit = s.
Proof.
  intros Hs. unfold Js.or_lit. destruct (String.eqb_spec s ""); [contradiction|reflexivity].
Qed.

Lemma truthy_Some s : s <> "" -> Js.truthy (Some s) = true.
Proof. intros Hs. cbn. destruct (String.eqb_spec s ""); [contradiction|reflexivity]. Qed.

(** X1.  Whatever the process environment holds, neither signing secret
    is the empty string.  A variable set to the empty string counts as
    unset: [JWT_SECRET] is used when it is a non-empty string, else
    [ACCESS_TOKEN_SECRET] when that is one, else the literal
    "access-secret"; likewise for the refresh secret with
    [JWT_REFRESH_SECRET], [REFRESH_TOKEN_SECRET] and "refresh-secret". *)
Theorem signing_secrets_are_never_empty :
  Jwt.ACCESS_TOKEN_SECRET penv <> "" /\ Jwt.REFRESH_TOKEN_SECRET penv <> ""
  /\ (forall s, Jwt.JWT_SECRET penv = Some s -> s <> "" ->
                Jwt.ACCESS_TOKEN_SECRET penv = s)
  /\ (forall s, Js.truthy (Jwt.JWT_SECRET penv) = false ->
                Jwt.ACCESS_TOKEN_SECRET_var penv = Some s -> s <> "" ->
                Jwt.ACCESS_TOKEN_SECRET penv = s)
  /\ (Js.truthy (Jwt.JWT_SECRET penv) = false ->
      Js.truthy (Jwt.ACCESS_TOKEN_SECRET_var penv) = false ->
      Jwt.ACCESS_TOKEN_SECRET penv = "access-secret")
  /\ (forall s, Jwt.JWT_REFRESH_SECRET penv = Some s -> s <> "" ->
                Jwt.REFRESH_TOKEN_SECRET penv = s)
  /\ (forall s, Js.truthy (Jwt.JWT_REFRESH_SECRET penv) = false ->
                Jwt.REFRESH_TOKEN_SECRET_var penv = Some s -> s <> "" ->
                Jwt.REFRESH_TOKEN_SECRET penv = s)
  /\ (Js.truthy (Jwt.JWT_REFRESH_SECRET penv) = false ->
      Js.truthy (Jwt.REFRESH_TOKEN_SECRET_var penv) = false ->
      Jwt.REFRESH_TOKEN_SECRET penv = "refresh-secret").
Proof.
  unfold Jwt.ACCESS_TOKEN_SECRET, Jwt.REFRESH_TOKEN_SECRET, Js.or.
  split; [now apply or_lit_nonempty|]. split; [now apply or_lit_nonempty|].
  split; [|split; [|split; [|split; [|split]]]].
  - intros s -> Hs. rewrite truthy_Some by assumption. now apply or_lit_truthy.
  - intros s -> -> Hs. now apply or_lit_truthy.
  - intros -> Hv. unfold Js.or_lit.
    destruct (Jwt.ACCESS_TOKEN_SECRET_var penv) as [s|]; [|reflexivity].
    cbn in Hv. now destruct (String.eqb s "").
  - intros s -> Hs. rewrite truthy_Some by assumption. now apply or_lit_truthy.
  - intros s -> -> Hs. now apply or_lit_truthy.
  - intros -> Hv. unfold Js.or_lit.
    destruct (Jwt.REFRESH_TOKEN_SECRET_var penv) as [s|]; [|reflexivity].
    cbn in Hv. now destruct (String.eqb s "").
Qed.

Lemma verify_sign uid secret secret' expiresIn now clock :
  reads_back (payload uid expiresIn now) secret ->
  Jwt.verify (Jwt.sign uid secret expiresIn now) secret' clock
  = if String.eqb secret secret'
    then if now / 1000 + expiresIn <=? clock / 1000
         then inl Jwt.TokenExpiredError
         else inr (payload uid expiresIn now)
    else inl Jwt.JsonWebTokenError.
Proof.
  intros [Hd Hs]. unfold Jwt.verify, Jwt.sign. fold (payload uid expiresIn now).
  rewrite Hd, Hs. reflexivity.
Qed.


End Signer.

Section SignerExamples.
Import Reference Scenarios.

(** Witness: an environment whose [JWT_SECRET] is the empty string. *)
Lemma signing_secrets_are_never_empty_witness :
  Jwt.ACCESS_TOKEN_SECRET emptyJwtSecret = "s3cret".
Proof.
  apply (proj1 (proj2 (proj2 (proj2 (signing_secrets_are_never_empty emptyJwtSecret))))).
  - reflexivity.
  - reflexivity.
  - discriminate.
Defined.


End SignerExamples.

(* ===================================================================== *)
(** * The authentication middleware *)
(* ===================================================================== *)

Section Middleware.
Import AuthMiddleware.
Context {codec : Jwt.Codec} (penv : Jwt.ProcessEnv).

Lemma split_not_nil s : split s <> [].
Proof.
  destruct s as [|c s]; cbn; [discriminate|].
  destruct (Ascii.eqb c space); [discriminate|]. destruct (split s); discriminate.
Qed.

Lemma split_no_space tok : has_space tok = false -> split tok = [tok].
Proof.
  induction tok as [|c tok IH]; cbn; [reflexivity|].
  destruct (Ascii.eqb c _); cbn; [discriminate|].
  intros Ht. rewrite (IH Ht). reflexivity.
Qed.

Lemma split_at_space a b :
  has_space a = false -> split (a ++ String space b) = a :: split b.
Proof.
  induction a as [|c a IH]; cbn.
  - reflexivity.
  - change (String c a ++ String space b) with (String c (a ++ String space b)).
    cbn [split]. destruct (Ascii.eqb c _); cbn; [discriminate|].
    intros Ha. rewrite (IH Ha). reflexivity.
Qed.

Lemma second_field tok :
  has_space tok = false -> List.nth 1 (split ("Bearer " ++ tok)) "" = tok.
Proof.
  intros H. change ("Bearer " ++ tok) with ("Bearer" ++ String space tok).
  rewrite split_at_space by reflexivity. cbn. now rewrite split_no_space.
Qed.

Lemma second_field_more tok rest :
  has_space tok = false ->
  List.nth 1 (split ("Bearer " ++ tok ++ " " ++ rest)) "" = tok.
Proof.
  intros H. change ("Bearer " ++ tok ++ " " ++ rest)
    with ("Bearer" ++ String space (tok ++ String space rest)).
  rewrite split_at_space by reflexivity. cbn. now rewrite split_at_space.
Qed.

(** X4.  The middleware answers 401 "No token provided" when the
    [authorization] header is absent or does not start with "Bearer ".
    Otherwise it reads the header up to the next space after "Bearer "
    and nothing behind it: a request carrying the header the client
    writes for a token without spaces is handed on with that token's
    user id when [verifyAccessToken] accepts the token, and answered 401
    "Invalid access token" when it does not.  A request is handed on
    only with the user id of a verified access token. *)
Theorem authenticate_reads_the_bearer_token :
  forall (clock : Z),
    authenticate penv clock None = Reply noToken
    /\ (forall h, String.prefix "Bearer " h = false ->
                  authenticate penv clock (Some h) = Reply noToken)
    /\ (forall tok, has_space tok = false ->
          authenticate penv clock (Some (ApiClient.bearer tok))
          = match Jwt.verifyAccessToken penv clock tok with
            | inr decoded => Next (Jwt.userId decoded)
            | inl _ => Reply badToken
            end)
    /\ (forall tok rest, has_space tok = false ->
          authenticate penv clock (Some ("Bearer " ++ tok ++ " " ++ rest))
          = authenticate penv clock (Some (ApiClient.bearer tok)))
    /\ (forall h u, authenticate penv clock (Some h) = Next u ->
          String.prefix "Bearer " h = true
          /\ exists tok c, Jwt.verifyAccessToken penv clock tok = inr c
                           /\ Jwt.userId c = u).
Proof.
  intros clock. split; [reflexivity|]. split; [|split; [|split]].
  - intros h Hp. unfold authenticate. rewrite Hp, orb_true_r. reflexivity.
  - intros tok Hs. unfold authenticate, ApiClient.bearer.
    change (Js.truthy (Some ("Bearer " ++ tok))) with true.
    change (String.prefix "Bearer " ("Bearer " ++ tok)) with (String.prefix "" tok).
    replace (String.prefix "" tok) with true by now destruct tok.
    cbn [negb orb]. cbv zeta. now rewrite second_field.
  - intros tok rest Hs. unfold authenticate, ApiClient.bearer.
    change (Js.truthy (Some ("Bearer " ++ tok ++ " " ++ rest))) with true.
    change (Js.truthy (Some ("Bearer " ++ tok))) with true.
    change (String.prefix "Bearer " ("Bearer " ++ tok ++ " " ++ rest))
      with (String.prefix "" (tok ++ " " ++ rest)).
    change (String.prefix "Bearer " ("Bearer " ++ tok)) with (String.prefix "" tok).
    replace (String.prefix "" (tok ++ " " ++ rest)) with true
      by now destruct (tok ++ " " ++ rest).
    replace (String.prefix "" tok) with true by now destruct tok.
    cbn [negb orb]. cbv zeta.
    now rewrite (second_field_more tok rest Hs), (second_field tok Hs).
  - intros h u. unfold authenticate.
    destruct (negb (Js.truthy (Some h))); [discriminate|]. cbn [orb].
    destruct (String.prefix "Bearer " h); [|discriminate]. cbn [negb].
    destruct (Jwt.verifyAccessToken penv clock _) as [err|c] eqn:Hv; [discriminate|].
    intros [= <-]. split; [reflexivity|]. eauto.
Qed.

End Middleware.

Section MiddlewareExamples.
Import Reference AuthMiddleware.

(** Witness: Alice's access token of second 1000, presented at second
    1500 with the header the client writes. *)
Lemma authenticate_reads_the_bearer_token_witness :
  authenticate penv 1500000 (Some (ApiClient.bearer "u1.1000.1900.access-secret"))
  = Next "u1".
Proof.
  rewrite (proj1 (proj2 (proj2 (authenticate_reads_the_bearer_token penv 1500000)))
             "u1.1000.1900.access-secret" eq_refl).
  vm_compute. reflexivity.
Defined.

End MiddlewareExamples.

(* ===================================================================== *)
(** * Accounts and sessions: register and login *)
(* ===================================================================== *)

Section Accounts.
Context {codec : Jwt.Codec} {libs : AuthController.Libs} (penv : Jwt.ProcessEnv).

Lemma run_await {A} q (k : Prisma.Error + Answer q -> Prog A) faults d :
  run (Await q k) faults d
  = let rd := if fault_at 0 faults then (inl StorageFault, d) else exec q d in
    let o := run (k (fst rd)) (List.tl faults) (snd rd) in
    mkOutcome (result o) (store o) (q :: trace o).
Proof. destruct faults as [|[|] faults]; reflexivity. Qed.

Lemma fault_at_tl i faults : fault_at i (List.tl faults) = fault_at (S i) faults.
Proof. destruct faults; [now destruct i|reflexivity]. Qed.

Lemma find_app_last {A} (p : A -> bool) l x :
  List.find p (l ++ [x])%list
  = match List.find p l with Some y => Some y | None => if p x then Some x else None end.
Proof. induction l as [|a l IH]; cbn; [reflexivity|]. now destruct (p a). Qed.

Lemma user_by_id_new u d :
  Js.isSome (user_by_id (User.id u) (mkDb (users d ++ [u]) (refreshTokens d) (tasks d)))
  = true.
Proof.
  unfold user_by_id. cbn. rewrite find_app_last.
  destruct (List.find _ (users d)); [reflexivity|]. now rewrite String.eqb_refl.
Qed.

(** The run of [register] on a body that parses, call by call. *)
Lemma register_parsed e b em pw nm faults d :
  AuthController.registerSchema b = Some (em, pw, nm) ->
  run (AuthController.register penv e b) faults d
  = let u := newUser e em pw nm in
    let d1 := mkDb (users d ++ [u]) (refreshTokens d) (tasks d) in
    let q0 := User_findUnique_email em in
    let q1 := User_create u in
    let q2 := RefreshToken_create
                (AuthController.newTokenRow e (issued penv e (userUuid e)) (userUuid e)) in
    if fault_at 0 faults then mkOutcome (inr internalError) d [q0]
    else if Js.isSome (user_by_email em d) then mkOutcome (inr alreadyExists) d [q0]
    else if fault_at 1 faults || Js.isSome (user_by_id (userUuid e) d)
    then mkOutcome (inr internalError) d [q0; q1]
    else if fault_at 2 faults
            || Js.isSome (token_by_id (tokenUuid e) d1)
            || Js.isSome (token_by_token (issued penv e (userUuid e)) d1)
    then mkOutcome (inr internalError) d1 [q0; q1; q2]
    else mkOutcome (inr (mkResponse 201 (credentials penv e u)))
           (with_refreshTokens d1 (refreshTokens d ++ [session penv e (userUuid e)]))
           [q0; q1; q2].
Proof.
  intros Hb. unfold AuthController.register. rewrite Hb. cbn -[run].
  rewrite run_await. cbv zeta.
  destruct (fault_at 0 faults); [reflexivity|]. cbn -[run].
  destruct (user_by_email em d) as [u0|] eqn:He; [reflexivity|]. cbn -[run].
  rewrite run_await, fault_at_tl. cbv zeta.
  destruct (fault_at 1 faults); [reflexivity|]. cbn -[run].
  unfold user_create. cbn -[run]. rewrite He. cbn -[run]. rewrite orb_false_r.
  destruct (Js.isSome (user_by_id (userUuid e) d)); [reflexivity|]. cbn -[run].
  rewrite run_await, !fault_at_tl. cbv zeta.
  destruct (fault_at 2 faults); [reflexivity|]. cbn -[run].
  unfold refreshToken_create. cbn.
  fold (newUser e em pw nm). fold (issued penv e (userUuid e)).
  destruct (Js.isSome (token_by_id _ _) || Js.isSome (token_by_token _ _)); [reflexivity|].
  pose proof (user_by_id_new (newUser e em pw nm) d) as Hn.
  change (User.id (newUser e em pw nm)) with (userUuid e) in Hn.
  rewrite Hn. reflexivity.
Qed.

Lemma user_by_email_known em d u :
  user_by_email em d = Some u -> Js.isSome (user_by_id (User.id u) d) = true.
Proof.
  unfold user_by_email, user_by_id. intros Hf. apply find_some in Hf as [Hin _].
  destruct (List.find _ _) eqn:Hn; [reflexivity|].
  eapply find_none in Hn; eauto. cbn in Hn. now rewrite String.eqb_refl in Hn.
Qed.

(** The run of [login] on a body that parses. *)
Lemma login_parsed e b em pw faults d :
  AuthController.loginSchema b = Some (em, pw) ->
  run (AuthController.login penv e b) faults d
  = let q0 := User_findUnique_email em in
    if fault_at 0 faults then mkOutcome (inr internalError) d [q0]
    else match user_by_email em d with
         | None => mkOutcome (inr invalidCredentials) d [q0]
         | Some u =>
             if negb (AuthController.bcrypt_compare pw (User.password u))
             then mkOutcome (inr invalidCredentials) d [q0]
             else
               let q1 := RefreshToken_create
                   (AuthController.newTokenRow e (issued penv e (User.id u)) (User.id u)) in
               if fault_at 1 faults
                  || Js.isSome (token_by_id (tokenUuid e) d)
                  || Js.isSome (token_by_token (issued penv e (User.id u)) d)
               then mkOutcome (inr internalError) d [q0; q1]
               else mkOutcome (inr (mkResponse 200 (credentials penv e u)))
                      (with_refreshTokens d
                         (refreshTokens d ++ [session penv e (User.id u)]))
                      [q0; q1]
         end.
Proof.
  intros Hb. unfold AuthController.login. rewrite Hb. cbn -[run].
  rewrite run_await. cbv zeta.
  destruct (fault_at 0 faults); [reflexivity|]. cbn -[run].
  destruct (user_by_email em d) as [u|] eqn:He; [|reflexivity]. cbn -[run].
  destruct (AuthController.bcrypt_compare pw (User.password u)); [|reflexivity].
  cbn -[run]. rewrite run_await, fault_at_tl. cbv zeta.
  destruct (fault_at 1 faults); [reflexivity|]. cbn -[run].
  unfold refreshToken_create. cbn -[run]. fold (issued penv e (User.id u)).
  destruct (Js.isSome (token_by_id _ _) || Js.isSome (token_by_token _ _)); [reflexivity|].
  rewrite (user_by_email_known _ _ _ He). reflexivity.
Qed.

Lemma register_unparsed e b faults d :
  AuthController.registerSchema b = None ->
  run (AuthController.register penv e b) faults d = mkOutcome (inr badRequest) d [].
Proof. intros Hb. unfold AuthController.register. now rewrite Hb. Qed.

Lemma login_unparsed e b faults d :
  AuthController.loginSchema b = None ->
  run (AuthController.login penv e b) faults d = mkOutcome (inr badRequest) d [].
Proof. intros Hb. unfold AuthController.login. now rewrite Hb. Qed.

Lemma length_String c s : (1 <=? Js.length (String c s))%nat = true.
Proof.
  unfold Js.length. cbn [Js.utf16]. cbv zeta.
  repeat (destruct (_ <? _)%nat); reflexivity.
Qed.

Lemma min_1 s : Zod.min 1 s = if String.eqb s "" then None else Some s.
Proof. unfold Zod.min. destruct s as [|c s]; [reflexivity|]. now rewrite length_String. Qed.

(** What the body is like when [registerSchema] refuses it. *)
Lemma registerSchema_None b :
  AuthController.registerSchema b = None
  <-> (Zod.string (email b) = None \/ Zod.string (password b) = None
       \/ Zod.string (name b) = None
       \/ (exists em, email b = Some (Js.JString em)
                      /\ AuthController.zod_email em = false)
       \/ (exists pw, password b = Some (Js.JString pw) /\ (Js.length pw < 6)%nat)
       \/ name b = Some (Js.JString "")).
Proof.
  unfold AuthController.registerSchema.
  destruct (email b) as [[| | |em| |]|]; cbn [Zod.string];
    try (split; [auto|reflexivity]).
  destruct (password b) as [[| | |pw| |]|]; cbn [Zod.string];
    try (split; [auto|reflexivity]).
  destruct (name b) as [[| | |nm| |]|]; cbn [Zod.string];
    try (split; [auto 6|reflexivity]).
  rewrite min_1.
  replace (Js.isSome (Zod.min 6 pw)) with (6 <=? Js.length pw)%nat
    by (unfold Zod.min; now destruct (6 <=? Js.length pw)%nat).
  destruct (AuthController.zod_email em) eqn:He; cbn [andb].
  2:{ split; [|reflexivity]. intros _. do 3 right. left. now exists em. }
  destruct (Nat.leb_spec 6 (Js.length pw)) as [Hp|Hp]; cbn [andb].
  2:{ split; [|reflexivity]. intros _. do 4 right. left. now exists pw. }
  destruct (String.eqb_spec nm "") as [->|Hn]; cbn [Js.isSome].
  { split; [|reflexivity]. intros _. now do 5 right. }
  split; [discriminate|].
  intros [[=]|[[=]|[[=]|[(em' & [= <-] & H)|[(pw' & [= <-] & H)|[= ->]]]]]].
  - congruence.
  - lia.
  - now destruct Hn.
Qed.

(** X5.  [register] answers 400 without a store call when the body
    does not parse: when a field is missing or is no string, when zod
    refuses the email, when the password has fewer than six UTF-16 code
    units or when the name is empty.  It answers 400 "User already exists"
    after the one lookup, the store untouched, when the email is taken.
    It answers 201 exactly when the body parses, the email is free, no
    call fails and the generated ids and the minted token are new; the
    store has then gained the user row, holding the bcrypt hash of the
    password, and one unrevoked refresh-token row of that user that
    expires seven days later, and the answer carries the token of that
    row.  It never throws and answers nothing but 201, 400 or 500. *)
Theorem register_creates_account_and_session :
  forall e b faults d,
    let o := run (AuthController.register penv e b) faults d in
    (AuthController.registerSchema b = None
     <-> (Zod.string (email b) = None \/ Zod.string (password b) = None
          \/ Zod.string (name b) = None
          \/ (exists em, email b = Some (Js.JString em)
                         /\ AuthController.zod_email em = false)
          \/ (exists pw, password b = Some (Js.JString pw) /\ (Js.length pw < 6)%nat)
          \/ name b = Some (Js.JString "")))
    /\ (AuthController.registerSchema b = None ->
        o = mkOutcome (inr badRequest) d [])
    /\ (forall em pw nm u,
          AuthController.registerSchema b = Some (em, pw, nm) ->
          fault_at 0 faults = false -> user_by_email em d = Some u ->
          o = mkOutcome (inr alreadyExists) d [User_findUnique_email em])
    /\ (forall em pw nm,
          AuthController.registerSchema b = Some (em, pw, nm) ->
          let u := newUser e em pw nm in
          let d1 := mkDb (users d ++ [u]) (refreshTokens d) (tasks d) in
          (fault_at 0 faults = false /\ fault_at 1 faults = false
           /\ fault_at 2 faults = false
           /\ user_by_email em d = None /\ user_by_id (userUuid e) d = None
           /\ token_by_id (tokenUuid e) d = None
           /\ token_by_token (issued penv e (userUuid e)) d = None)
          <-> result o = inr (mkResponse 201 (credentials penv e u))
              /\ store o = mkDb (users d ++ [u])
                             (refreshTokens d ++ [session penv e (userUuid e)])
                             (tasks d))
    /\ (forall r, result o = inr r -> status r = 201%nat ->
          exists em pw nm, AuthController.registerSchema b = Some (em, pw, nm)
                           /\ result o
                              = inr (mkResponse 201 (credentials penv e (newUser e em pw nm))))
    /\ exists r, result o = inr r
                 /\ (status r = 201 \/ status r = 400 \/ status r = 500)%nat.
Proof.
  intros e b faults d o. subst o. split; [apply registerSchema_None|].
  destruct (AuthController.registerSchema b) as [[[em pw] nm]|] eqn:Hb.
  2:{ rewrite (register_unparsed _ _ _ _ Hb). cbn.
      split; [reflexivity|]. split; [discriminate|]. split; [discriminate|].
      split; [intros r [= <-]; discriminate|]. eexists; split; [reflexivity|]. cbn. auto. }
  rewrite (register_parsed _ _ _ _ _ _ _ Hb). cbv zeta.
  split; [discriminate|]. split; [|split; [|split]].
  - intros em' pw' nm' u [= <- <- <-] -> ->. reflexivity.
  - intros em' pw' nm' [= <- <- <-]. unfold token_by_id, token_by_token. cbn [refreshTokens].
    fold (token_by_id (tokenUuid e) d). fold (token_by_token (issued penv e (userUuid e)) d).
    split.
    + intros (-> & -> & -> & -> & -> & -> & ->). cbn. split; reflexivity.
    + destruct (fault_at 0 faults); cbn; [intros [[=] _]|].
      destruct (user_by_email em d); cbn; [intros [[=] _]|].
      destruct (fault_at 1 faults); cbn; [intros [[=] _]|].
      destruct (user_by_id (userUuid e) d); cbn; [intros [[=] _]|].
      destruct (fault_at 2 faults); cbn; [intros [[=] _]|].
      destruct (token_by_id (tokenUuid e) d); cbn; [intros [[=] _]|].
      destruct (token_by_token _ d); cbn; [intros [[=] _]|].
      intros _. repeat split.
  - intros r Hr Hs. exists em, pw, nm. split; [reflexivity|].
    destruct (fault_at 0 faults); cbn in *; [injection Hr as <-; discriminate|].
    destruct (Js.isSome (user_by_email em d)); cbn in *; [injection Hr as <-; discriminate|].
    destruct (_ || _); cbn in *; [injection Hr as <-; discriminate|].
    destruct (_ || _); cbn in *; [injection Hr as <-; discriminate|].
    reflexivity.
  - destruct (fault_at 0 faults); cbn; [eexists; split; [reflexivity|cbn; auto]|].
    destruct (Js.isSome (user_by_email em d)); cbn; [eexists; split; [reflexivity|cbn; auto]|].
    destruct (_ || _); cbn; [eexists; split; [reflexivity|cbn; auto]|].
    destruct (_ || _); cbn; eexists; (split; [reflexivity|cbn; auto]).
Qed.

(** X6.  [register] is not atomic.  When the user row has been created
    and the insert of the refresh-token row fails, the answer is 500 and
    the user row stays, without any session; registering again with the
    same body is then refused with 400 "User already exists". *)
Theorem register_is_not_atomic :
  forall e b d em pw nm faults,
    AuthController.registerSchema b = Some (em, pw, nm) ->
    user_by_email em d = None ->
    user_by_id (userUuid e) d = None ->
    fault_at 0 faults = false -> fault_at 1 faults = false ->
    fault_at 2 faults = true ->
    let o := run (AuthController.register penv e b) faults d in
    result o = inr internalError
    /\ store o = mkDb (users d ++ [newUser e em pw nm]) (refreshTokens d) (tasks d)
    /\ forall e' faults',
         fault_at 0 faults' = false ->
         run (AuthController.register penv e' b) faults' (store o)
         = mkOutcome (inr alreadyExists) (store o) [User_findUnique_email em].
Proof.
  intros e b d em pw nm faults Hb He Hi F0 F1 F2 o. subst o.
  rewrite (register_parsed _ _ _ _ _ _ _ Hb). cbv zeta.
  rewrite F0, F1, F2, He, Hi. cbn. split; [reflexivity|]. split; [reflexivity|].
  intros e' faults' F0'. rewrite (register_parsed _ _ _ _ _ _ _ Hb). cbv zeta.
  rewrite F0'. unfold user_by_email at 1. cbn [users]. rewrite find_app_last.
  fold (user_by_email em d). rewrite He. cbn. now rewrite String.eqb_refl.
Qed.

(** X7.  [login] answers an unknown email and a wrong password alike:
    the same 401 "Invalid credentials", after the same single lookup,
    with the store untouched. *)
Theorem login_failures_are_indistinguishable :
  forall e b faults d em pw,
    AuthController.loginSchema b = Some (em, pw) ->
    fault_at 0 faults = false ->
    (user_by_email em d = None
     \/ exists u, user_by_email em d = Some u
                  /\ AuthController.bcrypt_compare pw (User.password u) = false) ->
    run (AuthController.login penv e b) faults d
    = mkOutcome (inr invalidCredentials) d [User_findUnique_email em].
Proof.
  intros e b faults d em pw Hb F0 H. rewrite (login_parsed _ _ _ _ _ _ Hb). cbv zeta.
  rewrite F0. destruct H as [->|(u & -> & ->)]; reflexivity.
Qed.

(** X8.  [login] answers 200 exactly when the body parses, the email is
    registered, bcrypt accepts the password, no call fails and the
    generated row id and the minted token are new.  The store then
    differs by one unrevoked refresh-token row of that user, added at the
    end: the sessions the user already had are neither revoked nor
    removed. *)
Theorem login_opens_one_more_session :
  forall e b faults d r,
    let o := run (AuthController.login penv e b) faults d in
    (result o = inr r /\ status r = 200%nat)
    <-> exists em pw u,
          AuthController.loginSchema b = Some (em, pw)
          /\ fault_at 0 faults = false /\ fault_at 1 faults = false
          /\ user_by_email em d = Some u
          /\ AuthController.bcrypt_compare pw (User.password u) = true
          /\ token_by_id (tokenUuid e) d = None
          /\ token_by_token (issued penv e (User.id u)) d = None
          /\ r = mkResponse 200 (credentials penv e u)
          /\ store o = with_refreshTokens d
                         (refreshTokens d ++ [session penv e (User.id u)]).
Proof.
  intros e b faults d r o. subst o.
  destruct (AuthController.loginSchema b) as [[em pw]|] eqn:Hb.
  2:{ rewrite (login_unparsed _ _ _ _ Hb). cbn. split.
      - intros [[= <-] Hs]. discriminate.
      - intros (em & pw & u & [=] & _). }
  rewrite (login_parsed _ _ _ _ _ _ Hb). cbv zeta. split.
  - intros [Hr Hs]. exists em, pw.
    destruct (fault_at 0 faults); cbn in *; [injection Hr as <-; discriminate|].
    destruct (user_by_email em d) as [u|]; cbn in *; [|injection Hr as <-; discriminate].
    exists u.
    destruct (AuthController.bcrypt_compare pw (User.password u)); cbn in *;
      [|injection Hr as <-; discriminate].
    destruct (fault_at 1 faults); cbn in *; [injection Hr as <-; discriminate|].
    destruct (token_by_id (tokenUuid e) d); cbn in *; [injection Hr as <-; discriminate|].
    destruct (token_by_token _ d); cbn in *; [injection Hr as <-; discriminate|].
    injection Hr as <-. repeat split.
  - intros (em' & pw' & u & [= <- <-] & -> & -> & -> & -> & -> & -> & -> & _).
    cbn. split; reflexivity.
Qed.

Lemma issued_same_second e e' uid :
  now e' / 1000 = now e / 1000 -> issued penv e' uid = issued penv e uid.
Proof.
  intros H. unfold issued, Jwt.generateRefreshToken, Jwt.sign. cbv zeta. now rewrite H.
Qed.

Lemma token_by_token_new d row :
  Js.isSome (token_by_token (RefreshToken.token row)
               (with_refreshTokens d (refreshTokens d ++ [row]))) = true.
Proof.
  unfold token_by_token. cbn [refreshTokens with_refreshTokens]. rewrite find_app_last.
  destruct (List.find _ (refreshTokens d)); [reflexivity|]. now rewrite String.eqb_refl.
Qed.

(** X9.  The refresh token [login] mints is a function of the user and
    the clock second.  After a login that succeeded, a second login of
    the same user within the same second mints the token already stored:
    the insert breaks the unique constraint on [token], and the answer is
    500 with the store unchanged, although the credentials are right. *)
Theorem login_twice_in_one_second_fails :
  forall e e' b faults faults' d r,
    let o := run (AuthController.login penv e b) faults d in
    result o = inr r -> status r = 200%nat ->
    now e' / 1000 = now e / 1000 ->
    let o' := run (AuthController.login penv e' b) faults' (store o) in
    result o' = inr internalError /\ store o' = store o.
Proof.
  intros e e' b faults faults' d r o Hr Hs Hsec. subst o.
  destruct (AuthController.loginSchema b) as [[em pw]|] eqn:Hb.
  2:{ rewrite (login_unparsed _ _ _ _ Hb) in Hr. injection Hr as <-. discriminate. }
  assert (exists u,
             user_by_email em d = Some u
             /\ AuthController.bcrypt_compare pw (User.password u) = true
             /\ store (run (AuthController.login penv e b) faults d)
                = with_refreshTokens d (refreshTokens d ++ [session penv e (User.id u)]))
    as (u & He & Hc & ->).
  { rewrite (login_parsed _ _ _ _ _ _ Hb) in *. cbv zeta in *.
    destruct (fault_at 0 faults); [injection Hr as <-; discriminate|].
    destruct (user_by_email em d) as [u|]; [|injection Hr as <-; discriminate].
    exists u.
    destruct (AuthController.bcrypt_compare pw (User.password u));
      [|injection Hr as <-; discriminate].
    cbn [negb] in *.
    destruct (_ || _); [injection Hr as <-; discriminate|]. repeat split. }
  rewrite (login_parsed _ _ _ _ _ _ Hb). cbv zeta.
  replace (user_by_email em (with_refreshTokens d _)) with (Some u) by (symmetry; exact He).
  rewrite Hc. cbn [negb]. rewrite (issued_same_second _ _ _ Hsec).
  pose proof (token_by_token_new d (session penv e (User.id u))) as Hn.
  change (RefreshToken.token (session penv e (User.id u)))
    with (issued penv e (User.id u)) in Hn.
  rewrite Hn, !orb_true_r.
  destruct (fault_at 0 faults'); cbn; split; reflexivity.
Qed.

End Accounts.

(* ===================================================================== *)
(** * A refresh token presented twice *)
(* ===================================================================== *)

Section Replay.
Context {codec : Jwt.Codec} {libs : AuthController.Libs} (penv : Jwt.ProcessEnv).

(** What [jwt.verify] returns for a token does not depend on the clock;
    whether it returns does. *)
Lemma verify_claims token secret n1 n2 c1 c2 :
  Jwt.verify token secret n1 = inr c1 -> Jwt.verify token secret n2 = inr c2 -> c1 = c2.
Proof.
  unfold Jwt.verify. destruct (Jwt.decode token) as [c|]; [|discriminate].
  destruct (Jwt.signature_ok token secret); [|discriminate].
  destruct (_ <=? _); [discriminate|]. destruct (_ <=? _); [discriminate|]. congruence.
Qed.

Lemma find_map_same {A} (p : A -> bool) (f : A -> A) l :
  (forall x, p (f x) = p x) ->
  List.find p (List.map f l) = option_map f (List.find p l).
Proof.
  intros Hp. induction l as [|a l IH]; [reflexivity|]. cbn. rewrite Hp.
  now destruct (p a).
Qed.

(** After its rotation the presented token is still found, revoked. *)
Lemma token_by_token_rotated e st newTok d :
  token_by_token (RefreshToken.token st) d = Some st ->
  token_by_token (RefreshToken.token st) (rotated e st newTok d)
  = Some (RefreshToken.revoke st).
Proof.
  unfold token_by_token. intros Hf. cbn [rotated refreshTokens with_refreshTokens].
  rewrite find_app_last. unfold revoke_where. rewrite find_map_same.
  - rewrite Hf. cbn. unfold has_id. now rewrite String.eqb_refl.
  - intros x. now destruct (has_id _ x).
Qed.

(** The run of [refresh] on a verified token whose row is revoked and
    owned by the signed user. *)
Lemma refresh_lockout_run e b tok c st d :
  AuthController.refreshSchema b = Some tok ->
  Jwt.verifyRefreshToken penv (now e) tok = inr c ->
  token_by_token tok d = Some st ->
  String.eqb (RefreshToken.userId st) (Jwt.userId c) = true ->
  RefreshToken.revoked st = true ->
  run (AuthController.refresh penv e b) [] d
  = mkOutcome (inr invalidOrRevoked) (lockout (Jwt.userId c) d)
      [findCall tok; lockoutCall c].
Proof.
  intros Hb Hv Hl Hu Hr. unfold AuthController.refresh.
  rewrite Hb. cbn. rewrite Hv. cbn. rewrite Hl.
  unfold AuthController.rejected, AuthController.reuseDetected. rewrite Hr, Hu. reflexivity.
Qed.

(** X10.  A refresh token works once.  After a [refresh] that answered
    200, presenting the same token again while it still verifies is
    answered 401 "Invalid or revoked refresh token" and revokes every
    refresh-token row of the user, the row of the token that the first
    call returned included. *)
Theorem second_use_of_a_refresh_token_ends_every_session :
  forall e e' b faults d r tok c,
    result (run (AuthController.refresh penv e b) faults d) = inr r ->
    status r = 200%nat ->
    AuthController.refreshSchema b = Some tok ->
    Jwt.verifyRefreshToken penv (now e') tok = inr c ->
    let d1 := store (run (AuthController.refresh penv e b) faults d) in
    let o' := run (AuthController.refresh penv e' b) [] d1 in
    result o' = inr invalidOrRevoked
    /\ (forall row, In row (refreshTokens (store o')) ->
                    RefreshToken.userId row = Jwt.userId c ->
                    RefreshToken.revoked row = true)
    /\ exists a t u row,
         Http.payload r = Credentials a t u
         /\ In row (refreshTokens (store o'))
         /\ RefreshToken.token row = t
         /\ RefreshToken.userId row = Jwt.userId c
         /\ RefreshToken.revoked row = true.
Proof.
  intros e e' b faults d r tok c. cbv zeta.
  destruct (refresh_cases penv e b faults d) as
    [ | | | | | | | | | | tok0 c0 st d' u Hb0 Hv0 F0 Hl Hu Hrev F1 Hw F2 Huser ];
    cbn [result store]; intros Hr Hs Hb Hv;
    try (injection Hr as <-; discriminate Hs).
  assert (tok0 = tok) as -> by congruence.
  assert (c0 = c) as -> by (eapply verify_claims; eauto).
  apply rotation_commit in Hw as (-> & _ & _).
  pose proof (token_by_token_In _ _ _ Hl) as [Hin Htok]. subst tok.
  pose proof (token_by_token_rotated e st (minted penv e st) d Hl) as Hl'.
  rewrite (refresh_lockout_run e' b _ c _ _ Hb Hv Hl' Hu eq_refl). cbn [result store].
  apply String.eqb_eq in Hu.
  split; [reflexivity|]. split.
  - intros row. apply lockout_revokes_owner.
  - injection Hr as <-. cbn [Http.payload renewed].
    do 3 eexists.
    exists (RefreshToken.revoke
              (RefreshToken.fresh
                 (AuthController.newTokenRow e (minted penv e st) (RefreshToken.userId st)))).
    split; [reflexivity|]. split; [|split; [reflexivity|split; [exact Hu|reflexivity]]].
    unfold lockout, refreshToken_updateMany. cbn [refreshTokens with_refreshTokens rotated].
    unfold revoke_where at 1. apply in_map_iff.
    exists (RefreshToken.fresh
              (AuthController.newTokenRow e (minted penv e st) (RefreshToken.userId st))).
    split.
    + unfold has_userId. cbn. now rewrite <- Hu, String.eqb_refl.
    + apply in_or_app. right. now left.
Qed.

End Replay.

Section AccountsExamples.
Import Reference Examples.

(** Witness: Alice registers on the empty store; with the password
    "äbcde", six bytes but five code units, she is refused. *)
Lemma register_creates_account_and_session_witness :
  (result afterRegister
   = inr (mkResponse 201
            (credentials penv atRegister (newUser atRegister "a@b.com" "secret1" "A")))
   /\ store afterRegister
      = mkDb [newUser atRegister "a@b.com" "secret1" "A"]
             [session penv atRegister "u1"] [])
  /\ run (AuthController.register penv atRegister shortPassword) [] Prisma.empty
     = mkOutcome (inr badRequest) Prisma.empty [].
Proof.
  assert (Hb : AuthController.registerSchema alice = Some ("a@b.com", "secret1", "A"))
    by (vm_compute; reflexivity).
  split.
  - pose proof (proj1 (proj2 (proj2 (proj2
      (register_creates_account_and_session penv atRegister alice [] Prisma.empty))))
      _ _ _ Hb) as H.
    cbv zeta in H. destruct H as [H _]. apply H. repeat split.
  - destruct (register_creates_account_and_session penv atRegister shortPassword []
                Prisma.empty) as (Hnone & Hbad & _).
    apply Hbad, Hnone. do 4 right. left. exists umlauts. split; [reflexivity|].
    vm_compute. lia.
Defined.

(** Witness: the third call of Alice's registration fails. *)
Lemma register_is_not_atomic_witness :
  let o := run (AuthController.register penv atRegister alice) thirdCallFails Prisma.empty in
  result o = inr internalError
  /\ run (AuthController.register penv afterwards alice) [] (store o)
     = mkOutcome (inr alreadyExists) (store o) [User_findUnique_email "a@b.com"].
Proof.
  assert (Hb : AuthController.registerSchema alice = Some ("a@b.com", "secret1", "A"))
    by (vm_compute; reflexivity).
  pose proof (register_is_not_atomic penv atRegister alice Prisma.empty _ _ _
                thirdCallFails Hb eq_refl eq_refl eq_refl eq_refl eq_refl) as H.
  cbv zeta in H. destruct H as (H1 & _ & H3). split; [exact H1|].
  apply H3. reflexivity.
Defined.

(** Witness: a login on the empty store. *)
Lemma login_failures_are_indistinguishable_witness :
  run (AuthController.login penv atLogin alice) [] Prisma.empty
  = mkOutcome (inr invalidCredentials) Prisma.empty [User_findUnique_email "a@b.com"].
Proof.
  assert (Hb : AuthController.loginSchema alice = Some ("a@b.com", "secret1"))
    by (vm_compute; reflexivity).
  apply (login_failures_are_indistinguishable penv atLogin alice [] Prisma.empty _ _ Hb);
    [reflexivity | left; reflexivity].
Defined.

(** Witness: Alice logs in on a second device while her first session
    is open; the row of [tokA1] stays as it was. *)
Lemma login_opens_one_more_session_witness :
  let o := run (AuthController.login penv atLogin alice) [] (store afterRegister) in
  result o
  = inr (mkResponse 200
           (credentials penv atLogin (newUser atRegister "a@b.com" "secret1" "A"))).
Proof.
  pose (u := newUser atRegister "a@b.com" "secret1" "A").
  assert (Hb : AuthController.loginSchema alice = Some ("a@b.com", "secret1"))
    by (vm_compute; reflexivity).
  assert (Hu : user_by_email "a@b.com" (store afterRegister) = Some u)
    by (vm_compute; reflexivity).
  assert (Hc : AuthController.bcrypt_compare "secret1" (User.password u) = true)
    by (vm_compute; reflexivity).
  assert (Hi : token_by_id (tokenUuid atLogin) (store afterRegister) = None)
    by (vm_compute; reflexivity).
  assert (Ht : token_by_token (issued penv atLogin (User.id u)) (store afterRegister) = None)
    by (vm_compute; reflexivity).
  assert (Hs : store (run (AuthController.login penv atLogin alice) [] (store afterRegister))
               = with_refreshTokens (store afterRegister)
                   (refreshTokens (store afterRegister) ++ [session penv atLogin (User.id u)]))
    by (vm_compute; reflexivity).
  cbv zeta.
  apply (login_opens_one_more_session penv atLogin alice [] (store afterRegister)
           (mkResponse 200 (credentials penv atLogin u))).
  exists "a@b.com", "secret1", u.
  repeat split; assumption.
Defined.

(** Witness: a second login of Alice half a second after the first. *)
Lemma login_twice_in_one_second_fails_witness :
  result (run (AuthController.login penv (mkEnv 600100500 "-" "t9" "-") alice) []
            (store (run (AuthController.login penv atLogin alice) [] (store afterRegister))))
  = inr internalError.
Proof.
  pose (r := mkResponse 200
               (Credentials "u1.600100.601000.access-secret" tokA3
                  (User.mkPublic "u1" "a@b.com" "A"))).
  assert (Hr : result (run (AuthController.login penv atLogin alice) [] (store afterRegister))
               = inr r) by (vm_compute; reflexivity).
  assert (Hsec : now (mkEnv 600100500 "-" "t9" "-") / 1000 = now atLogin / 1000)
    by (vm_compute; reflexivity).
  exact (proj1 (login_twice_in_one_second_fails penv atLogin _ alice [] [] _ r
                  Hr eq_refl Hsec)).
Defined.

(** Witness: [tokA1], rotated out at second 600000, is presented again
    at second 600200. *)
Lemma second_use_of_a_refresh_token_ends_every_session_witness :
  result (run (AuthController.refresh penv atReplay (refreshBody tokA1)) []
            (store afterRotation))
  = inr invalidOrRevoked.
Proof.
  pose (r := mkResponse 200
               (Credentials "u1.600000.600900.access-secret" tokA2
                  (User.mkPublic "u1" "a@b.com" "A"))).
  assert (Hr : result (run (AuthController.refresh penv atRotation (refreshBody tokA1)) []
                         (store afterRegister)) = inr r) by (vm_compute; reflexivity).
  assert (Hv : Jwt.verifyRefreshToken penv (now atReplay) tokA1
               = inr (Jwt.mkClaims "u1" 1000 605800)) by (vm_compute; reflexivity).
  exact (proj1 (second_use_of_a_refresh_token_ends_every_session penv atRotation atReplay
                  (refreshBody tokA1) [] (store afterRegister) r tokA1 _
                  Hr eq_refl eq_refl Hv)).
Defined.

End AccountsExamples.

(* ===================================================================== *)
(** * Unique keys *)
(* ===================================================================== *)

Section Keys.
Context {A : Type} (key : A -> string).

Lemma find_key_unique k l x :
  unique key l -> In x l -> key x = k ->
  List.find (fun x => String.eqb (key x) k) l = Some x.
Proof.
  unfold unique. induction l as [|a l IH]; cbn; [easy|].
  intros Hnd Hin Hk. apply List.NoDup_cons_iff in Hnd as [Hna Hnd].
  destruct (String.eqb_spec (key a) k) as [Ha|Ha].
  - destruct Hin as [->|Hin]; [reflexivity|].
    exfalso. apply Hna. rewrite Ha, <- Hk. now apply in_map.
  - destruct Hin as [->|Hin]; [contradiction|]. now apply IH.
Qed.

End Keys.

Lemma isSome_false {A} (o : option A) : Js.isSome o = false -> o = None.
Proof. now destruct o. Qed.

(* ===================================================================== *)
(** * Tasks: ownership *)
(* ===================================================================== *)

Section Ownership.

Lemma unique_inj {A} (key : A -> string) l x y :
  unique key l -> In x l -> In y l -> key x = key y -> x = y.
Proof.
  intros Hu Hx Hy Hk.
  pose proof (find_key_unique key (key y) l x Hu Hx Hk) as H1.
  pose proof (find_key_unique key (key y) l y Hu Hy eq_refl) as H2. congruence.
Qed.

Lemma filter_map_fixed {A} (p : A -> bool) (f : A -> A) l :
  (forall x, In x l -> p (f x) = p x) ->
  (forall x, In x l -> p x = true -> f x = x) ->
  List.filter p (List.map f l) = List.filter p l.
Proof.
  induction l as [|a l IH]; [reflexivity|]. intros H1 H2. cbn.
  rewrite (H1 a) by now left. destruct (p a) eqn:Hp.
  - rewrite (H2 a) by (auto; now left). f_equal. apply IH; intros; auto using in_cons.
  - apply IH; intros; auto using in_cons.
Qed.

Lemma filter_filter_fixed {A} (p q : A -> bool) l :
  (forall x, In x l -> p x = true -> q x = true) ->
  List.filter p (List.filter q l) = List.filter p l.
Proof.
  induction l as [|a l IH]; [reflexivity|]. intros H. cbn.
  destruct (q a) eqn:Hq; cbn.
  - destruct (p a); [f_equal|]; apply IH; intros; auto using in_cons.
  - destruct (p a) eqn:Hp.
    + rewrite (H a) in Hq by (auto; now left). discriminate.
    + apply IH; intros; auto using in_cons.
Qed.

Lemma find_pointwise {A} (p q : A -> bool) l :
  (forall x, p x = q x) -> List.find p l = List.find q l.
Proof. intros H. induction l as [|a l IH]; cbn; [reflexivity|]. now rewrite H, IH. Qed.

(** What a successful lookup [findFirst({ where: { id, userId } })]
    says about the row it returns. *)
Lemma task_first_mine i uid d k :
  task_first i (Some uid) d = Some k ->
  In k (tasks d) /\ Task.id k = i /\ Task.userId k = uid.
Proof.
  unfold task_first. intros H. apply find_some in H as [Hin Hm].
  unfold task_matches in Hm. apply andb_true_iff in Hm as [Hi Hu].
  apply String.eqb_eq in Hi, Hu. auto.
Qed.

Lemma task_first_not_mine i uid d :
  not_mine uid i d <-> task_first i (Some uid) d = None.
Proof.
  unfold not_mine, task_first. split.
  - intros H. destruct (List.find _ _) as [k|] eqn:Hf; [|reflexivity].
    apply find_some in Hf as [Hin Hm]. unfold task_matches in Hm.
    apply andb_true_iff in Hm as [Hi Hu]. apply String.eqb_eq in Hi, Hu.
    now destruct (H k Hin Hi).
  - intros Hf k Hin Hi Hu. eapply find_none in Hf; eauto.
    unfold task_matches in Hf. now rewrite Hi, Hu, !String.eqb_refl in Hf.
Qed.

(** With unique ids, the row [update({ where: { id } })] and
    [delete({ where: { id } })] address is the row the lookup returned. *)
Lemma task_first_by_id i uid d k :
  unique Task.id (tasks d) ->
  task_first i (Some uid) d = Some k -> task_first i None d = Some k.
Proof.
  intros Hu H. apply task_first_mine in H as (Hin & Hi & _).
  unfold task_first, task_matches.
  rewrite <- (find_key_unique Task.id i (tasks d) k Hu Hin Hi).
  apply find_pointwise. intros x. now rewrite andb_true_r.
Qed.

Lemma foreign_not_addressed uid i d k x :
  unique Task.id (tasks d) ->
  In k (tasks d) -> Task.id k = i -> Task.userId k = uid ->
  In x (tasks d) -> foreign uid x = true -> String.eqb (Task.id x) i = false.
Proof.
  intros Hu Hk Hi Hown Hx Hf. destruct (String.eqb_spec (Task.id x) i) as [Hxi|]; [|reflexivity].
  assert (x = k) as -> by (eapply unique_inj; eauto; congruence).
  unfold foreign in Hf. now rewrite Hown, String.eqb_refl in Hf.
Qed.

Lemma others_map uid i (g : Task.t -> Task.t) d k :
  unique Task.id (tasks d) ->
  In k (tasks d) -> Task.id k = i -> Task.userId k = uid ->
  (forall x, Task.userId (g x) = Task.userId x) ->
  List.filter (foreign uid)
    (List.map (fun x => if String.eqb (Task.id x) i then g x else x) (tasks d))
  = others uid d.
Proof.
  intros Hu Hk Hi Hown Hg. apply filter_map_fixed.
  - intros x _. unfold foreign. destruct (String.eqb (Task.id x) i); [|reflexivity].
    now rewrite Hg.
  - intros x Hx Hf. now rewrite (foreign_not_addressed uid i d k x).
Qed.

Lemma others_filter uid i d k :
  unique Task.id (tasks d) ->
  In k (tasks d) -> Task.id k = i -> Task.userId k = uid ->
  List.filter (foreign uid)
    (List.filter (fun x => negb (String.eqb (Task.id x) i)) (tasks d))
  = others uid d.
Proof.
  intros Hu Hk Hi Hown. apply filter_filter_fixed.
  intros x Hx Hf. now rewrite (foreign_not_addressed uid i d k x).
Qed.

(** The run of [toggleTask], call by call. *)
Lemma toggle_run e req faults d :
  run (TaskController.toggleTask e req) faults d
  = let q0 := Task_findFirst (TaskController.id req) (TaskController.userId req) in
    if fault_at 0 faults then mkOutcome (inr internalError) d [q0]
    else match task_first (TaskController.id req) (TaskController.userId req) d with
         | None => mkOutcome (inr taskNotFound) d [q0]
         | Some k =>
             let s := TaskController.newStatus (Task.status k) in
             let q1 := Task_update (TaskController.id req) s (now e) in
             if fault_at 1 faults then mkOutcome (inr internalError) d [q0; q1]
             else match Prisma.task_update (TaskController.id req) s (now e) d with
                  | inl _ => mkOutcome (inr internalError) d [q0; q1]
                  | inr (k', d') =>
                      mkOutcome (inr (mkResponse 200 (TaskJson k'))) d' [q0; q1]
                  end
         end.
Proof.
  unfold TaskController.toggleTask. cbn -[run]. rewrite run_await. cbv zeta.
  destruct (fault_at 0 faults); [reflexivity|]. cbn -[run].
  destruct (task_first _ _ d) as [k|]; [|reflexivity]. cbn -[run].
  rewrite run_await, fault_at_tl. cbv zeta.
  destruct (fault_at 1 faults); [reflexivity|]. cbn -[run].
  destruct (Prisma.task_update _ _ _ d) as [err|[k' d']]; reflexivity.
Qed.

(** X12.  In a store whose task ids are unique, whatever user [uid]
    asks of the task routes leaves the tasks of every other user as they
    were, row by row, and touches no other table; the task in a 200 answer
    of [getTask] is [uid]'s own. *)
Theorem task_routes_touch_only_the_requesters_tasks :
  forall uid d,
    unique Task.id (tasks d) ->
    (forall e i faults,
        let o := run (TaskController.toggleTask e (TaskController.mkRequest (Some uid) i))
                     faults d in
        others uid (store o) = others uid d /\ same_but_tasks d (store o))
    /\ (forall e uuid i b,
          let d' := snd (TaskCrud.createTask e uuid (TaskCrud.mkRequest (Some uid) i b) d) in
          others uid d' = others uid d /\ same_but_tasks d d')
    /\ (forall e i b,
          let d' := snd (TaskCrud.updateTask e (TaskCrud.mkRequest (Some uid) i b) d) in
          others uid d' = others uid d /\ same_but_tasks d d')
    /\ (forall i b,
          let d' := snd (TaskCrud.deleteTask (TaskCrud.mkRequest (Some uid) i b) d) in
          others uid d' = others uid d /\ same_but_tasks d d')
    /\ (forall i b,
          snd (TaskCrud.getTask (TaskCrud.mkRequest (Some uid) i b) d) = d
          /\ forall s k, fst (TaskCrud.getTask (TaskCrud.mkRequest (Some uid) i b) d)
                         = TaskCrud.Json s (TaskJson k) ->
                         Task.userId k = uid /\ Task.id k = i /\ In k (tasks d)).
Proof.
  intros uid d Hu. split; [|split; [|split; [|split]]].
  - intros e i faults. cbv zeta. rewrite toggle_run. cbv zeta. cbn [TaskController.id TaskController.userId].
    destruct (fault_at 0 faults); [now split|].
    destruct (task_first i (Some uid) d) as [k|] eqn:Hk; [|now split].
    destruct (fault_at 1 faults); [now split|].
    unfold Prisma.task_update. rewrite (task_first_by_id _ _ _ _ Hu Hk).
    apply task_first_mine in Hk as (Hin & Hi & Hown). cbn [store]. split; [|now split].
    unfold others at 1. cbn [tasks]. now apply (others_map uid i _ d k).
  - intros e uuid i b. cbv zeta. unfold TaskCrud.createTask. cbn [TaskCrud.userId TaskCrud.body].
    destruct (negb (Js.truthy (Some uid))); [now split|].
    destruct (TaskCrud.createTaskSchema b) as [data|]; [|now split].
    unfold TaskCrud.task_create. destruct (List.existsb _ _); [now split|].
    destruct (Js.isSome _); [|now split]. cbn [snd]. split; [|now split].
    unfold others. cbn [tasks]. rewrite List.filter_app. cbn.
    unfold foreign at 2. cbn. rewrite String.eqb_refl. cbn. apply List.app_nil_r.
  - intros e i b. cbv zeta. unfold TaskCrud.updateTask. cbn [TaskCrud.userId TaskCrud.body TaskCrud.id].
    destruct (TaskCrud.updateTaskSchema b) as [data|]; [|now split].
    destruct (task_first i (Some uid) d) as [k|] eqn:Hk; [|now split].
    unfold TaskCrud.task_update. rewrite (task_first_by_id _ _ _ _ Hu Hk).
    apply task_first_mine in Hk as (Hin & Hi & Hown). cbn [snd]. split; [|now split].
    unfold others at 1. cbn [tasks]. unfold TaskCrud.has_id.
    apply (others_map uid i _ d k); auto.
    intros x. unfold TaskCrud.patch. now destruct (TaskCrud.nothing_to_write data).
  - intros i b. cbv zeta. unfold TaskCrud.deleteTask. cbn [TaskCrud.userId TaskCrud.body TaskCrud.id].
    destruct (task_first i (Some uid) d) as [k|] eqn:Hk; [|now split].
    unfold TaskCrud.task_delete. rewrite (task_first_by_id _ _ _ _ Hu Hk).
    apply task_first_mine in Hk as (Hin & Hi & Hown). cbn [snd]. split; [|now split].
    unfold others at 1. cbn [tasks]. unfold TaskCrud.has_id.
    now apply (others_filter uid i d k).
  - intros i b. unfold TaskCrud.getTask. cbn [TaskCrud.userId TaskCrud.body TaskCrud.id].
    destruct (task_first i (Some uid) d) as [k|] eqn:Hk; (split; [reflexivity|]).
    + intros s k' [= _ <-]. apply task_first_mine in Hk. tauto.
    + intros s k' [=].
Qed.

End Ownership.

(* ===================================================================== *)
(** * Tasks: create, read, update, delete *)
(* ===================================================================== *)

Section TaskRoutes.

Lemma no_id_no_match uuid u l :
  List.existsb (TaskCrud.has_id uuid) l = false ->
  List.find (task_matches uuid u) l = None.
Proof.
  induction l as [|a l IH]; [reflexivity|]. cbn. unfold TaskCrud.has_id at 1.
  intros H. apply orb_false_iff in H as [Ha Hl].
  unfold task_matches at 1. rewrite Ha. cbn. now apply IH.
Qed.

End TaskRoutes.


Section TaskClaims.

(** X13.  A task of another user is answered like a task that does not
    exist.  [getTask] answers 404 "Task not found" exactly when no task
    with the id is the requester's; then [deleteTask] and [toggleTask]
    answer the same 404, [updateTask] does once the body has parsed (a
    body that does not parse is answered 400 before the lookup), and the
    store is left as it was. *)
Theorem foreign_tasks_look_missing :
  forall uid i d,
    (forall b, TaskCrud.getTask (TaskCrud.mkRequest (Some uid) i b) d
               = (TaskCrud.notFound, d) <-> not_mine uid i d)
    /\ (not_mine uid i d ->
        (forall b, TaskCrud.deleteTask (TaskCrud.mkRequest (Some uid) i b) d
                   = (TaskCrud.notFound, d))
        /\ (forall e b, TaskCrud.updateTask e (TaskCrud.mkRequest (Some uid) i b) d
                        = (if Js.isSome (TaskCrud.updateTaskSchema b)
                           then TaskCrud.notFound else TaskCrud.invalid, d))
        /\ (forall e faults, fault_at 0 faults = false ->
              run (TaskController.toggleTask e (TaskController.mkRequest (Some uid) i))
                  faults d
              = mkOutcome (inr taskNotFound) d [Task_findFirst i (Some uid)])).
Proof.
  intros uid i d. split.
  - intros b. rewrite task_first_not_mine. unfold TaskCrud.getTask. cbn.
    destruct (task_first i (Some uid) d); split; try reflexivity; discriminate.
  - intros H. apply task_first_not_mine in H. split; [|split].
    + intros b. unfold TaskCrud.deleteTask. cbn. now rewrite H.
    + intros e b. unfold TaskCrud.updateTask. cbn.
      destruct (TaskCrud.updateTaskSchema b); [|reflexivity]. now rewrite H.
    + intros e faults F0. rewrite toggle_run. cbv zeta. cbn. now rewrite F0, H.
Qed.

Lemma task_first_patched i u data at_ l :
  List.find (task_matches i u)
    (List.map (fun k => if TaskCrud.has_id i k then TaskCrud.patch data at_ k else k) l)
  = option_map (TaskCrud.patch data at_) (List.find (task_matches i u) l).
Proof.
  induction l as [|k l IH]; [reflexivity|]. cbn [List.map List.find].
  destruct (TaskCrud.has_id i k) eqn:Hid; unfold TaskCrud.has_id in Hid.
  - assert (task_matches i u (TaskCrud.patch data at_ k) = task_matches i u k) as ->
      by (unfold TaskCrud.patch; now destruct (TaskCrud.nothing_to_write data)).
    destruct (task_matches i u k); [reflexivity | exact IH].
  - unfold task_matches at 1 3. rewrite Hid. cbn. exact IH.
Qed.

(** What the body is like when [z.string().min(1)] refuses a
    property: no string, or the empty one. *)
Lemma min1_None v :
  TaskCrud.min1 v = None <-> forall t, v = Some (Js.JString t) -> t = "".
Proof.
  unfold TaskCrud.min1. destruct v as [[| | |t| |]|]; cbn; try (split; [discriminate|easy]).
  rewrite min_1. destruct (String.eqb_spec t "") as [->|Hne]; split; try easy.
  - now intros _ t [= <-].
  - intros H. now destruct Hne; apply H.
Qed.

Lemma optional_None {B} (parse : option Js.Json -> option B) v :
  Zod.optional parse v = None <-> v <> None /\ parse v = None.
Proof.
  unfold Zod.optional. destruct v as [j|]; [|split; [discriminate|now intros [[] _]]].
  destruct (parse (Some j)); cbn; split; try easy.
Qed.

Lemma optional_Some {B} (parse : option Js.Json -> option B) v x :
  parse None = None ->
  Zod.optional parse v = Some x -> x = parse v /\ Js.isSome x = Js.isSome v.
Proof.
  intros Hn. unfold Zod.optional. destruct v as [j|].
  - destruct (parse (Some j)); cbn; [|discriminate]. now intros [= <-].
  - intros [= <-]. now rewrite Hn.
Qed.

Lemma min1_string v t : TaskCrud.min1 v = Some t -> Zod.string v = Some t.
Proof.
  unfold TaskCrud.min1. destruct (Zod.string v) as [y|]; [|discriminate].
  rewrite min_1. destruct (String.eqb y ""); [discriminate|]. now intros [= <-].
Qed.

Lemma updateTaskSchema_Some b data :
  TaskCrud.updateTaskSchema b = Some data ->
  TaskCrud.d_title data = Zod.string (TaskCrud.title b)
  /\ TaskCrud.d_description data = Zod.string (TaskCrud.description b)
  /\ TaskCrud.d_status data = TaskCrud.nativeEnum (TaskCrud.status b)
  /\ TaskCrud.nothing_to_write data = names_nothing b.
Proof.
  unfold TaskCrud.updateTaskSchema.
  destruct (Zod.optional TaskCrud.min1 _) as [t|] eqn:Ht; [|discriminate].
  destruct (Zod.optional Zod.string _) as [ds|] eqn:Hd; [|discriminate].
  destruct (Zod.optional TaskCrud.nativeEnum _) as [st|] eqn:Hs; [|discriminate].
  intros [= <-]. unfold TaskCrud.nothing_to_write, names_nothing. cbn.
  apply optional_Some in Ht as [Ht Ht'], Hd as [Hd Hd'], Hs as [Hs Hs']; try reflexivity.
  rewrite Ht', Hd', Hs'. split; [|now repeat split].
  rewrite Ht. destruct (TaskCrud.min1 (TaskCrud.title b)) as [x|] eqn:Hx.
  - symmetry. now apply min1_string.
  - subst t. destruct (TaskCrud.title b) as [j|]; [discriminate|reflexivity].
Qed.

Lemma map_fixed {A} (f : A -> A) l : (forall x, f x = x) -> List.map f l = l.
Proof. intros H. induction l as [|a l IH]; cbn; [reflexivity|]. now rewrite H, IH. Qed.

(** X14.  [updateTask] on a task of the requester, with a body that
    parses, answers 200 with the task as it now is, which a following
    [getTask] returns too.  The task keeps its id, owner and creation date;
    a column the body does not name keeps its value and a column it names
    takes the body's value.  [updatedAt] becomes the clock when the body
    names a column; a body that names none leaves the row, [updatedAt]
    included, and the whole store as they were.  No row is added or
    lost. *)
Theorem updateTask_changes_what_the_body_names :
  forall e uid i b d k data,
    unique Task.id (tasks d) ->
    task_first i (Some uid) d = Some k ->
    TaskCrud.updateTaskSchema b = Some data ->
    let req := TaskCrud.mkRequest (Some uid) i b in
    let k' := TaskCrud.patch data (now e) k in
    let d' := snd (TaskCrud.updateTask e req d) in
    fst (TaskCrud.updateTask e req d) = TaskCrud.Json 200 (TaskJson k')
    /\ TaskCrud.getTask req d' = (TaskCrud.Json 200 (TaskJson k'), d')
    /\ (Task.id k' = i /\ Task.userId k' = uid /\ Task.createdAt k' = Task.createdAt k)
    /\ Task.updatedAt k' = (if names_nothing b then Task.updatedAt k else now e)
    /\ Task.title k' = default (Task.title k) (Zod.string (TaskCrud.title b))
    /\ Task.description k'
       = match Zod.string (TaskCrud.description b) with
         | Some x => Some x
         | None => Task.description k
         end
    /\ Task.status k'
       = default (Task.status k) (TaskCrud.nativeEnum (TaskCrud.status b))
    /\ (names_nothing b = true -> k' = k /\ d' = d)
    /\ List.length (tasks d') = List.length (tasks d).
Proof.
  intros e uid i b d k data Hu Hk Hb req k' d'. subst req k' d'.
  unfold TaskCrud.updateTask. cbn [TaskCrud.userId TaskCrud.body TaskCrud.id].
  rewrite Hb, Hk. unfold TaskCrud.task_update. rewrite (task_first_by_id _ _ _ _ Hu Hk).
  cbn [fst snd]. split; [reflexivity|]. split.
  { unfold TaskCrud.getTask. cbn [TaskCrud.userId TaskCrud.body TaskCrud.id].
    unfold task_first in *. cbn [tasks]. now rewrite task_first_patched, Hk. }
  apply task_first_mine in Hk as (Hin & Hi & Hown).
  apply updateTaskSchema_Some in Hb as (Ht & Hd & Hs & Hn). cbn [tasks].
  unfold TaskCrud.patch. rewrite Hn, Ht, Hd, Hs.
  split; [now destruct (names_nothing b)|].
  destruct (names_nothing b) eqn:Hnn.
  - unfold names_nothing in Hnn.
    apply andb_true_iff in Hnn as [Hnn H3]. apply andb_true_iff in Hnn as [H1 H2].
    destruct (TaskCrud.title b); [discriminate|].
    destruct (TaskCrud.description b); [discriminate|].
    destruct (TaskCrud.status b); [discriminate|]. cbn.
    repeat (split; [reflexivity|]). split; [|now rewrite List.length_map].
    intros _. split; [reflexivity|].
    rewrite map_fixed by (intros x; now destruct (TaskCrud.has_id i x)).
    now destruct d.
  - cbn. repeat (split; [reflexivity|]). split; [discriminate|].
    now rewrite List.length_map.
Qed.

(** X15.  [deleteTask] on a task of the requester answers 204 and
    removes that row and no other; afterwards [getTask] and a second
    [deleteTask] for the id answer 404. *)
Theorem deleteTask_removes_one_row :
  forall uid i b d k,
    unique Task.id (tasks d) ->
    task_first i (Some uid) d = Some k ->
    let req := TaskCrud.mkRequest (Some uid) i b in
    let d' := snd (TaskCrud.deleteTask req d) in
    fst (TaskCrud.deleteTask req d) = TaskCrud.NoContent 204
    /\ (forall x, In x (tasks d') <-> In x (tasks d) /\ x <> k)
    /\ same_but_tasks d d'
    /\ TaskCrud.getTask req d' = (TaskCrud.notFound, d')
    /\ TaskCrud.deleteTask req d' = (TaskCrud.notFound, d').
Proof.
  intros uid i b d k Hu Hk req d'. subst req d'.
  assert (Hd : TaskCrud.deleteTask (TaskCrud.mkRequest (Some uid) i b) d
               = (TaskCrud.NoContent 204,
                  mkDb (users d) (refreshTokens d)
                    (List.filter (fun k0 => negb (TaskCrud.has_id i k0)) (tasks d)))).
  { unfold TaskCrud.deleteTask. cbn [TaskCrud.userId TaskCrud.body TaskCrud.id].
    rewrite Hk. unfold TaskCrud.task_delete.
    now rewrite (task_first_by_id _ _ _ _ Hu Hk). }
  rewrite Hd. cbn [fst snd tasks]. apply task_first_mine in Hk as (Hin & Hi & Hown).
  assert (Hrows : forall x,
             In x (List.filter (fun k0 => negb (TaskCrud.has_id i k0)) (tasks d))
             <-> In x (tasks d) /\ x <> k).
  { intros x. rewrite filter_In. unfold TaskCrud.has_id. split.
    - intros [Hx Hn]. split; [exact Hx|]. intros ->.
      now rewrite Hi, String.eqb_refl in Hn.
    - intros [Hx Hn]. split; [exact Hx|].
      destruct (String.eqb_spec (Task.id x) i) as [Hxi|]; [|reflexivity].
      destruct Hn. eapply unique_inj; eauto. congruence. }
  split; [reflexivity|]. split; [exact Hrows|]. split; [now split|].
  assert (Hgone : task_first i (Some uid)
                    (mkDb (users d) (refreshTokens d)
                       (List.filter (fun k0 => negb (TaskCrud.has_id i k0)) (tasks d)))
                  = None).
  { apply task_first_not_mine. intros x Hx Hxi. cbn [tasks] in Hx.
    apply filter_In in Hx as [_ Hn]. unfold TaskCrud.has_id in Hn.
    now rewrite Hxi, String.eqb_refl in Hn. }
  split.
  - unfold TaskCrud.getTask. cbn [TaskCrud.userId TaskCrud.body TaskCrud.id].
    now rewrite Hgone.
  - unfold TaskCrud.deleteTask. cbn [TaskCrud.userId TaskCrud.body TaskCrud.id].
    now rewrite Hgone.
Qed.

(** X16.  [createTask] answers 401 when the request carries no user id
    (or an empty one), whatever the body.  Otherwise it answers 400, the
    store untouched, exactly when the body does not parse: when the title
    is missing, is no string or is empty, when a description is given that
    is no string, or when a status is given that is not one of the three.
    With a body that parses, a new id and an existing owner it answers 201
    with the row it appended: owned by the requester, with the body's
    title and description, status PENDING unless the body names one, both
    dates at the clock.  The owner's [getTask] for the new id then returns
    that row. *)
Theorem createTask_appends_an_owned_task :
  forall e uuid i b d,
    (forall u, u = None \/ u = Some "" ->
       TaskCrud.createTask e uuid (TaskCrud.mkRequest u i b) d = (TaskCrud.unauthorized, d))
    /\ (TaskCrud.createTaskSchema b = None
        <-> ((forall t, TaskCrud.title b = Some (Js.JString t) -> t = "")
             \/ (TaskCrud.description b <> None
                 /\ Zod.string (TaskCrud.description b) = None)
             \/ (TaskCrud.status b <> None
                 /\ TaskCrud.nativeEnum (TaskCrud.status b) = None)))
    /\ (forall uid, uid <> "" ->
          (TaskCrud.createTaskSchema b = None
           <-> TaskCrud.createTask e uuid (TaskCrud.mkRequest (Some uid) i b) d
               = (TaskCrud.invalid, d)))
    /\ (forall uid t,
          uid <> "" -> TaskCrud.title b = Some (Js.JString t) ->
          TaskCrud.createTaskSchema b <> None ->
          List.existsb (TaskCrud.has_id uuid) (tasks d) = false ->
          owned uid d ->
          let st := default PENDING (TaskCrud.nativeEnum (TaskCrud.status b)) in
          let row := Task.mk uuid t (Zod.string (TaskCrud.description b)) st uid
                       (now e) (now e) in
          let d' := mkDb (users d) (refreshTokens d) (tasks d ++ [row]) in
          TaskCrud.createTask e uuid (TaskCrud.mkRequest (Some uid) i b) d
          = (TaskCrud.Json 201 (TaskJson row), d')
          /\ forall b', TaskCrud.getTask (TaskCrud.mkRequest (Some uid) uuid b') d'
                        = (TaskCrud.Json 200 (TaskJson row), d')).
Proof.
  intros e uuid i b d.
  assert (Hnone : TaskCrud.createTaskSchema b = None
                  <-> ((forall t, TaskCrud.title b = Some (Js.JString t) -> t = "")
                       \/ (TaskCrud.description b <> None
                           /\ Zod.string (TaskCrud.description b) = None)
                       \/ (TaskCrud.status b <> None
                           /\ TaskCrud.nativeEnum (TaskCrud.status b) = None))).
  { rewrite <- min1_None, <- !optional_None. unfold TaskCrud.createTaskSchema.
    destruct (TaskCrud.min1 _); [|now split; auto].
    destruct (Zod.optional Zod.string _); [|now split; auto].
    destruct (Zod.optional TaskCrud.nativeEnum _); [|now split; auto].
    split; [discriminate|]. now intros [|[|]]. }
  split; [|split; [exact Hnone|split]].
  - intros u [->| ->]; reflexivity.
  - intros uid Hne. unfold TaskCrud.createTask. cbn [TaskCrud.userId TaskCrud.body].
    rewrite (truthy_Some _ Hne). cbn [negb].
    destruct (TaskCrud.createTaskSchema b) as [data|]; [|now split].
    split; [discriminate|].
    destruct (TaskCrud.task_create _ _ _ _ _) as [err|[k d']]; discriminate.
  - intros uid t Hne Ht Hb Hid Hown st row d'. subst st row d'.
    assert (Hc : TaskCrud.createTask e uuid (TaskCrud.mkRequest (Some uid) i b) d
                 = (TaskCrud.Json 201
                      (TaskJson (Task.mk uuid t (Zod.string (TaskCrud.description b))
                                   (default PENDING (TaskCrud.nativeEnum (TaskCrud.status b)))
                                   uid (now e) (now e))),
                    mkDb (users d) (refreshTokens d)
                      (tasks d ++ [Task.mk uuid t (Zod.string (TaskCrud.description b))
                                     (default PENDING
                                        (TaskCrud.nativeEnum (TaskCrud.status b)))
                                     uid (now e) (now e)]))).
    { unfold TaskCrud.createTask. cbn [TaskCrud.userId TaskCrud.body].
      rewrite (truthy_Some _ Hne). cbn [negb].
      unfold TaskCrud.createTaskSchema in *.
      destruct (TaskCrud.min1 _) as [t'|] eqn:Ht'; [|now destruct Hb].
      apply min1_string in Ht'. rewrite Ht in Ht'. cbn in Ht'. injection Ht' as <-.
      destruct (Zod.optional Zod.string _) as [ds|] eqn:Hd; [|now destruct Hb].
      destruct (Zod.optional TaskCrud.nativeEnum _) as [s|] eqn:Hs; [|now destruct Hb].
      apply optional_Some in Hd as [-> _], Hs as [-> _]; try reflexivity.
      unfold TaskCrud.task_create. rewrite Hid. unfold owned in Hown. rewrite Hown.
      reflexivity. }
    split; [exact Hc|]. intros b'.
    unfold TaskCrud.getTask. cbn [TaskCrud.userId TaskCrud.body TaskCrud.id].
    unfold task_first. cbn [tasks]. rewrite find_app_last, (no_id_no_match _ _ _ Hid).
    unfold task_matches. cbn. now rewrite !String.eqb_refl.
Qed.

End TaskClaims.

Section TaskExamples.
Import Reference Examples Scenarios.

Lemma twoUsers_unique : unique Task.id (tasks twoUsers).
Proof.
  unfold unique. cbn. apply List.NoDup_cons.
  - intros [H|[]]. discriminate.
  - apply List.NoDup_cons; [intros [] | apply List.NoDup_nil].
Qed.

(** Witness: Alice deletes her task; Bob's is all that [others] holds,
    before and after. *)
Lemma task_routes_touch_only_the_requesters_tasks_witness :
  others "u1" (snd (TaskCrud.deleteTask (TaskCrud.mkRequest (Some "u1") "k1" another) twoUsers))
  = [bobTask].
Proof.
  pose proof (proj1 (proj2 (proj2 (proj2
    (task_routes_touch_only_the_requesters_tasks "u1" twoUsers twoUsers_unique))))
    "k1" another) as H.
  cbv zeta in H. destruct H as [H _]. rewrite H. vm_compute. reflexivity.
Defined.

(** Witness: Alice asks to delete Bob's task. *)
Lemma foreign_tasks_look_missing_witness :
  TaskCrud.deleteTask (TaskCrud.mkRequest (Some "u1") "k2" another) twoUsers
  = (TaskCrud.notFound, twoUsers).
Proof.
  assert (H : not_mine "u1" "k2" twoUsers).
  { apply task_first_not_mine. vm_compute. reflexivity. }
  exact (proj1 (proj2 (foreign_tasks_look_missing "u1" "k2" twoUsers) H) another).
Defined.

(** Witness: Alice renames her task and marks it done; a body that
    names nothing leaves the store as it is. *)
Lemma updateTask_changes_what_the_body_names_witness :
  fst (TaskCrud.updateTask click1 (TaskCrud.mkRequest (Some "u1") "k1" rename) twoUsers)
  = TaskCrud.Json 200
      (TaskJson (Task.mk "k1" "file the report" None COMPLETED "u1" 2000000 3000000))
  /\ TaskCrud.updateTask click1 (TaskCrud.mkRequest (Some "u1") "k1" nothing) twoUsers
     = (TaskCrud.Json 200 (TaskJson aliceTask), twoUsers).
Proof.
  assert (Hk : task_first "k1" (Some "u1") twoUsers = Some aliceTask)
    by (vm_compute; reflexivity).
  assert (Hb : TaskCrud.updateTaskSchema rename
               = Some (TaskCrud.mkData (Some "file the report") None (Some COMPLETED)))
    by (vm_compute; reflexivity).
  assert (Hn : TaskCrud.updateTaskSchema nothing = Some (TaskCrud.mkData None None None))
    by (vm_compute; reflexivity).
  split.
  - exact (proj1 (updateTask_changes_what_the_body_names click1 "u1" "k1" rename twoUsers
                    aliceTask _ twoUsers_unique Hk Hb)).
  - pose proof (updateTask_changes_what_the_body_names click1 "u1" "k1" nothing twoUsers
                  aliceTask _ twoUsers_unique Hk Hn) as H.
    cbv zeta in H. destruct H as (H1 & _ & _ & _ & _ & _ & _ & H8 & _).
    destruct (H8 eq_refl) as [Hk' Hd'].
    rewrite (surjective_pairing (TaskCrud.updateTask _ _ _)), H1, Hd'.
    reflexivity.
Defined.

(** Witness: Alice deletes her task. *)
Lemma deleteTask_removes_one_row_witness :
  fst (TaskCrud.deleteTask (TaskCrud.mkRequest (Some "u1") "k1" another) twoUsers)
  = TaskCrud.NoContent 204.
Proof.
  assert (Hk : task_first "k1" (Some "u1") twoUsers = Some aliceTask)
    by (vm_compute; reflexivity).
  exact (proj1 (deleteTask_removes_one_row "u1" "k1" another twoUsers aliceTask
                  twoUsers_unique Hk)).
Defined.

(** Witness: Alice adds a task, which starts PENDING; with [null] for
    a description the body is refused. *)
Lemma createTask_appends_an_owned_task_witness :
  fst (TaskCrud.createTask click1 "k3" (TaskCrud.mkRequest (Some "u1") "" another) twoUsers)
  = TaskCrud.Json 201
      (TaskJson (Task.mk "k3" "call Bob" (Some "about the milk") PENDING "u1"
                   3000000 3000000))
  /\ TaskCrud.createTask click1 "k3" (TaskCrud.mkRequest (Some "u1") "" nullDescription)
       twoUsers
     = (TaskCrud.invalid, twoUsers).
Proof.
  assert (Hne : "u1" <> "") by discriminate.
  assert (Hb : TaskCrud.createTaskSchema another <> None) by (vm_compute; discriminate).
  assert (Hid : List.existsb (TaskCrud.has_id "k3") (tasks twoUsers) = false)
    by (vm_compute; reflexivity).
  assert (Hown : owned "u1" twoUsers) by (vm_compute; reflexivity).
  split.
  - pose proof (proj2 (proj2 (proj2
      (createTask_appends_an_owned_task click1 "k3" "" another twoUsers)))
      "u1" "call Bob" Hne eq_refl Hb Hid Hown) as H.
    cbv zeta in H. destruct H as [H _]. rewrite H. reflexivity.
  - destruct (createTask_appends_an_owned_task click1 "k3" "" nullDescription twoUsers)
      as (_ & Hnone & Hbad & _).
    apply (Hbad "u1" Hne). apply Hnone. right. left. split; [discriminate|reflexivity].
Defined.

End TaskExamples.

(* ===================================================================== *)
(** * The client: the tokens it holds *)
(* ===================================================================== *)

Section TokenHolder.
Import ApiClient.

(** X17.  The token holder.  The access token lives in memory only.
    In a browser the refresh token is read from and written to
    [localStorage] alone, the module variable never being read: storing a
    non-empty token and reading it back returns it, storing [null] or the
    empty string removes the item.  Outside a browser the variable is
    returned as it was set.  Either way what is read back is truthy
    exactly when what was stored is; after [clearTokens] both tokens read
    [null]; and neither setter touches the other token. *)
Theorem tokenManager_round_trips :
  forall c tok a,
    getAccessToken (setAccessToken a c) = a
    /\ getRefreshToken (setRefreshToken tok c)
       = (if hasWindow c then (if Js.truthy tok then tok else None) else tok)
    /\ Js.truthy (getRefreshToken (setRefreshToken tok c)) = Js.truthy tok
    /\ (getAccessToken (clearTokens c) = None /\ getRefreshToken (clearTokens c) = None)
    /\ getRefreshToken (setAccessToken a c) = getRefreshToken c
    /\ getAccessToken (setRefreshToken tok c) = getAccessToken c
    /\ (forall c', hasWindow c = true -> hasWindow c' = true ->
                   localStorage c' = localStorage c ->
                   getRefreshToken c' = getRefreshToken c).
Proof.
  intros c tok a. unfold getAccessToken, getRefreshToken. cbn.
  split; [reflexivity|]. split; [now destruct (hasWindow c)|]. split.
  { destruct (hasWindow c); [|reflexivity]. now destruct (Js.truthy tok) eqn:H. }
  split; [now destruct (hasWindow c)|]. split; [reflexivity|]. split; [reflexivity|].
  now intros c' -> -> ->.
Qed.

(** ** What the helpers leave alone *)

Lemma getRefreshToken_held c c' : held c' = held c -> getRefreshToken c' = getRefreshToken c.
Proof. unfold held, getRefreshToken. now intros [= -> -> ->]. Qed.

Lemma held_send r c : held (send r c) = held c.
Proof.
  unfold send, requestInterceptor.
  destruct (getAccessToken c) as [t|]; [destruct (Js.truthy (Some t))|]; reflexivity.
Qed.

Lemma held_fold (f : Client -> nat -> Client) q :
  (forall a r, held (f a r) = held a) ->
  forall c, held (List.fold_left f q c) = held c.
Proof.
  intros Hf. induction q as [|r q IH]; intros c; cbn; [reflexivity|].
  now rewrite IH, Hf.
Qed.

Lemma held_processQueue err tok c : held (processQueue err tok c) = held c.
Proof.
  unfold processQueue. rewrite held_fold; [reflexivity|].
  intros a r. destruct err; [reflexivity|].
  unfold resolveQueued. now rewrite held_send.
Qed.

Lemma getRefreshToken_clearTokens c : getRefreshToken (clearTokens c) = None.
Proof. unfold getRefreshToken. cbn. now destruct (hasWindow c). Qed.

Lemma truthy_default (o : option string) : Js.truthy o = true -> Some (default "" o) = o.
Proof. destruct o; [reflexivity|discriminate]. Qed.

Lemma In_remove_call r p l : In p (remove_call r l) -> In p l.
Proof. unfold remove_call. intros H. now apply filter_In in H as [H _]. Qed.

Lemma refreshCalls_send r c : refreshCalls (send r c) = refreshCalls c.
Proof. now destruct (flight_eq _ _ (flight_send r c)) as (H & _). Qed.

Lemma refreshCalls_processQueue err tok c :
  refreshCalls (processQueue err tok c) = refreshCalls c.
Proof. now destruct (flight_eq _ _ (flight_processQueue err tok c)) as (H & _). Qed.

(** One event that is not a login or registration. *)
Lemma handle_tokens ev c :
  not_stored ev ->
  (getRefreshToken (handle ev c) = getRefreshToken c
   \/ getRefreshToken (handle ev c) = None)
  /\ forall p, In p (refreshCalls (handle ev c)) ->
               In p (refreshCalls c) \/ Some (snd p) = getRefreshToken c.
Proof.
  intros Hev. destruct ev as [r|r status|r res|access refresh|]; cbn [handle].
  - destruct (configs c !! r); [auto|]. split.
    + left. apply getRefreshToken_held. now rewrite held_send.
    + intros p. rewrite refreshCalls_send. auto.
  - destruct (List.existsb _ _); [|auto].
    assert (Hrej : forall err,
      let c1 := set_inflight (remove_first r (inflight c)) c in
      (getRefreshToken (onRejected r err c1) = getRefreshToken c
       \/ getRefreshToken (onRejected r err c1) = None)
      /\ forall p, In p (refreshCalls (onRejected r err c1)) ->
                   In p (refreshCalls c) \/ Some (snd p) = getRefreshToken c).
    { intros err c1. unfold onRejected.
      destruct (is401 err && negb (_retry (config_of r c1))); [|auto].
      destruct (isRefreshing c1); [auto|].
      change (getRefreshToken (set_isRefreshing true (set_retry r c1)))
        with (getRefreshToken c).
      destruct (Js.truthy (getRefreshToken c)) eqn:Ht.
      - split; [auto|]. intros p Hp. cbn in Hp.
        apply in_app_iff in Hp as [Hp|[<-|[]]]; [auto|]. right. cbn.
        now apply truthy_default.
      - split; [|auto]. right.
        change (getRefreshToken (settle r (Rejected err)
                  (redirectToLogin (clearTokens (set_isRefreshing true (set_retry r c1))))))
          with (getRefreshToken (clearTokens c)).
        apply getRefreshToken_clearTokens. }
    destruct status as [s|]; [destruct (is2xx s)|]; auto; apply Hrej.
  - destruct (List.existsb _ _); [|auto]. unfold onRefreshSettled.
    destruct res as [tok|].
    + split.
      * left. apply getRefreshToken_held. cbn [set_isRefreshing held hasWindow refreshToken localStorage].
        change (held (send r (set_Authorization r (bearer tok)
                  (processQueue None tok (setAccessToken (Some tok)
                     (set_refreshCalls (remove_call r (refreshCalls c)) (refreshesSent c) c))))) = held c).
        rewrite held_send.
        change (held (processQueue None tok (setAccessToken (Some tok)
                  (set_refreshCalls (remove_call r (refreshCalls c)) (refreshesSent c) c)))
                = held c).
        now rewrite held_processQueue.
      * intros p. cbn [set_isRefreshing refreshCalls]. rewrite refreshCalls_send.
        change (refreshCalls (set_Authorization r (bearer tok) ?x)) with (refreshCalls x).
        cbn [set_Authorization set_configs refreshCalls].
        rewrite refreshCalls_processQueue. cbn. intros Hp. left.
        eapply In_remove_call; eauto.
    + split.
      * right.
        change (getRefreshToken (clearTokens (processQueue (Some RefreshFailed) ""
                  (set_refreshCalls (remove_call r (refreshCalls c)) (refreshesSent c) c)))
                = None).
        apply getRefreshToken_clearTokens.
      * intros p. cbn [set_isRefreshing settle redirectToLogin clearTokens refreshCalls].
        rewrite refreshCalls_processQueue. cbn. intros Hp. left.
        eapply In_remove_call; eauto.
  - destruct Hev.
  - split; [right; apply getRefreshToken_clearTokens|auto].
Qed.

(** X18.  The client never takes up the refresh token that a refresh
    returns.  Over any sequence of events without a login or registration
    storing a new pair (successful and failed refreshes included) the
    refresh token it holds is the one it held at the start, or none once
    the tokens were cleared; so every refresh call it sends in that time
    carries that same token. *)
Theorem client_keeps_presenting_the_same_refresh_token :
  forall evs c,
    Forall not_stored evs ->
    (getRefreshToken (run evs c) = getRefreshToken c
     \/ getRefreshToken (run evs c) = None)
    /\ forall p, In p (refreshCalls (run evs c)) ->
                 In p (refreshCalls c) \/ Some (snd p) = getRefreshToken c.
Proof.
  induction evs as [|ev evs IH]; intros c Hevs; [cbn; auto|].
  apply Forall_cons_iff in Hevs as [Hev Hevs].
  change (run (ev :: evs) c) with (run evs (handle ev c)).
  destruct (IH (handle ev c) Hevs) as [Hg Hc].
  destruct (handle_tokens ev c Hev) as [Hg1 Hc1]. split.
  - destruct Hg as [->| ->]; auto.
  - intros p Hp. destruct (Hc p Hp) as [H|H]; [auto|].
    destruct Hg1 as [Hg1|Hg1]; rewrite Hg1 in H; [auto|discriminate].
Qed.

End TokenHolder.

(* ===================================================================== *)
(** * The client: a 401 with no refresh token to present *)
(* ===================================================================== *)

Section Stuck.
Import ApiClient.

Lemma told_settle r r' o c :
  told r (settle r' o c) = (told r c ++ (if Nat.eqb r' r then [o] else []))%list.
Proof.
  unfold told. cbn [settle settled]. rewrite List.filter_app, List.map_app. cbn.
  now destruct (Nat.eqb r' r).
Qed.

Lemma told_settle_other r r' o c : r' <> r -> told r (settle r' o c) = told r c.
Proof.
  intros Hne. rewrite told_settle. apply Nat.eqb_neq in Hne. rewrite Hne.
  apply List.app_nil_r.
Qed.

Lemma In_remove_first_inv r x l : In x (remove_first r l) -> In x l.
Proof.
  induction l as [|a l IH]; cbn; [auto|].
  destruct (Nat.eqb a r); [auto|]. intros [->|H]; auto.
Qed.

Lemma configs_requestInterceptor r r0 c :
  configs c !! r0 <> None -> configs (requestInterceptor r c) !! r0 <> None.
Proof.
  unfold requestInterceptor.
  destruct (getAccessToken c) as [t|]; [destruct (Js.truthy (Some t))|]; auto.
  intros H. unfold set_Authorization. cbn.
  destruct (decide (r = r0)) as [->|Hne].
  - now rewrite lookup_insert_eq.
  - now rewrite lookup_insert_ne.
Qed.

(** With the flag up and no refresh call in flight, no event changes
    that. *)
Lemma stuck_flight ev c : stuck c -> flight (handle ev c) = flight c.
Proof.
  intros [Hr Hc]. destruct ev as [r|r status|r res|access refresh|]; cbn [handle];
    try reflexivity.
  - destruct (configs c !! r); [reflexivity|]. now rewrite flight_send.
  - destruct (List.existsb _ _); [|reflexivity].
    assert (Hrej : forall err,
      flight (onRejected r err (set_inflight (remove_first r (inflight c)) c)) = flight c).
    { intros err. unfold onRejected.
      destruct (is401 err && negb _); [|reflexivity].
      cbn [isRefreshing set_inflight]. now rewrite Hr. }
    destruct status as [s|]; [destruct (is2xx s)|]; auto.
  - now rewrite Hc.
Qed.

Lemma stuck_handle ev c : stuck c -> stuck (handle ev c).
Proof.
  intros Hs. destruct (flight_eq _ _ (stuck_flight ev c Hs)) as (H1 & H2 & _).
  destruct Hs as [Hr Hc]. unfold stuck. now rewrite H1, H2.
Qed.

Lemma parked_handle ev r c :
  stuck c -> parked r c ->
  parked r (handle ev c) /\ told r (handle ev c) = told r c.
Proof.
  intros [Hr Hc] (Hq & Hi & Hcfg).
  destruct ev as [r'|r' status|r' res|access refresh|]; cbn [handle].
  - destruct (configs c !! r') eqn:Hr'; [now repeat split|].
    assert (Hne : r' <> r) by congruence.
    destruct (requestInterceptor_fields r'
                (set_configs (<[ r' := mkConfig None false ]> (configs c)) c))
      as (Hin & _ & _ & Hfq & Hst & _).
    unfold send, parked, told.
    cbn [log_wire set_inflight failedQueue inflight configs settled].
    rewrite Hin, Hfq, Hst. cbn [set_configs failedQueue inflight settled].
    split; [|reflexivity]. split; [exact Hq|]. split.
    + rewrite in_app_iff. intros [H|[H|[]]]; [auto|congruence].
    + apply configs_requestInterceptor. cbn. now rewrite lookup_insert_ne.
  - destruct (List.existsb (Nat.eqb r') (inflight c)) eqn:Hin; [|now repeat split].
    apply existsb_In in Hin.
    assert (Hne : r' <> r) by (intros ->; auto).
    assert (Hi' : ~ In r (remove_first r' (inflight c)))
      by (intros H; apply Hi; eapply In_remove_first_inv; eauto).
    assert (Hrej : forall err,
      let c' := onRejected r' err (set_inflight (remove_first r' (inflight c)) c) in
      parked r c' /\ told r c' = told r c).
    { intros err c'. subst c'. unfold onRejected.
      destruct (is401 err && negb _).
      - cbn [isRefreshing set_inflight]. rewrite Hr. split; [|reflexivity].
        unfold parked. cbn. rewrite in_app_iff. auto.
      - rewrite told_settle_other by exact Hne. split; [|reflexivity].
        unfold parked. cbn. auto. }
    destruct status as [s|]; [destruct (is2xx s)|]; try apply Hrej.
    rewrite told_settle_other by exact Hne. split; [|reflexivity].
    unfold parked. cbn. auto.
  - rewrite Hc. cbn. now repeat split.
  - now repeat split.
  - now repeat split.
Qed.

(** X19.  When a request is answered 401 while no refresh is under way
    and the client holds no refresh token, the handler raises
    [isRefreshing], clears the tokens and rejects the request with the 401,
    and returns before the [try ... finally] that lowers the flag.  No
    refresh call is in flight then, and no later event lowers the flag or
    starts a refresh: from then on every request answered 401 that was not
    retried before is put in the queue, neither sent again nor answered,
    and a request in the queue stays there, its caller never being told
    anything, whatever happens next. *)
Theorem refresh_without_a_token_leaves_the_flag_up :
  forall c r,
    (In r (inflight c) ->
     isRefreshing c = false -> refreshCalls c = [] ->
     _retry (config_of r c) = false ->
     Js.truthy (getRefreshToken c) = false ->
     let c' := handle (Response r (Some 401%nat)) c in
     stuck c'
     /\ told r c' = (told r c ++ [Rejected (HttpError 401)])%list
     /\ refreshesSent c' = refreshesSent c
     /\ getAccessToken c' = None)
    /\ (stuck c ->
        (forall evs, stuck (run evs c) /\ refreshesSent (run evs c) = refreshesSent c)
        /\ (In r (inflight c) -> _retry (config_of r c) = false ->
            let c' := handle (Response r (Some 401%nat)) c in
            failedQueue c' = (failedQueue c ++ [r])%list
            /\ inflight c' = remove_first r (inflight c)
            /\ told r c' = told r c /\ wire c' = wire c)
        /\ (parked r c ->
            forall evs, parked r (run evs c) /\ told r (run evs c) = told r c)).
Proof.
  intros c r. split.
  - intros Hin Hr Hc Hretry Ht c'. subst c'. cbn [handle].
    apply existsb_In in Hin. rewrite Hin. cbn [is2xx Nat.leb Nat.ltb andb].
    change (is2xx 401) with false. cbv iota. unfold onRejected.
    change (config_of r (set_inflight (remove_first r (inflight c)) c)) with (config_of r c).
    rewrite Hretry. cbn [is401 Nat.eqb negb andb isRefreshing set_inflight].
    change (Nat.eqb 401 401) with true. cbv iota. cbn [andb]. rewrite Hr.
    change (getRefreshToken (set_isRefreshing true
              (set_retry r (set_inflight (remove_first r (inflight c)) c))))
      with (getRefreshToken c).
    rewrite Ht. split; [split; [reflexivity|exact Hc]|].
    split; [|split; reflexivity].
    rewrite told_settle, Nat.eqb_refl. reflexivity.
  - intros Hs. split; [|split].
    + intros evs. revert c Hs. induction evs as [|ev evs IH]; intros c Hs; [now split|].
      change (run (ev :: evs) c) with (run evs (handle ev c)).
      destruct (IH _ (stuck_handle ev c Hs)) as [H1 H2]. split; [exact H1|].
      rewrite H2. now destruct (flight_eq _ _ (stuck_flight ev c Hs)) as (_ & _ & H).
    + intros Hin Hretry c'. subst c'. cbn [handle].
      apply existsb_In in Hin. rewrite Hin. change (is2xx 401) with false. cbv iota.
      unfold onRejected.
      change (config_of r (set_inflight (remove_first r (inflight c)) c)) with (config_of r c).
      rewrite Hretry. change (is401 (HttpError 401)) with true. cbn [negb andb].
      cbn [isRefreshing set_inflight]. destruct Hs as [-> _]. now repeat split.
    + intros Hp evs. revert c Hs Hp.
      induction evs as [|ev evs IH]; intros c Hs Hp; [now split|].
      change (run (ev :: evs) c) with (run evs (handle ev c)).
      destruct (parked_handle ev r c Hs Hp) as [Hp' Ht].
      destruct (IH _ (stuck_handle ev c Hs) Hp') as [H1 H2]. split; [exact H1|].
      now rewrite H2.
Qed.

End Stuck.

(* ===================================================================== *)
(** * From login to the protected routes and to refresh *)
(* ===================================================================== *)

Section EndToEnd.
Context {codec : Jwt.Codec} {libs : AuthController.Libs} (penv : Jwt.ProcessEnv).

Lemma authenticate_bearer clock tok :
  has_space tok = false ->
  AuthMiddleware.authenticate penv clock (Some (ApiClient.bearer tok))
  = match Jwt.verifyAccessToken penv clock tok with
    | inr decoded => AuthMiddleware.Next (Jwt.userId decoded)
    | inl _ => AuthMiddleware.Reply AuthMiddleware.badToken
    end.
Proof.
  intros Hs. unfold AuthMiddleware.authenticate, ApiClient.bearer.
  change (Js.truthy (Some ("Bearer " ++ tok))) with true.
  change (String.prefix "Bearer " ("Bearer " ++ tok)) with (String.prefix "" tok).
  replace (String.prefix "" tok) with true by now destruct tok.
  cbn [negb orb]. cbv zeta. now rewrite second_field.
Qed.


(** The run of [refresh] that rotates. *)
Lemma refresh_renewed_run e b tok c st d d' u :
  AuthController.refreshSchema b = Some tok ->
  Jwt.verifyRefreshToken penv (now e) tok = inr c ->
  token_by_token tok d = Some st ->
  String.eqb (RefreshToken.userId st) (Jwt.userId c) = true ->
  RefreshToken.revoked st = false ->
  apply_writes (AuthController.rotation e st (minted penv e st)) d = inr d' ->
  user_by_id (RefreshToken.userId st) d' = Some u ->
  run (AuthController.refresh penv e b) [] d
  = mkOutcome (inr (renewed penv e st (User.public u))) d'
      [findCall tok; rotationCall penv e st; userCall st].
Proof.
  intros Hb Hv Hl Hu Hr Hw Hus.
  unfold AuthController.refresh.
  rewrite Hb. cbn. rewrite Hv. cbn. rewrite Hl.
  unfold AuthController.rejected. rewrite Hr, Hu. cbn.
  fold (minted penv e st). rewrite Hw. cbn. rewrite Hus. reflexivity.
Qed.


End EndToEnd.

Section ClientExamples.
Import Reference Examples Scenarios ApiClient.

(** Witness: in a browser, storing the empty string removes the item. *)
Lemma tokenManager_round_trips_witness :
  getRefreshToken (setRefreshToken (Some "") browser) = None
  /\ getRefreshToken (setRefreshToken (Some "r2") browser) = Some "r2".
Proof.
  split.
  - rewrite (proj1 (proj2 (tokenManager_round_trips browser (Some "") None))). reflexivity.
  - rewrite (proj1 (proj2 (tokenManager_round_trips browser (Some "r2") None))). reflexivity.
Defined.

(** Witness: the browser of the examples, whose second refresh is in
    flight after the first succeeded: it carries "rt" again. *)
Lemma client_keeps_presenting_the_same_refresh_token_witness :
  List.Forall (fun p => snd p = "rt") (refreshCalls (run secondRefreshInFlight browser)).
Proof.
  assert (Hevs : Forall not_stored secondRefreshInFlight) by (repeat constructor).
  apply List.Forall_forall. intros p Hp.
  destruct (proj2 (client_keeps_presenting_the_same_refresh_token
                     secondRefreshInFlight browser Hevs) p Hp) as [H|H].
  - destruct H.
  - now injection H.
Defined.

(** Witness: outside a browser and without a refresh token, request 1
    raises the flag and request 2 is parked; nothing that follows tells
    the caller of request 2 anything. *)
Lemma refresh_without_a_token_leaves_the_flag_up_witness :
  stuck serverSide /\ told 2 (run whatever serverSide) = [].
Proof.
  assert (Hs : stuck serverSide) by (split; vm_compute; reflexivity).
  assert (Hp : parked 2 serverSide).
  { split; [|split].
    - vm_compute. now left.
    - vm_compute. tauto.
    - vm_compute. discriminate. }
  split; [exact Hs|].
  rewrite (proj2 (proj2 (proj2 (proj2 (refresh_without_a_token_leaves_the_flag_up
                                         serverSide 2) Hs)) Hp whatever)).
  vm_compute. reflexivity.
Defined.

End ClientExamples.

Section EndToEndExamples.
Import Reference Examples Scenarios.



End EndToEndExamples.

(* ===================================================================== *)
(** * One secret for both kinds of token *)
(* ===================================================================== *)

Section OneSecret.
Context {codec : Jwt.Codec} (penv : Jwt.ProcessEnv).


End OneSecret.

Section OneSecretExamples.
Import Reference Scenarios.


End OneSecretExamples.

(* ===================================================================== *)
(** * The rows hold their owners' tokens *)
(* ===================================================================== *)

Section Owners.
Context {codec : Jwt.Codec} {libs : AuthController.Libs} (penv : Jwt.ProcessEnv).

Lemma own_token_revoke r : own_token penv r -> own_token penv (RefreshToken.revoke r).
Proof. exact (fun H => H). Qed.

Lemma sessions_own_revoke_where p d :
  sessions_own penv d -> sessions_own penv (refreshToken_updateMany p d).
Proof.
  intros Hd r Hin. unfold refreshToken_updateMany in Hin. cbn in Hin.
  apply revoke_where_In in Hin as (r0 & Hin & ->).
  destruct (p r0); [apply own_token_revoke|]; auto.
Qed.

Lemma sessions_own_same d d' :
  refreshTokens d' = refreshTokens d -> sessions_own penv d -> sessions_own penv d'.
Proof. unfold sessions_own. now intros ->. Qed.

Lemma refreshToken_create_own x d d' :
  minted_for penv (RefreshToken.d_userId x) (RefreshToken.d_token x) ->
  refreshToken_create x d = inr d' -> sessions_own penv d -> sessions_own penv d'.
Proof.
  intros Hx. unfold refreshToken_create. destruct (_ || _); [discriminate|].
  destruct (Js.isSome _); [|discriminate]. intros [= <-] Hd r Hin. cbn in Hin.
  apply in_app_iff in Hin as [Hin|[<-|[]]]; [auto|exact Hx].
Qed.

Lemma apply_writes_own ws : forall d d',
  (forall x, In (W_refreshToken_create x) ws ->
             minted_for penv (RefreshToken.d_userId x) (RefreshToken.d_token x)) ->
  apply_writes ws d = inr d' -> sessions_own penv d -> sessions_own penv d'.
Proof.
  induction ws as [|w ws IH]; intros d d' Hws.
  - now intros [= <-].
  - change (apply_writes (w :: ws) d)
      with (match apply_write w d with inl e => inl e | inr d1 => apply_writes ws d1 end).
    destruct (apply_write w d) as [err|d1] eqn:Hw; [discriminate|].
    intros H Hd. apply (IH d1 d'); [intros x Hx; apply Hws; now right|exact H|].
    destruct w as [i|x]; cbn in Hw.
    + unfold refreshToken_update in Hw. destruct (Js.isSome _); [|discriminate].
      injection Hw as <-. now apply (sessions_own_revoke_where (has_id i)).
    + eapply refreshToken_create_own; eauto. apply Hws. now left.
Qed.

Lemma exec_own q d :
  inserts_own penv q -> sessions_own penv d -> sessions_own penv (snd (exec q d)).
Proof.
  intros Hq Hd. destruct q; cbn [exec snd]; try assumption.
  - unfold user_create. destruct (_ || _); cbn; [assumption|].
    now apply (sessions_own_same d).
  - destruct (refreshToken_create data d) as [err|d'] eqn:H; cbn; [assumption|].
    eapply refreshToken_create_own; eauto.
  - now apply sessions_own_revoke_where.
  - now apply sessions_own_revoke_where.
  - now apply sessions_own_revoke_where.
  - destruct (apply_writes ws d) as [err|d'] eqn:H; cbn; [assumption|].
    eapply apply_writes_own; eauto.
  - unfold Prisma.task_update. destruct (task_first id None d); cbn; [|assumption].
    now apply (sessions_own_same d).
Qed.

Lemma run_own {A} (p : Prog A) :
  all_calls (inserts_own penv) p ->
  forall faults d, sessions_own penv d -> sessions_own penv (store (run p faults d)).
Proof.
  induction p as [a|err|q k IH]; intros Hp faults d Hd; cbn; try assumption.
  destruct Hp as [Hq Hk]. apply IH; [apply Hk|].
  destruct faults as [|[|] faults]; cbn; auto using exec_own.
Qed.

Lemma minted_now e uid : minted_for penv uid (Jwt.generateRefreshToken penv (now e) uid).
Proof. now exists (now e). Qed.

(** Every call of the four handlers inserts only such rows: the token
    is minted for the id the row is given. *)
Lemma handler_inserts_own op : all_calls (inserts_own penv) (handler penv op).
Proof.
  destruct op as [e b|e b|e b|b]; cbn [handler].
  - unfold AuthController.register.
    destruct (AuthController.registerSchema b) as [[[em pw] nm]|]; cbn; [|exact I].
    split; [exact I|]. intros [err|[u|]]; cbn; try exact I.
    split; [exact I|]. intros [err|user]; cbn; [exact I|].
    split; [apply minted_now|]. intros [err|row]; cbn; exact I.
  - unfold AuthController.login.
    destruct (AuthController.loginSchema b) as [[em pw]|]; cbn; [|exact I].
    split; [exact I|]. intros [err|[u|]]; cbn; try exact I.
    destruct (AuthController.bcrypt_compare pw (User.password u)); cbn; [|exact I].
    split; [apply minted_now|]. intros [err|row]; cbn; exact I.
  - unfold AuthController.refresh.
    destruct (AuthController.refreshSchema b) as [tok|]; cbn; [|exact I].
    destruct (Jwt.verifyRefreshToken penv (now e) tok) as [err|c]; cbn; [exact I|].
    split; [exact I|]. intros [err|[st|]]; cbn; try exact I.
    destruct (RefreshToken.revoked st || _); cbn.
    + destruct (String.eqb _ _); cbn; [|exact I].
      split; [exact I|]. intros [err|n]; cbn; exact I.
    + split.
      * intros x [[=]|[[= <-]|[]]]. apply minted_now.
      * intros [err|[]]; cbn; [exact I|].
        split; [exact I|]. intros [err|[u|]]; cbn; exact I.
  - unfold AuthController.logout.
    destruct (refreshToken b) as [v|]; [|exact I].
    destruct (Js.truthyJ (Some v)); [|exact I].
    destruct (AuthController.updateMany_where_token v) as [call|] eqn:Hw; [|exact I].
    assert (Hc : inserts_own penv call).
    { unfold AuthController.updateMany_where_token in Hw. destruct v; try discriminate.
      - now injection Hw as <-.
      - destruct (AuthController.prisma_StringFilter fields); [|discriminate].
        now injection Hw as <-. }
    cbn. split; [exact Hc|]. intros [err|n]; cbn; exact I.
Qed.


End Owners.

Section OwnersExamples.
Import Reference Examples.


End OwnersExamples.
